(** * Binary resolution and provisioning of the Postgres Language Server
      VS Code extension: a shallow embedding and its properties.

    The TypeScript sources embedded here are
    - [binary-finder.ts]            (the strategy chain and its two orderings),
    - [binary-finder-strategies.ts] (the five discovery strategies),
    - [config.ts]                   (getConfig),
    - [constants.ts]                (CONSTANTS),
    - [downloader.ts]               (download of a release asset),
    - [session.ts]                  (createSession and the temporary copy),
    - [renaming.ts]                 (hasNewName and the renaming messages).
    [utils.ts], [state.ts] and the release index are not among the sources;
    what the code uses of them is modelled from the specification or is part
    of the host.

    Paths are those of a POSIX host. A file URI is represented by its path,
    which is also its [fsPath]; authorities (UNC paths) and the drive letters
    and backslashes of Windows are not represented.

    Asynchronous code is sequential here: every [await] is a bind of the
    monad [M], which threads the host state ([World]) and carries thrown
    errors (rejected promises). *)

From Stdlib Require Import ZArith NArith Ascii String List Lia.
From stdpp Require Import base option gmap strings list.

Local Open Scope string_scope.
Local Open Scope Z_scope.
Set Warnings "-register-all".

(** ** JavaScript values read from the workspace configuration *)

Inductive JsValue : Type :=
| JUndefined
| JNull
| JBool (b : bool)
| JNumber (n : Z)
| JString (s : string)
| JObject (fields : list (string * JsValue)).

(** [!v]: the falsy values are [undefined], [null], [false], [0] and [""]. *)
Definition truthy (v : JsValue) : bool :=
  match v with
  | JUndefined | JNull => false
  | JBool b => b
  | JNumber n => negb (n =? 0)
  | JString s => negb (String.eqb s "")
  | JObject _ => true
  end.

(** [obj[key]] on a plain object: the property's value, [undefined] if absent. *)
Fixpoint get_property (fields : list (string * JsValue)) (key : string) : JsValue :=
  match fields with
  | [] => JUndefined
  | (k, v) :: rest => if String.eqb k key then v else get_property rest key
  end.

(** ** The host: file system, configuration, network, user, clock *)

(** A file URI is represented by its path, which on a POSIX host is its
    [fsPath]. *)
Abbreviation Uri := string (only parsing).

(** The bytes of a file, together with what running them with [--version]
    prints as a version token ([None]: non-zero exit or unparsable output). *)
Record Content : Type := mkContent {
  reports : option string;
  raw : string
}.

Record File : Type := mkFile {
  content : Content;
  mode : N
}.

Inductive Level : Type := LDebug | LInfo | LWarn | LError.

(** What the code does to the outside, most recent event first. *)
Inductive Event : Type :=
| Log (lvl : Level) (msg : string) (data : list string)
| ShowErrorMessage (msg : string)
| ShowInformationMessage (msg : string)
| CreateDirectory (dir : string)
| CopyFile (src dst : string)
| Chmod (path : string) (bits : N)
| FsWriteFile (path : string)
| Fetch (method url : string)
| CreateOutputChannel (channel : string).

Inductive outcome (A : Type) : Type :=
| Ok (a : A)
| Throw (err : string).
Arguments Ok {A} a.
Arguments Throw {A} err.

Inductive OperatingMode : Type := SingleFile | SingleRoot | MultiRoot.

Record Release : Type := mkRelease {
  tag_name : string;
  prerelease : bool
}.

(** The part of the host that the code only reads. *)
Record Env : Type := mkEnv {
  (** [process.platform], [process.arch] *)
  process_platform : string;
  process_arch : string;
  (** [workspace.workspaceFolders] at load time *)
  workspaceFolders : option (list Uri);
  (** [workspace.getConfiguration(section, scope).get(key)] *)
  configuration : string -> option Uri -> gmap string JsValue;
  (** [process.env.PATH] *)
  env_PATH : option string;
  (** [state.context.globalStorageUri] *)
  globalStorageUri : Uri;
  (** [fetch(url)] followed by [blob()] and [arrayBuffer()] *)
  net_get : string -> outcome Content;
  (** [fetch(url, {method: "HEAD"})]: [response.ok], or a network error *)
  net_head : string -> outcome bool;
  (** milliseconds a network round trip takes *)
  net_latency : Z;
  (** [require(pnpFile)]: loading the manifest gives its [resolveRequest], a
      function of the request and the issuer, or throws *)
  pnp_require : string -> outcome (string -> string -> outcome string);
  (** [require.resolve(request, {paths: [dir]})] *)
  require_resolve : string -> string -> outcome string;
  (** [createRequire(file).resolve(request)] *)
  require_resolve_from : string -> string -> outcome string;
  (** the button the user presses on an information message with buttons *)
  user_choice : string -> option string;
  (** the entry the user picks in the quick pick *)
  user_pick : list (string * list string) -> option string;
  (** [state.releases] *)
  releases : list Release;
  releases_versionOutdated : string -> bool;
  releases_latestVersion : string
}.

Record World : Type := mkWorld {
  env : Env;
  (** the regular files, by path *)
  files : gmap string File;
  (** the directories *)
  dirs : gset string;
  (** [state.context.globalState]; an ISO date string is represented by the
      instant it denotes, in milliseconds since the epoch *)
  globalState : gmap string Z;
  (** [Date.now()] *)
  clock : Z;
  trace : list Event
}.

Definition set_files (f : gmap string File) (w : World) : World :=
  mkWorld (env w) f (dirs w) (globalState w) (clock w) (trace w).
Definition set_dirs (d : gset string) (w : World) : World :=
  mkWorld (env w) (files w) d (globalState w) (clock w) (trace w).
Definition set_globalState (g : gmap string Z) (w : World) : World :=
  mkWorld (env w) (files w) (dirs w) g (clock w) (trace w).
Definition set_clock (t : Z) (w : World) : World :=
  mkWorld (env w) (files w) (dirs w) (globalState w) t (trace w).
Definition record (e : Event) (w : World) : World :=
  mkWorld (env w) (files w) (dirs w) (globalState w) (clock w) (e :: trace w).

(** ** The monad of asynchronous, failing, effectful code *)

Definition M (A : Type) : Type := World -> outcome A * World.

Definition ret {A} (a : A) : M A := fun w => (Ok a, w).
Definition throw {A} (err : string) : M A := fun w => (Throw err, w).
Definition bind {A B} (m : M A) (k : A -> M B) : M B :=
  fun w => match m w with
           | (Ok a, w') => k a w'
           | (Throw err, w') => (Throw err, w')
           end.
(** [try { m } catch (err) { h err }] *)
Definition try_catch {A} (m : M A) (h : string -> M A) : M A :=
  fun w => match m w with
           | (Ok a, w') => (Ok a, w')
           | (Throw err, w') => h err w'
           end.
Definition gets {A} (f : World -> A) : M A := fun w => (Ok (f w), w).
Definition modify (f : World -> World) : M unit := fun w => (Ok tt, f w).
Definition emit (e : Event) : M unit := modify (record e).
Notation "'let*' x ':=' c 'in' k" := (bind c (fun x => k))
  (at level 10, x name, c at level 100, k at level 200).
Notation "c ';;;' k" := (bind c (fun _ => k))
  (at level 100, k at level 200, right associativity).

Module logger.
Definition debug (msg : string) (data : list string) : M unit := emit (Log LDebug msg data).
Definition info (msg : string) (data : list string) : M unit := emit (Log LInfo msg data).
Definition warn (msg : string) (data : list string) : M unit := emit (Log LWarn msg data).
Definition error (msg : string) (data : list string) : M unit := emit (Log LError msg data).
End logger.

Module window.
Definition showErrorMessage (msg : string) : M unit := emit (ShowErrorMessage msg).
Definition showInformationMessage (msg : string) : M unit :=
  emit (ShowInformationMessage msg).
(** an information message with buttons: resolves to the button pressed *)
Definition askInformationMessage (msg : string) : M (option string) :=
  fun w => (Ok (user_choice (env w) msg), record (ShowInformationMessage msg) w).
End window.

(** ** constants.ts *)

Module CONSTANTS.

Definition is_win32 (e : Env) : bool := String.eqb (process_platform e) "win32".

Definition oldPlatformSpecificBinaryName (e : Env) : string :=
  "postgrestools" +:+ (if is_win32 e then ".exe" else "").
Definition newPlatformSpecificBinaryName (e : Env) : string :=
  "postgres-language-server" +:+ (if is_win32 e then ".exe" else "").

Definition oldPackageName : string := "@postgrestools/postgrestools".
Definition newPackageName : string := "@postgres-language-server/cli".

(** [table[key]] on the constant tables, which are association lists in
    declaration order. *)
Fixpoint assoc {A} (table : list (string * A)) (key : string) : option A :=
  match table with
  | [] => None
  | (k, v) :: rest => if String.eqb k key then Some v else assoc rest key
  end.

Definition OLD_PACKAGE_NAMES : list (string * list (string * string)) :=
  [ ("win32", [ ("x64", "@postgrestools/cli-x86_64-windows-msvc");
                ("arm64", "@postgrestools/cli-aarch64-windows-msvc") ]);
    ("darwin", [ ("x64", "@postgrestools/cli-x86_64-apple-darwin");
                 ("arm64", "@postgrestools/cli-aarch64-apple-darwin") ]);
    ("linux", [ ("x64", "@postgrestools/cli-x86_64-linux-gnu");
                ("arm64", "@postgrestools/cli-aarch64-linux-gnu") ]) ].
Definition NEW_PACKAGE_NAMES : list (string * list (string * string)) :=
  [ ("win32", [ ("x64", "@postgres-language-server/cli-x86_64-windows-msvc");
                ("arm64", "@postgres-language-server/cli-aarch64-windows-msvc") ]);
    ("darwin", [ ("x64", "@postgres-language-server/cli-x86_64-apple-darwin");
                 ("arm64", "@postgres-language-server/cli-aarch64-apple-darwin") ]);
    ("linux", [ ("x64", "@postgres-language-server/cli-x86_64-linux-gnu");
                ("arm64", "@postgres-language-server/cli-aarch64-linux-gnu") ]) ].

Definition platformMappings : list (string * string) :=
  [ ("darwin", "apple-darwin"); ("linux", "unknown-linux-gnu");
    ("win32", "pc-windows-msvc") ].
Definition archMappings : list (string * string) :=
  [ ("arm64", "aarch64"); ("x64", "x86_64") ].

(** [TABLE[platform]?.[arch]] *)
Definition platform_package (table : list (string * list (string * string)))
    (e : Env) : option string :=
  match assoc table (process_platform e) with
  | Some by_arch => assoc by_arch (process_arch e)
  | None => None
  end.
Definition oldPlatformSpecificNodePackageName (e : Env) : option string :=
  platform_package OLD_PACKAGE_NAMES e.
Definition newPlatformSpecificNodePackageName (e : Env) : option string :=
  platform_package NEW_PACKAGE_NAMES e.

(** [for (const [k, v] of Object.entries(table)) if (k === key) name += sep + v] *)
Fixpoint append_matching (table : list (string * string)) (key sep name : string)
    : string :=
  match table with
  | [] => name
  | (k, v) :: rest =>
      append_matching rest key sep
        (if String.eqb k key then name +:+ sep +:+ v else name)
  end.
Definition releasedAssetName (base : string) (e : Env) : string :=
  append_matching platformMappings (process_platform e) "-"
    (append_matching archMappings (process_arch e) "_" base).
Definition oldPlatformSpecificReleasedAssetName (e : Env) : string :=
  releasedAssetName "postgrestools" e.
Definition newPlatformSpecificReleasedAssetName (e : Env) : string :=
  releasedAssetName "postgres-language-server" e.

Definition operatingMode (e : Env) : OperatingMode :=
  match workspaceFolders e with
  | None => SingleFile
  | Some folders => if (1 <? length folders)%nat then MultiRoot else SingleRoot
  end.

Definition platformIdentifier (e : Env) : string :=
  process_platform e +:+ "-" +:+ process_arch e.

(** [!!(platformMappings[process.platform] && archMappings[process.arch])] *)
Definition currentMachineSupported (e : Env) : bool :=
  match assoc platformMappings (process_platform e), assoc archMappings (process_arch e) with
  | Some _, Some _ => true
  | _, _ => false
  end.

Definition globalStorageFolderForBinary : string := "global-bin".
Definition globalStorageFolderTmp : string := "tmp-bin".

End CONSTANTS.

(** ** Strings, as the library functions of JavaScript treat them *)

(** [s.split(d)] for a one-character delimiter. *)
Fixpoint split_acc (d : ascii) (s : string) (cur : string) : list string :=
  match s with
  | EmptyString => [cur]
  | String c rest =>
      if Ascii.eqb c d then cur :: split_acc d rest ""
      else split_acc d rest (cur +:+ String c "")
  end.
Definition split (d : ascii) (s : string) : list string := split_acc d s "".

(** [parts.join(sep)] *)
Fixpoint join_with (sep : string) (parts : list string) : string :=
  match parts with
  | [] => ""
  | [p] => p
  | p :: rest => p +:+ sep +:+ join_with sep rest
  end.

Fixpoint drop_chars (n : nat) (s : string) : string :=
  match n, s with
  | O, _ => s
  | S n', String _ rest => drop_chars n' rest
  | S _, EmptyString => EmptyString
  end.

(** The replacement text of [String.prototype.replace] for a string pattern
    (GetSubstitution without captures): [$$] stands for a dollar sign, [$&]
    for the matched text, [$`] for the text before the match and [$'] for the
    text after it; every other character, a single dollar sign included,
    stands for itself. *)
Fixpoint expand_replacement (matched before after replacement : string) : string :=
  match replacement with
  | EmptyString => EmptyString
  | String c rest =>
      if Ascii.eqb c "$" then
        match rest with
        | String c' rest' =>
            if Ascii.eqb c' "$" then
              String "$" (expand_replacement matched before after rest')
            else if Ascii.eqb c' "&" then
              matched +:+ expand_replacement matched before after rest'
            else if Ascii.eqb c' "`" then
              before +:+ expand_replacement matched before after rest'
            else if Ascii.eqb c' "'" then
              after +:+ expand_replacement matched before after rest'
            else String c (expand_replacement matched before after rest)
        | EmptyString => String c EmptyString
        end
      else String c (expand_replacement matched before after rest)
  end.

(** [s.replace(pattern, replacement)] with a string pattern: the first
    occurrence is replaced; [before] is the text already passed. *)
Fixpoint replace_from (pattern replacement before s : string) : string :=
  if String.prefix pattern s
  then expand_replacement pattern before (drop_chars (String.length pattern) s) replacement
       +:+ drop_chars (String.length pattern) s
  else match s with
       | String c rest =>
           String c (replace_from pattern replacement (before +:+ String c "") rest)
       | EmptyString => EmptyString
       end.
Definition replace (pattern replacement s : string) : string :=
  replace_from pattern replacement "" s.

(** [s.replaceAll(a, b)] for one-character strings. *)
Fixpoint replaceAll_char (a b : ascii) (s : string) : string :=
  match s with
  | EmptyString => EmptyString
  | String c rest => String (if Ascii.eqb c a then b else c) (replaceAll_char a b rest)
  end.

(** ** The host's URI and path functions *)

(** [path.delimiter] *)
Definition path_delimiter (e : Env) : ascii :=
  if CONSTANTS.is_win32 e then ";"%char else ":"%char.

Definition is_empty (s : string) : bool :=
  match s with EmptyString => true | _ => false end.

Fixpoint ends_with_slash (s : string) : bool :=
  match s with
  | EmptyString => false
  | String c EmptyString => Ascii.eqb c "/"
  | String _ rest => ends_with_slash rest
  end.

(** [normalizeString] of [path.posix]: the segments are passed from the left;
    an empty segment and [.] are dropped, [..] removes the segment before it,
    and where there is none it is kept in a relative path and dropped in an
    absolute one. [stack] holds the segments kept so far, the last one
    first. *)
Fixpoint normalize_segments (allowAboveRoot : bool) (stack segments : list string)
    : list string :=
  match segments with
  | [] => stack
  | seg :: rest =>
      normalize_segments allowAboveRoot
        (if is_empty seg || String.eqb seg "." then stack
         else if String.eqb seg ".." then
           match stack with
           | top :: below =>
               if String.eqb top ".." then seg :: stack else below
           | [] => if allowAboveRoot then [seg] else []
           end
         else seg :: stack)
        rest
  end.

(** The kept segments with separators between them. *)
Fixpoint render_segments (stack : list string) : string :=
  match stack with
  | [] => ""
  | [seg] => seg
  | seg :: below => render_segments below +:+ "/" +:+ seg
  end.

(** [path.posix.normalize(p)] *)
Definition posix_normalize (p : string) : string :=
  if is_empty p then "."
  else
    let isAbsolute := String.prefix "/" p in
    let trailingSeparator := ends_with_slash p in
    let body :=
      render_segments (normalize_segments (negb isAbsolute) [] (split "/" p)) in
    if is_empty body then
      if isAbsolute then "/" else if trailingSeparator then "./" else "."
    else
      (if isAbsolute then "/" else "") +:+ body
      +:+ (if trailingSeparator then "/" else "").

(** [path.posix.join(...parts)] *)
Definition posix_join (parts : list string) : string :=
  let joined := join_with "/" (List.filter (fun p => negb (is_empty p)) parts) in
  if is_empty joined then "." else posix_normalize joined.

(** A character other than a slash occurs in [s]. *)
Fixpoint has_segment_char (s : string) : bool :=
  match s with
  | EmptyString => false
  | String c rest => negb (Ascii.eqb c "/") || has_segment_char rest
  end.

(** The index at which [path.posix.dirname] cuts: that of the last slash, the
    first character of the path apart, after which a segment follows. [i] is
    the index of the first character of [s]. *)
Fixpoint dirname_end (i : nat) (s : string) : option nat :=
  match s with
  | EmptyString => None
  | String c rest =>
      match dirname_end (S i) rest with
      | Some e => Some e
      | None =>
          if Ascii.eqb c "/" && (1 <=? i)%nat && has_segment_char rest
          then Some i else None
      end
  end.

(** [path.posix.dirname(p)] *)
Definition dirname (p : string) : string :=
  if is_empty p then "."
  else
    let hasRoot := String.prefix "/" p in
    match dirname_end 0 p with
    | None => if hasRoot then "/" else "."
    | Some e => if hasRoot && Nat.eqb e 1 then "//" else String.substring 0 e p
    end.

(** [Uri.file(path)]: the path of a file URI starts with a slash, which is
    put in front when it is missing. *)
Definition Uri_file (path : string) : Uri :=
  if String.prefix "/" path then path else "/" +:+ path.

(** [Uri.joinPath(base, ...segments)]: the path of [base] and the segments,
    joined and normalised. *)
Definition Uri_joinPath (base : Uri) (segments : list string) : Uri :=
  posix_join (base :: segments).

(** [path.join(base, segment)] *)
Definition path_join (base segment : string) : string := posix_join [base; segment].

(** ** utils.ts *)

(** Modelled from the spec: [fileExists] of utils.ts, which is not among the
    sources; "file exists" is the presence of a regular file at the path. *)
Definition fileExists (uri : Uri) : M bool :=
  gets (fun w => match files w !! uri with Some _ => true | None => false end).

(** Modelled from the spec: [fileIsExecutable] of utils.ts, which is not among
    the sources; the file is there and its owner may execute it. *)
Definition fileIsExecutable (uri : Uri) (w : World) : bool :=
  match files w !! uri with
  | Some f => N.testbit (mode f) 6
  | None => false
  end.

(** Modelled from the spec: what the VersionProbe yields for the file [f],
    which it invokes with a version flag: the version the bytes print, when
    the owner may execute the file. *)
Definition version_of (f : File) : option string :=
  if N.testbit (mode f) 6 then reports (content f) else None.

(** Modelled from the spec: [getVersion] of utils.ts (the VersionProbe), which
    is not among the sources; it runs the binary with a version flag and parses
    one version token, and a file that is missing or cannot be run, a non-zero
    exit or unparsable output is "no version". *)
Definition getVersion (uri : Uri) : M (option string) :=
  gets (fun w => match files w !! uri with
                 | Some f => version_of f
                 | None => None
                 end).

(** Modelled from the spec: [daysToMs] of utils.ts, which is not among the
    sources; a number of days in milliseconds. *)
Definition daysToMs (days : Z) : Z := days * 24 * 60 * 60 * 1000.

(** ** config.ts *)

(** [workspace.getConfiguration(section, scope).get(key)] *)
Definition configuration_get (section : string) (scope : option Uri) (key : string)
    : M JsValue :=
  gets (fun w => default JUndefined (configuration (env w) section scope !! key)).

(** [newValue !== undefined && newValue !== "" && newValue !== null &&
     typeof newValue !== "boolean"] *)
Definition is_set (v : JsValue) : bool :=
  match v with
  | JUndefined => false
  | JString s => negb (String.eqb s "")
  | JNull => false
  | JBool _ => false
  | _ => true
  end.

Definition getConfig (key : string) (scope : option Uri) : M JsValue :=
  let* newValue := configuration_get "postgres-language-server" scope key in
  logger.debug ("Setting '" +:+ key +:+ "' in new config") [] ;;;
  if is_set newValue then ret newValue
  else
    let* oldValue := configuration_get "postgrestools" scope key in
    logger.debug ("Setting '" +:+ key +:+ "' in old config") [] ;;;
    ret oldValue.

Definition isEnabledForFolder (folder_uri : Uri) : M bool :=
  let* v := getConfig "enabled" (Some folder_uri) in ret (truthy v).

(** ** binary-finder.ts: the strategy chain *)

Record BinaryFindStrategy : Type := mkBinaryFindStrategy {
  name : string;
  find : option Uri -> M (option Uri)
}.

Inductive StrategyKind : Type := NPM | Yarn | VsCodeSettings | Path | Download.

(** [onSuccess] and [condition] are functions of the caller: they act on the
    host, and they may throw like any other call. *)
Record Strategy : Type := mkStrategy {
  label : string;
  kind : StrategyKind;
  strategy : BinaryFindStrategy;
  onSuccess : Uri -> M unit;
  condition : option (option Uri -> M bool)
}.

Record FindResult : Type := mkFindResult {
  bin : Uri;
  found_label : string;
  found_kind : StrategyKind
}.

(** [condition && !(await condition(path))] *)
Definition condition_fails (s : Strategy) (path : option Uri) : M bool :=
  match condition s with
  | None => ret false
  | Some c => let* holds := c path in ret (negb holds)
  end.

(** In the [try] block [Some r] stands for [return r] and [None] for falling
    through to the next iteration. *)
Fixpoint attemptFind (strategies : list Strategy) (path : option Uri)
    : M (option FindResult) :=
  match strategies with
  | [] => ret None
  | s :: rest =>
      let* skip := condition_fails s path in
      if skip then attemptFind rest path
      else
        let* found :=
          try_catch
            (let* binary := find (strategy s) path in
             match binary with
             | Some b =>
                 onSuccess s b ;;;
                 ret (Some (mkFindResult b (label s) (kind s)))
             | None =>
                 logger.info "Binary not found with strategy" [name (strategy s)] ;;;
                 ret None
             end)
            (fun err =>
               logger.error (name (strategy s) +:+ " returned an error") [err] ;;;
               ret None) in
        match found with
        | Some r => ret (Some r)
        | None => attemptFind rest path
        end
  end.

(** ** The file system *)

Module fs.
(** [workspace.fs.createDirectory(dir)]: fails when a regular file has that name. *)
Definition createDirectory (dir : Uri) : M unit :=
  emit (CreateDirectory dir) ;;;
  let* taken := fileExists dir in
  if taken then throw ("EEXIST: " +:+ dir)
  else modify (fun w => set_dirs ({[dir]} ∪ dirs w) w).

(** [copyFileSync(src, dst)]: the destination gets the bytes and the mode of
    the source; fails when the source is missing or may not be read, when the
    destination is a directory, and when the directory of the destination
    does not exist. *)
Definition copyFileSync (src dst : string) : M unit :=
  emit (CopyFile src dst) ;;;
  let* source := gets (fun w => files w !! src) in
  match source with
  | None => throw ("ENOENT: " +:+ src)
  | Some f =>
      if negb (N.testbit (mode f) 8) then throw ("EACCES: " +:+ src)
      else
        let* is_dir := gets (fun w => bool_decide (dst ∈ dirs w)) in
        if is_dir then throw ("EISDIR: " +:+ dst)
        else
          let* has_parent := gets (fun w => bool_decide (dirname dst ∈ dirs w)) in
          if negb has_parent then throw ("ENOENT: " +:+ dst)
          else modify (fun w => set_files (<[dst := f]> (files w)) w)
  end.

(** [chmodSync(path, bits)] *)
Definition chmodSync (path : string) (bits : N) : M unit :=
  emit (Chmod path bits) ;;;
  let* target := gets (fun w => files w !! path) in
  match target with
  | None => throw ("ENOENT: " +:+ path)
  | Some f => modify (fun w => set_files (<[path := mkFile (content f) bits]> (files w)) w)
  end.

(** [workspace.fs.writeFile(path, bytes)]: creates the file, or replaces its
    bytes; fails when a directory has that name. *)
Definition writeFile (path : Uri) (bytes : Content) : M unit :=
  emit (FsWriteFile path) ;;;
  let* is_dir := gets (fun w => bool_decide (path ∈ dirs w)) in
  if is_dir then throw ("EISDIR: " +:+ path)
  else modify (fun w =>
         let bits := match files w !! path with Some f => mode f | None => 420%N end in
         set_files (<[path := mkFile bytes bits]> (files w)) w).
End fs.

(** ** The network and the clock *)

(** [Date.now()] *)
Definition Date_now : M Z := gets clock.

(** Time passes while a request is in flight. *)
Definition round_trip (method url : string) : M unit :=
  emit (Fetch method url) ;;;
  modify (fun w => set_clock (clock w + net_latency (env w)) w).

(** [fetch(url, ...).then(r => r.blob()).then(b => b.arrayBuffer())] *)
Definition fetch_bytes (url : string) : M Content :=
  round_trip "GET" url ;;;
  fun w => (net_get (env w) url, w).

(** ** renaming.ts *)

Definition release_host : string :=
  "https://github.com/supabase-community/postgres-language-server/releases/".

Definition hasNewName : M bool :=
  try_catch
    (let* e := gets env in
     let url := release_host +:+ "latest/download/"
                +:+ CONSTANTS.newPlatformSpecificReleasedAssetName e in
     round_trip "HEAD" url ;;;
     fun w => (net_head (env w) url, w))
    (fun _ => ret false).

Definition updateAndRenamingMessageForKind (k : StrategyKind) : string :=
  match k with
  | NPM | Yarn =>
      "A new version of the Postgres Language Server is available! Make sure to use the new `@postgres-language-server/cli` package, as the old `@postgrestools/postgrestools` is being phased out."
  | Download | Path | VsCodeSettings =>
      "A new version of the Postgres Language Server is available! Make sure to get the binary from the new `postgres-language-server` name, as the old `postgrestools` is being phased out."
  end.

(** ** downloader.ts *)

(** The line feed of the message templates. *)
Definition nl : string := String (ascii_of_nat 10) EmptyString.

Definition getOldInstalledBinaryPath : M Uri :=
  gets (fun w => Uri_joinPath (globalStorageUri (env w))
                   [CONSTANTS.globalStorageFolderForBinary;
                    CONSTANTS.oldPlatformSpecificBinaryName (env w)]).

Definition getNewInstalledBinaryPath : M Uri :=
  gets (fun w => Uri_joinPath (globalStorageUri (env w))
                   [CONSTANTS.globalStorageFolderForBinary;
                    CONSTANTS.newPlatformSpecificBinaryName (env w)]).

Record DownloadedBinary : Type := mkDownloadedBinary {
  version : string;
  binPath : Uri
}.

Definition vanished_error : string :=
  "Just verified file exists, but it doesn't anymore.".

(** The loop of [getDownloadedBinary] over the candidate paths. *)
Fixpoint firstDownloaded (candidates : list Uri) : M (option DownloadedBinary) :=
  match candidates with
  | [] => ret None
  | b :: rest =>
      let* there := fileExists b in
      if there then
        let* v := getVersion b in
        match v with
        | None => throw vanished_error
        | Some v =>
            logger.debug "Found downloaded version and binary" [b; v] ;;;
            ret (Some (mkDownloadedBinary v b))
        end
      else
        logger.info "Downloaded binary does not exist:" [b] ;;;
        firstDownloaded rest
  end.

Definition getDownloadedBinary : M (option DownloadedBinary) :=
  logger.debug "Getting downloaded version" [] ;;;
  let* newPath := getNewInstalledBinaryPath in
  let* oldPath := getOldInstalledBinaryPath in
  firstDownloaded [newPath; oldPath].

Definition download_url (asset version : string) : string :=
  release_host +:+ "download/" +:+ version +:+ "/" +:+ asset.

Definition downloadPgltVersion (version : string) : M unit :=
  let* newNameAvailable := hasNewName in
  let* e := gets env in
  let url := if newNameAvailable
             then download_url (CONSTANTS.newPlatformSpecificReleasedAssetName e) version
             else download_url (CONSTANTS.oldPlatformSpecificReleasedAssetName e) version in
  logger.debug "Attempting to download binary asset from Github" [url] ;;;
  let* fetched :=
    try_catch
      (let* binary := fetch_bytes url in ret (Some binary))
      (fun error =>
         logger.error "Failed to download binary" [error] ;;;
         window.showErrorMessage
           ("Failed to download binary version " +:+ version +:+ " from " +:+ url
            +:+ "." +:+ nl +:+ nl +:+ error) ;;;
         ret None) in
  match fetched with
  | None => ret tt
  | Some binary =>
      let* binPath := if newNameAvailable then getNewInstalledBinaryPath
                      else getOldInstalledBinaryPath in
      try_catch
        (fs.writeFile binPath binary ;;;
         fs.chmodSync binPath 493%N ;;;
         let successMsg := "Downloaded Postgres Language Server " +:+ version
                           +:+ " to " +:+ binPath in
         logger.info successMsg [] ;;;
         window.showInformationMessage successMsg)
        (fun error =>
           logger.error "Failed to save downloaded binary" [error] ;;;
           window.showErrorMessage ("Failed to save binary." +:+ nl +:+ nl +:+ error))
  end.

(** One quick-pick item per release: its label and its description. *)
Fixpoint release_items (downloaded : option string) (index : nat) (rs : list Release)
    : list (string * list string) :=
  match rs with
  | [] => []
  | r :: rest =>
      (tag_name r,
       ((if Nat.eqb index 0 then ["latest"] else [])
        ++ (if prerelease r then ["prerelease"] else [])
        ++ (match downloaded with
            | Some v => if String.eqb v (tag_name r) then ["(currently installed)"] else []
            | None => []
            end))%list)
      :: release_items downloaded (S index) rest
  end.

Definition promptVersionToDownload : M (option string) :=
  logger.debug "Prompting user to select Postgres Language Server version to download" [] ;;;
  let* downloadedBinary :=
    try_catch
      (let* it := getDownloadedBinary in ret (option_map version it))
      (fun _ => ret None) in
  logger.debug "Retrieved downloaded version" [] ;;;
  gets (fun w => user_pick (env w)
                   (release_items downloadedBinary 0 (releases (env w)))).

Definition downloadPglt : M (option Uri) :=
  logger.debug "Downloading Postgres Language Server" [] ;;;
  let* versionToDownload := promptVersionToDownload in
  match versionToDownload with
  | None =>
      logger.debug "No version to download selected, aborting" [] ;;;
      ret None
  | Some picked =>
      downloadPgltVersion picked ;;;
      let* downloaded := getDownloadedBinary in
      ret (option_map binPath downloaded)
  end.

(** ** binary-finder-strategies.ts *)

(** [s.toLowerCase()] on ASCII letters. *)
Definition lower_char (c : ascii) : ascii :=
  let n := nat_of_ascii c in
  if ((65 <=? n) && (n <=? 90))%nat then ascii_of_nat (n + 32) else c.
Fixpoint toLowerCase (s : string) : string :=
  match s with
  | EmptyString => EmptyString
  | String c rest => String (lower_char c) (toLowerCase rest)
  end.

(** [s.includes(sub)] *)
Fixpoint includes (sub s : string) : bool :=
  String.prefix sub s
  || match s with
     | EmptyString => false
     | String _ rest => includes sub rest
     end.

Definition relative_path_unsupported : string :=
  "Relative paths for the postgres language server binary in a multi-root workspace setting are not supported. Please use an absolute path in your `*.code-workspace` file.".

Definition vsCodeSettings_not_found : M (option Uri) :=
  logger.debug "No Postgres Language Server binary found in VSCode settings." [] ;;;
  ret None.

Definition vsCodeSettings_find (path : option Uri) : M (option Uri) :=
  logger.debug "Trying to find Postgres Language Server binary via VSCode Settings" [] ;;;
  let* binSetting := getConfig "bin" path in
  if negb (truthy binSetting) then
    logger.debug "Binary path not set in VSCode Settings" [] ;;;
    ret None
  else
    let* binSetting :=
      match binSetting with
      | JObject fields =>
          logger.debug "Binary Setting is an object, extracting relevant platform" [] ;;;
          let* platformIdentifier := gets (fun w => CONSTANTS.platformIdentifier (env w)) in
          let relevantSetting := get_property fields platformIdentifier in
          if truthy relevantSetting then
            logger.debug
              "Found matching setting for platform in VSCode Settings, assigning as string"
              [platformIdentifier] ;;;
            ret relevantSetting
          else ret binSetting
      | _ => ret binSetting
      end in
    match binSetting with
    | JString setting =>
        logger.debug "Binary Setting is a string" [setting] ;;;
        let* operatingMode := gets (fun w => CONSTANTS.operatingMode (env w)) in
        (** [None]: the function has returned [null] *)
        let* resolvedPath :=
          if String.prefix "." setting then
            match operatingMode, path with
            | MultiRoot, _ =>
                window.showErrorMessage relative_path_unsupported ;;;
                ret None
            | _, Some root => ret (Some (Uri_joinPath root [setting]))
            | _, None =>
                logger.error
                  "User picked a relative path for setting and is not in multi-root workspace mode. Somehow, we couldn't form a path to the binary." [] ;;;
                ret None
            end
          else ret (Some setting) in
        match resolvedPath with
        | None => ret None
        | Some resolvedPath =>
            if String.eqb resolvedPath "" then ret None
            else
              logger.debug "Looking for binary at path" [resolvedPath] ;;;
              let bin := Uri_file resolvedPath in
              let* there := fileExists bin in
              if there then ret (Some bin) else vsCodeSettings_not_found
        end
    | _ => vsCodeSettings_not_found
    end.

Definition vsCodeSettingsStrategy : BinaryFindStrategy :=
  mkBinaryFindStrategy "VSCode Settings Strategy" vsCodeSettings_find.

(** The triples [pkgname, nodePkgName, binaryName] both package lookups go
    through, the new names first. *)
Definition package_candidates (e : Env) : list (string * option string * string) :=
  [ (CONSTANTS.newPackageName, CONSTANTS.newPlatformSpecificNodePackageName e,
     CONSTANTS.newPlatformSpecificBinaryName e);
    (CONSTANTS.oldPackageName, CONSTANTS.oldPlatformSpecificNodePackageName e,
     CONSTANTS.oldPlatformSpecificBinaryName e) ].

(** The loop of [nodeModulesStrategy.find]. *)
Fixpoint nodeModules_loop (root : Uri) (candidates : list (string * option string * string))
    : M (option Uri) :=
  match candidates with
  | [] => ret None
  | (pkgname, nodePkgName, binaryName) :: rest =>
      let packageJson := pkgname +:+ "/package.json" in
      logger.info "Searching for node_modules package" [packageJson] ;;;
      (** [None]: [continue] *)
      let* requirePgltPackage :=
        try_catch
          (let* main := (fun w => (require_resolve (env w) packageJson root, w)) in
           ret (Some main))
          (fun err =>
             if includes "cannot find module" (toLowerCase err) then
               logger.debug "User does not have the package installed" [] ;;;
               ret None
             else throw err) in
      match requirePgltPackage with
      | None => nodeModules_loop root rest
      | Some main =>
          logger.debug "Created require function!" [] ;;;
          match nodePkgName with
          | None =>
              logger.debug "No package for current platform available in node_modules" [] ;;;
              ret None
          | Some nodePkgName =>
              logger.debug "Resolving bin package at nested package.json" [nodePkgName] ;;;
              let* nested := (fun w => (require_resolve_from (env w) main
                                          (nodePkgName +:+ "/package.json"), w)) in
              let binPackage := dirname nested in
              logger.debug "Resolved binpackage" [binPackage] ;;;
              let binPath := path_join binPackage binaryName in
              let bin := Uri_file binPath in
              let* there := fileExists bin in
              if there then ret (Some bin)
              else
                logger.debug "Unable to find Postgres Language Server in path" [binPath] ;;;
                nodeModules_loop root rest
          end
      end
  end.

Definition nodeModules_find (path : option Uri) : M (option Uri) :=
  logger.debug "Trying to find Postgres Language Server binary in Node Modules" [] ;;;
  match path with
  | None =>
      logger.debug "No local path, skipping." [] ;;;
      ret None
  | Some root =>
      let* e := gets env in
      nodeModules_loop root (package_candidates e)
  end.

Definition nodeModulesStrategy : BinaryFindStrategy :=
  mkBinaryFindStrategy "Node Modules Strategy" nodeModules_find.

(** The inner loop of [yarnPnpStrategy.find], for the [resolveRequest] of one
    loaded manifest. *)
Fixpoint yarnPnp_packages (resolveRequest : string -> string -> outcome string)
    (root : Uri) (candidates : list (string * option string * string))
    : M (option Uri) :=
  match candidates with
  | [] => ret None
  | (pkgname, nodePkgName, binaryName) :: rest =>
      match nodePkgName with
      | None =>
          logger.debug "No node package for current platform available in yarn pnp" [] ;;;
          yarnPnp_packages resolveRequest root rest
      | Some nodePkgName =>
          let* resolved :=
            try_catch
              (let* packageJson :=
                 (fun w => (resolveRequest (pkgname +:+ "/package.json") root, w)) in
               let* binary :=
                 (fun w => (resolveRequest (nodePkgName +:+ "/" +:+ binaryName)
                              packageJson, w)) in
               ret (Some (Uri_file binary)))
              (fun _ =>
                 logger.debug "Unable to find package via Yarn Plug'n'Play API" [pkgname] ;;;
                 ret None) in
          match resolved with
          | Some bin => ret (Some bin)
          | None => yarnPnp_packages resolveRequest root rest
          end
      end
  end.

(** The outer loop of [yarnPnpStrategy.find], over the manifest's extensions. *)
Fixpoint yarnPnp_manifests (root : Uri) (exts : list string) : M (option Uri) :=
  match exts with
  | [] => ret None
  | ext :: rest =>
      let pnpFile := Uri_joinPath root [".pnp." +:+ ext] in
      let* there := fileExists pnpFile in
      if negb there then
        logger.debug "Couldn't find Plug'n'Play file with ext" [ext] ;;;
        yarnPnp_manifests root rest
      else
        (** [require(pnpFile.fsPath)], before the [try] of the inner loop *)
        let* yarnPnpApi := (fun w => (pnp_require (env w) pnpFile, w)) in
        let* e := gets env in
        let* found := yarnPnp_packages yarnPnpApi root (package_candidates e) in
        match found with
        | Some bin => ret (Some bin)
        | None => yarnPnp_manifests root rest
        end
  end.

Definition yarnPnp_find (path : option Uri) : M (option Uri) :=
  logger.debug "Trying to find Postgres Language Server binary in Yarn Plug'n'Play" [] ;;;
  match path with
  | None =>
      logger.debug "No local path, skipping." [] ;;;
      ret None
  | Some root =>
      let* found := yarnPnp_manifests root ["cjs"; "js"] in
      match found with
      | Some bin => ret (Some bin)
      | None =>
          logger.debug "Couldn't find Postgres Language Server binary via Yarn Plug'n'Play" [] ;;;
          ret None
      end
  end.

Definition yarnPnpStrategy : BinaryFindStrategy :=
  mkBinaryFindStrategy "Yarn PnP Strategy" yarnPnp_find.

(** The inner loop of [pathEnvironmentVariableStrategy.find]. *)
Fixpoint pathEnv_names (dir : string) (bnames : list string) : M (option Uri) :=
  match bnames with
  | [] => ret None
  | bname :: rest =>
      let bin := Uri_joinPath (Uri_file dir) [bname] in
      let* there := fileExists bin in
      if there then ret (Some bin) else pathEnv_names dir rest
  end.

(** The outer loop, over the directories of [PATH]. *)
Fixpoint pathEnv_dirs (directories : list string) : M (option Uri) :=
  match directories with
  | [] => ret None
  | dir :: rest =>
      logger.debug "Checking" [dir] ;;;
      let* e := gets env in
      let* found := pathEnv_names dir [CONSTANTS.newPlatformSpecificBinaryName e;
                                       CONSTANTS.oldPlatformSpecificBinaryName e] in
      match found with
      | Some bin => ret (Some bin)
      | None => pathEnv_dirs rest
      end
  end.

Definition pathEnvironmentVariable_find (_ : option Uri) : M (option Uri) :=
  let* pathEnv := gets (fun w => env_PATH (env w)) in
  logger.debug "Trying to find Postgres Language Server binary in PATH env var" [] ;;;
  match pathEnv with
  | None | Some EmptyString =>
      logger.debug "Path env var not found" [] ;;;
      ret None
  | Some pathEnv =>
      let* e := gets env in
      let* found := pathEnv_dirs (split (path_delimiter e) pathEnv) in
      match found with
      | Some bin => ret (Some bin)
      | None =>
          logger.debug "Couldn't determine binary in PATH env var" [] ;;;
          ret None
      end
  end.

Definition pathEnvironmentVariableStrategy : BinaryFindStrategy :=
  mkBinaryFindStrategy "PATH Env Var Strategy" pathEnvironmentVariable_find.

Definition download_prompt : string :=
  "You've opened a supported file outside of a Postgres Language Server project, and no installed Postgres Language Server binary could be found on your system. Would you like to download and install Postgres Language Server?".

Definition downloadPglt_find (_ : option Uri) : M (option Uri) :=
  logger.debug "Trying to find downloaded Postgres Language Server binary" [] ;;;
  let* downloadedBinary := getDownloadedBinary in
  match downloadedBinary with
  | Some d =>
      logger.info "Using previously downloaded version" [version d; binPath d] ;;;
      ret (Some (binPath d))
  | None =>
      let* answer := window.askInformationMessage download_prompt in
      let proceed := match answer with
                     | Some button => String.eqb button "Download and install"
                     | None => false
                     end in
      if negb proceed then
        logger.debug "Decided not to download binary, aborting" [] ;;;
        ret None
      else downloadPglt
  end.

Definition downloadPgltStrategy : BinaryFindStrategy :=
  mkBinaryFindStrategy "Download Postgres Language Server Strategy" downloadPglt_find.

(** ** binary-finder.ts: the two orderings *)

(** [onSuccess: (uri) => logger.debug(msg, { path: uri.fsPath })] *)
Definition log_found (msg : string) (uri : Uri) : M unit :=
  logger.debug msg [uri].

Definition LOCAL_STRATEGIES : list Strategy :=
  [ mkStrategy "VSCode Settings" VsCodeSettings vsCodeSettingsStrategy
      (log_found "Found Binary in VSCode Settings (postgres-language-server.bin) or (postgrestools.bin)")
      None;
    mkStrategy "NPM node_modules" NPM nodeModulesStrategy
      (log_found "Found Binary in Node Modules") None;
    mkStrategy "Yarn Plug'n'Play node_modules" Yarn yarnPnpStrategy
      (log_found "Found Binary in Yarn PnP") None;
    mkStrategy "PATH Environment Variable" Path pathEnvironmentVariableStrategy
      (log_found "Found Binary in PATH Environment Variable") None;
    mkStrategy "Downloaded Binary" Download downloadPgltStrategy
      (log_found "Found downloaded binary") None ].

Definition GLOBAL_STRATEGIES : list Strategy :=
  [ mkStrategy "VSCode Settings" VsCodeSettings vsCodeSettingsStrategy
      (log_found "Found Binary in VSCode Settings") None;
    mkStrategy "PATH Environment Variable" Path pathEnvironmentVariableStrategy
      (log_found "Found Binary in PATH Environment Variable") None;
    mkStrategy "Downloaded Binary" Download downloadPgltStrategy
      (log_found "Found downloaded binary") None ].

Module BinaryFinder.
Definition findGlobally : M (option FindResult) :=
  logger.info "Using Global Strategies to find binary" [] ;;;
  let* binary := attemptFind GLOBAL_STRATEGIES None in
  match binary with
  | None => logger.debug "Unable to find binary globally." [] ;;; ret None
  | Some r => ret (Some r)
  end.

Definition findLocally (path : Uri) : M (option FindResult) :=
  logger.info "Using Local Strategies to find binary" [] ;;;
  let* binary := attemptFind LOCAL_STRATEGIES (Some path) in
  match binary with
  | None => logger.debug "Unable to find binary locally." [] ;;; ret None
  | Some r => ret (Some r)
  end.
End BinaryFinder.

(** ** session.ts *)

Record Project : Type := mkProject {
  project_path : Uri;
  configPath : option Uri
}.

(** What a language client is made with. *)
Record ServerOptions : Type := mkServerOptions {
  command : string;
  args : list string;
  cwd : option string
}.

Record DocumentFilter : Type := mkDocumentFilter {
  language : string;
  scheme : string;
  pattern : string
}.

Record LanguageClient : Type := mkLanguageClient {
  serverOptions : ServerOptions;
  documentSelector : list DocumentFilter;
  (** [initializationOptions.rootUri]; [rootPath] is its [fsPath] *)
  rootUri : option Uri
}.

Record Session : Type := mkSession {
  session_bin : Uri;
  binaryStrategyLabel : string;
  tempBin : option Uri;
  client : LanguageClient
}.

Definition createDocumentSelector (projects : list Project) : list DocumentFilter :=
  flat_map
    (fun language =>
       List.map
         (fun p => mkDocumentFilter language "file"
                     (replaceAll_char "\" "/" (Uri_joinPath (project_path p) ["**"; "*"])))
         projects)
    ["sql"; "postgres"].

(** The output channels are named after the extension and the time of its
    activation; here they are told apart by their kind. *)
Definition createLspLogger : M unit := emit (CreateOutputChannel "LSP").
Definition createLspTraceLogger : M unit := emit (CreateOutputChannel "LSP trace").

(** [args] and [options.cwd] of the server options. *)
Definition server_arguments (projects : list Project) : list string * option string :=
  match projects with
  | [singleRootProject] =>
      match configPath singleRootProject with
      | Some configFile =>
          (["lsp-proxy"; "--config-path=" +:+ configFile],
           Some (project_path singleRootProject))
      | None => (["lsp-proxy"], None)
      end
  | first :: _ :: _ =>
      match configPath first with
      | Some configFile => (["lsp-proxy"; "--config-path=" +:+ configFile], None)
      | None => (["lsp-proxy"], None)
      end
  | [] => (["lsp-proxy"], None)
  end.

Definition createLanguageClient (bin : Uri) (projects : list Project) : M LanguageClient :=
  let serverOptions :=
    mkServerOptions bin (fst (server_arguments projects)) (snd (server_arguments projects)) in
  logger.info "Server Options: " (bin :: fst (server_arguments projects)) ;;;
  createLspLogger ;;;
  createLspTraceLogger ;;;
  ret (mkLanguageClient serverOptions (createDocumentSelector projects)
         (match projects with
          | [singleRootProject] => Some (project_path singleRootProject)
          | _ => None
          end)).

Definition bool_text (b : bool) : string := if b then "true" else "false".

(** What a template literal prints for a version. *)
Definition version_text (v : option string) : string :=
  match v with
  | Some v => v
  | None => "undefined"
  end.

Definition temporary_location (v : option string) (w : World) : Uri :=
  Uri_joinPath (globalStorageUri (env w))
    ["tmp-bin";
     replace "postgres-language-server"
       ("postgres-language-server-" +:+ version_text v)
       (CONSTANTS.newPlatformSpecificBinaryName (env w))].

Definition invalid_state_message : string :=
  "Tried to copy binary to temporary location, but it does not exist. Invalid state.".

Definition copyBinaryToTemporaryLocation (bin : Uri) : M (option Uri) :=
  let* version := getVersion bin in
  match version with
  | None =>
      window.showErrorMessage invalid_state_message
  | Some _ => ret tt
  end ;;;
  logger.debug "Retrieved version from binary" [version_text version] ;;;
  let* location := gets (temporary_location version) in
  try_catch
    (let* storage := gets (fun w => globalStorageUri (env w)) in
     fs.createDirectory (Uri_joinPath storage ["tmp-bin"]) ;;;
     let* there := fileExists location in
     (if negb there then
        logger.info "Copying binary to temporary location." [bin; location] ;;;
        fs.copyFileSync bin location ;;;
        logger.debug
          "Copied postgres language server binary binary to temporary location."
          [bin; location]
      else
        logger.debug
          "A postgres language server binary for the same version already exists in the temporary location."
          [version_text version; bin; location]) ;;;
     let* isExecutableBefore := gets (fileIsExecutable bin) in
     fs.chmodSync location 493%N ;;;
     let* isExecutableAfter := gets (fileIsExecutable bin) in
     logger.debug "Ensure binary is executable"
       [bin; bool_text isExecutableBefore; bool_text isExecutableAfter] ;;;
     ret (Some location))
    (fun error =>
       logger.warn "Error copying binary" [error] ;;;
       ret None).

(** Whether the update notice may be shown again: more than three days after
    the last one. *)
Definition notification_due (now lastNotifiedOfUpdate : Z) : bool :=
  now - lastNotifiedOfUpdate >? daysToMs 3.

(** The update notice of [createSession]: the statements from the read of
    [lastNotifiedOfUpdate] to its update. *)
Definition notifyOfUpdate (version : string) (kind : StrategyKind) : M unit :=
  let* lastNotifiedOfUpdate :=
    gets (fun w => default 0 (globalState w !! "lastNotifiedOfUpdate")) in
  let* now := Date_now in
  if notification_due now lastNotifiedOfUpdate then
    (let* outdated := gets (fun w => releases_versionOutdated (env w) version) in
     if outdated then
       let* renamed := hasNewName in
       let* latest := gets (fun w => releases_latestVersion (env w)) in
       window.showInformationMessage
         (if renamed then updateAndRenamingMessageForKind kind
          else "A new version of Postgres Language Server is available! Your version "
               +:+ version +:+ " is outdated, consider updating to latest version "
               +:+ latest +:+ ".")
     else ret tt) ;;;
    let* written := Date_now in
    modify (fun w => set_globalState
                       (<["lastNotifiedOfUpdate" := written]> (globalState w)) w)
  else ret tt.

(** The initializer of [findResult] in [createSession]. *)
Definition findBinary (projects : list Project) : M (option FindResult) :=
  let* operatingMode := gets (fun w => CONSTANTS.operatingMode (env w)) in
  match operatingMode, projects with
  | SingleRoot, p :: _ => BinaryFinder.findLocally (project_path p)
  | _, _ => BinaryFinder.findGlobally
  end.

Definition no_version_error : string :=
  "Just verified we have an executable file. Version should exist.".

Definition not_executable_message (bin : Uri) : string :=
  nl +:+ "      The binary you've pointed to is not executable."
  +:+ nl +:+ "      (" +:+ bin +:+ ")" +:+ nl +:+ "    ".

Section Session.

(** [semver.gte] of the semver library, which throws on a version it cannot
    parse. *)
Variable semver_gte : string -> string -> outcome bool.

Definition createSession (projects : list Project) : M (option Session) :=
  let* findResult := findBinary projects in
  match findResult with
  | None =>
      window.showErrorMessage
        "Unable to find a Postgres Language Server binary. Read the docs for various strategies to install a binary." ;;;
      logger.error "Could not find the Postgres Language Server binary" [] ;;;
      ret None
  | Some findResult =>
      let* executable := gets (fileIsExecutable (bin findResult)) in
      if negb executable then
        window.showErrorMessage (not_executable_message (bin findResult)) ;;;
        logger.error "Found binary is not executable." [] ;;;
        ret None
      else
        let* version := getVersion (bin findResult) in
        match version with
        | None => throw no_version_error
        | Some version =>
            notifyOfUpdate version (found_kind findResult) ;;;
            let* operatingMode := gets (fun w => CONSTANTS.operatingMode (env w)) in
            match operatingMode with
            | MultiRoot =>
                let* supported := (fun w => (semver_gte version "0.8.0", w)) in
                if negb supported then
                  window.showInformationMessage
                    ("Your current Postgres Language Server version " +:+ version
                     +:+ " does not support multi-root workspaces. Consider upgrading to version >= 0.8.0.")
                else ret tt
            | _ => ret tt
            end ;;;
            logger.info "Copying binary to temp location" [bin findResult] ;;;
            let* tempBin := copyBinaryToTemporaryLocation (bin findResult) in
            match tempBin with
            | None =>
                logger.warn "Failed to copy binary to temporary location. Using original." []
            | Some _ => ret tt
            end ;;;
            let* client :=
              createLanguageClient (default (bin findResult) tempBin) projects in
            ret (Some (mkSession (bin findResult) (found_label findResult) tempBin client))
        end
  end.

End Session.

(** ** What the chain is expected to do, as a relation *)

(** The precondition of [s], when defined, evaluates true at [w]. *)
Definition precondition_passes (s : Strategy) (path : option Uri) (w : World) : Prop :=
  match condition s with
  | None => True
  | Some c => fst (c path w) = Ok true
  end.

(** The precondition of [s] is defined and evaluates false at [w]. *)
Definition precondition_fails (s : Strategy) (path : option Uri) (w : World) : Prop :=
  exists c, condition s = Some c /\ fst (c path w) = Ok false.

(** The precondition of [s] is defined and throws [err] at [w]. *)
Definition precondition_throws (s : Strategy) (path : option Uri) (w : World)
    (err : string) : Prop :=
  exists c, condition s = Some c /\ fst (c path w) = Throw err.

(** The host after the precondition of [s] ran at [w]. *)
Definition after_precondition (s : Strategy) (path : option Uri) (w : World) : World :=
  match condition s with
  | None => w
  | Some c => snd (c path w)
  end.

(** The lookup of [s], run after its precondition. *)
Definition locate (s : Strategy) (path : option Uri) (w : World)
    : outcome (option Uri) * World :=
  find (strategy s) path (after_precondition s path w).

Definition not_found_entry (s : Strategy) : Event :=
  Log LInfo "Binary not found with strategy" [name (strategy s)].
Definition error_entry (s : Strategy) (err : string) : Event :=
  Log LError (name (strategy s) +:+ " returned an error") [err].

(** [yields_nothing path l w w']: run in order from [w], no strategy of [l]
    produces a result, and the host ends as [w']. A strategy produces nothing
    when its precondition is false, when its lookup is empty, when its lookup
    throws, or when its [onSuccess] hook throws on the location found. *)
Inductive yields_nothing (path : option Uri) : list Strategy -> World -> World -> Prop :=
| nothing_nil w :
    yields_nothing path [] w w
| nothing_skipped s rest w w' :
    precondition_fails s path w ->
    yields_nothing path rest (after_precondition s path w) w' ->
    yields_nothing path (s :: rest) w w'
| nothing_empty s rest w w1 w' :
    precondition_passes s path w ->
    locate s path w = (Ok None, w1) ->
    yields_nothing path rest (record (not_found_entry s) w1) w' ->
    yields_nothing path (s :: rest) w w'
| nothing_thrown s rest w w1 err w' :
    precondition_passes s path w ->
    locate s path w = (Throw err, w1) ->
    yields_nothing path rest (record (error_entry s err) w1) w' ->
    yields_nothing path (s :: rest) w w'
| nothing_refused s rest w w1 b err w2 w' :
    precondition_passes s path w ->
    locate s path w = (Ok (Some b), w1) ->
    onSuccess s b w1 = (Throw err, w2) ->
    yields_nothing path rest (record (error_entry s err) w2) w' ->
    yields_nothing path (s :: rest) w w'.

(** [first_success path l w r w']: some strategy [s] of [l] is the first to
    produce a result: its lookup gives a location [b] and its [onSuccess]
    hook returns on [b]; [r] carries [b] with the label and the kind of [s],
    and [w'] is the host when the hook has returned. *)
Definition first_success (path : option Uri) (l : list Strategy) (w : World)
    (r : FindResult) (w' : World) : Prop :=
  exists pre s post b w1 w2,
    l = (pre ++ s :: post)%list
    /\ yields_nothing path pre w w1
    /\ precondition_passes s path w1
    /\ locate s path w1 = (Ok (Some b), w2)
    /\ r = mkFindResult b (label s) (kind s)
    /\ onSuccess s b w2 = (Ok tt, w').

(** [precondition_error path l w err w']: the strategies of [l] produce
    nothing up to one whose precondition throws [err], which leaves the host
    as [w']. *)
Definition precondition_error (path : option Uri) (l : list Strategy) (w : World)
    (err : string) (w' : World) : Prop :=
  exists pre s post w1,
    l = (pre ++ s :: post)%list
    /\ yields_nothing path pre w w1
    /\ precondition_throws s path w1 err
    /\ w' = after_precondition s path w1.

(** ** Hosts the properties are tried on *)

Definition no_configuration : string -> option Uri -> gmap string JsValue :=
  fun _ _ => ∅.

(** A Linux machine with one workspace folder, no network and nothing
    installed. *)
Definition bare_env : Env :=
  {| process_platform := "linux";
     process_arch := "x64";
     workspaceFolders := Some ["/proj"];
     configuration := no_configuration;
     env_PATH := Some "/usr/local/bin:/usr/bin";
     globalStorageUri := "/storage";
     net_get := fun _ => Throw "TypeError: fetch failed";
     net_head := fun _ => Throw "TypeError: fetch failed";
     net_latency := 250;
     pnp_require := fun _ => Ok (fun _ _ => Throw "not a dependency");
     require_resolve := fun request _ => Throw ("Cannot find module '" +:+ request +:+ "'");
     require_resolve_from := fun _ request => Throw ("Cannot find module '" +:+ request +:+ "'");
     user_choice := fun _ => Some "No";
     user_pick := fun _ => None;
     releases := [mkRelease "2.0.0" false; mkRelease "1.9.0" false];
     releases_versionOutdated := fun v => negb (String.eqb v "2.0.0");
     releases_latestVersion := "2.0.0" |}.

Definition host_of (e : Env) (fs : gmap string File) : World :=
  mkWorld e fs ∅ ∅ 1000000000000 [].

Definition a_binary (v : string) : File := mkFile (mkContent (Some v) "ELF") 493.

(** Three instrumented strategies: each lookup leaves a mark in the log. *)
Definition marked (mark : string) (answer : outcome (option Uri)) : BinaryFindStrategy :=
  mkBinaryFindStrategy mark
    (fun _ w => (answer, record (Log LDebug "called" [mark]) w)).

Definition probe_empty : Strategy :=
  mkStrategy "first" NPM (marked "first" (Ok None)) (log_found "hook of first") None.
Definition probe_throwing : Strategy :=
  mkStrategy "second" Yarn (marked "second" (Throw "boom")) (log_found "hook of second")
    None.
Definition probe_disabled : Strategy :=
  mkStrategy "third" Path (marked "third" (Ok (Some "/never")))
    (log_found "hook of third") (Some (fun _ => ret false)).
Definition probe_found : Strategy :=
  mkStrategy "fourth" Path (marked "fourth" (Ok (Some "/opt/bin/tool")))
    (log_found "hook of fourth") (Some (fun _ => ret true)).
Definition probe_late : Strategy :=
  mkStrategy "fifth" Download (marked "fifth" (Ok (Some "/late")))
    (log_found "hook of fifth") None.
(** A strategy whose lookup finds a location and whose hook throws. *)
Definition probe_refused : Strategy :=
  mkStrategy "sixth" VsCodeSettings (marked "sixth" (Ok (Some "/found")))
    (fun _ => throw "hook failed") None.
(** A strategy whose precondition throws. *)
Definition probe_broken : Strategy :=
  mkStrategy "seventh" NPM (marked "seventh" (Ok (Some "/unreached")))
    (log_found "hook of seventh") (Some (fun _ => throw "precondition failed")).

(** A configuration that sets [enabled] and [bin] under the new prefix and
    [enabled] under the legacy one. *)
Definition mixed_configuration : string -> option Uri -> gmap string JsValue :=
  fun section _ =>
    if String.eqb section "postgres-language-server"
    then {[ "enabled" := JBool true; "bin" := JString "./bin/pgls" ]}
    else if String.eqb section "postgrestools"
    then {[ "enabled" := JBool false ]}
    else ∅.

Definition with_configuration (c : string -> option Uri -> gmap string JsValue)
    (e : Env) : Env :=
  mkEnv (process_platform e) (process_arch e) (workspaceFolders e) c (env_PATH e)
    (globalStorageUri e) (net_get e) (net_head e) (net_latency e)
    (pnp_require e) (require_resolve e) (require_resolve_from e)
    (user_choice e) (user_pick e) (releases e) (releases_versionOutdated e)
    (releases_latestVersion e).

(** ** Vocabulary of the properties *)

(** The path that a value of the [bin] setting gives on this machine: the
    value itself when it is a string, its entry for the platform identifier
    when it is an object. *)
Definition binary_setting (v : JsValue) (e : Env) : option string :=
  match v with
  | JString s => Some s
  | JObject fields =>
      match get_property fields (CONSTANTS.platformIdentifier e) with
      | JString s => Some s
      | _ => None
      end
  | _ => None
  end.

(** The error messages shown to the user so far, most recent first. *)
Definition error_messages (w : World) : list string :=
  flat_map (fun e => match e with ShowErrorMessage m => [m] | _ => [] end) (trace w).

(** The information messages shown to the user so far, most recent first. *)
Definition information_messages (w : World) : list string :=
  flat_map (fun e => match e with ShowInformationMessage m => [m] | _ => [] end)
    (trace w).

(** The calls of [copyFileSync] so far, most recent first. *)
Definition copies (w : World) : list (string * string) :=
  flat_map (fun e => match e with CopyFile src dst => [(src, dst)] | _ => [] end)
    (trace w).

(** The files written through [workspace.fs.writeFile] so far. *)
Definition writes (w : World) : list string :=
  flat_map (fun e => match e with FsWriteFile p => [p] | _ => [] end) (trace w).

(** The calls of [chmodSync] so far, most recent first. *)
Definition chmods (w : World) : list (string * N) :=
  flat_map (fun e => match e with Chmod p bits => [(p, bits)] | _ => [] end) (trace w).

Definition file_exists (uri : Uri) (w : World) : bool :=
  match files w !! uri with Some _ => true | None => false end.

(** The value [getConfig] returns, as a function of the configuration. *)
Definition config_value (key : string) (scope : option Uri) (e : Env) : JsValue :=
  let newValue := default JUndefined
                    (configuration e "postgres-language-server" scope !! key) in
  if is_set newValue then newValue
  else default JUndefined (configuration e "postgrestools" scope !! key).

(** [quiet w w']: from [w] to [w'] the code has only written to the log. *)
Definition is_log (e : Event) : Prop :=
  match e with Log _ _ _ => True | _ => False end.

Definition quiet (w w' : World) : Prop :=
  env w' = env w /\ files w' = files w /\ dirs w' = dirs w
  /\ globalState w' = globalState w /\ clock w' = clock w
  /\ exists added, trace w' = (added ++ trace w)%list /\ Forall is_log added.

(** What [hasNewName] answers: whether the asset under the new name is
    published with the latest release. *)
Definition new_name_available (e : Env) : bool :=
  match net_head e (release_host +:+ "latest/download/"
                    +:+ CONSTANTS.newPlatformSpecificReleasedAssetName e) with
  | Ok found => found
  | Throw _ => false
  end.

(** The URL the downloader fetches a version from. *)
Definition asset_url (version : string) (e : Env) : string :=
  if new_name_available e
  then download_url (CONSTANTS.newPlatformSpecificReleasedAssetName e) version
  else download_url (CONSTANTS.oldPlatformSpecificReleasedAssetName e) version.

(** [sub] occurs in [s]. *)
Definition occurs_in (sub s : string) : Prop :=
  exists before after, s = before +:+ sub +:+ after.

(** The host after a request went out. *)
Definition requested (method url : string) (w : World) : World :=
  set_clock (clock w + net_latency (env w)) (record (Fetch method url) w).

(** The directory of the per-version copies. *)
Definition temporary_directory (w : World) : Uri :=
  Uri_joinPath (globalStorageUri (env w)) ["tmp-bin"].

(** The version-keyed cache path [{cache-dir}/{binary-name}-{version}]; on
    Windows the extension follows the version. *)
Definition cache_path (v : string) (w : World) : Uri :=
  temporary_directory w +:+ "/postgres-language-server-" +:+ v
  +:+ (if CONSTANTS.is_win32 (env w) then ".exe" else "").

(** [c] occurs in [s]. *)
Fixpoint has_char (c : ascii) (s : string) : bool :=
  match s with
  | EmptyString => false
  | String c' rest => Ascii.eqb c' c || has_char c rest
  end.

(** A version token without a dollar sign, which the replacement text of the
    cache name would expand, and without a slash, which would start another
    path segment. *)
Definition plain_version (v : string) : bool :=
  negb (has_char "$" v) && negb (has_char "/" v).

(** The owner may read the file. *)
Definition readable (f : File) : bool := N.testbit (mode f) 8.

(** The extension of the binary names on this machine. *)
Definition executable_extension (e : Env) : string :=
  if CONSTANTS.is_win32 e then ".exe" else "".

(** The directories once the directory of the copies has been made. *)
Definition with_temporary_directory (w : World) : gset string :=
  {[temporary_directory w]} ∪ dirs w.

(** [copyFileSync(src, dst)] goes through when [d] are the directories: the
    source is there and may be read, and the destination is not a directory
    and lies in one. *)
Definition copyable (src dst : string) (d : gset string) (w : World) : bool :=
  match files w !! src with
  | Some f => readable f && negb (bool_decide (dst ∈ d)) && bool_decide (dirname dst ∈ d)
  | None => false
  end.

(** A binary that only its owner may write and execute. *)
Definition a_private_binary (v : string) : File := mkFile (mkContent (Some v) "ELF") 484.

(** A file with the bytes of a binary that may not be executed. *)
Definition a_plain_file (v : string) : File := mkFile (mkContent (Some v) "ELF") 420.

(** A file that is there and reports no version. *)
Definition a_mute_binary : File := mkFile (mkContent None "#!/bin/sh") 493.

(** The two well-known install paths, as [getNewInstalledBinaryPath] and
    [getOldInstalledBinaryPath] compute them. *)
Definition new_installed_path (w : World) : Uri :=
  Uri_joinPath (globalStorageUri (env w))
    [CONSTANTS.globalStorageFolderForBinary;
     CONSTANTS.newPlatformSpecificBinaryName (env w)].
Definition old_installed_path (w : World) : Uri :=
  Uri_joinPath (globalStorageUri (env w))
    [CONSTANTS.globalStorageFolderForBinary;
     CONSTANTS.oldPlatformSpecificBinaryName (env w)].

(** The update notices shown so far: the information messages that announce
    a new version. *)
Definition is_update_notice (m : string) : bool := String.prefix "A new version of" m.
Definition update_notices (w : World) : list string :=
  List.filter is_update_notice (information_messages w).

(** The stored [lastNotifiedOfUpdate], the epoch when there is none. *)
Definition last_notified (w : World) : Z :=
  default 0 (globalState w !! "lastNotifiedOfUpdate").

(** A machine whose release index is reachable. *)
Definition online_env : Env :=
  mkEnv "linux" "x64" (Some ["/proj"]) no_configuration (Some "/usr/bin") "/storage"
    (fun _ => Ok (mkContent (Some "2.0.0") "ELF")) (fun _ => Ok true) 250
    (fun _ => Ok (fun _ _ => Throw "not a dependency"))
    (fun request _ => Throw ("Cannot find module '" +:+ request +:+ "'"))
    (fun _ request => Throw ("Cannot find module '" +:+ request +:+ "'"))
    (fun _ => Some "No") (fun _ => None)
    [mkRelease "2.0.0" false; mkRelease "1.9.0" false]
    (fun v => negb (String.eqb v "2.0.0")) "2.0.0".

(** [yields_existing location m]: whatever [m] answers is at a place where a
    file is when [m] returns. *)
Definition yields_existing {A} (location : A -> Uri) (m : M (option A)) : Prop :=
  forall w,
    match m w with
    | (Ok (Some a), w') => is_Some (files w' !! location a)
    | _ => True
    end.

(** A lookup that checks by itself that the file it returns exists. *)
Definition checks_existence (f : BinaryFindStrategy) : Prop :=
  forall path, yields_existing (fun b => b) (find f path).

(** A project with a Plug'n'Play manifest whose resolution API answers
    every request with a place inside the unplugged packages. *)
Definition pnp_env : Env :=
  mkEnv "linux" "x64" (Some ["/proj"]) no_configuration (Some "/usr/bin") "/storage"
    (fun _ => Throw "TypeError: fetch failed") (fun _ => Throw "TypeError: fetch failed")
    250
    (fun _ => Ok (fun request _ => Ok ("/proj/.yarn/unplugged/" +:+ request)))
    (fun request _ => Throw ("Cannot find module '" +:+ request +:+ "'"))
    (fun _ request => Throw ("Cannot find module '" +:+ request +:+ "'"))
    (fun _ => Some "No") (fun _ => None)
    [mkRelease "2.0.0" false; mkRelease "1.9.0" false]
    (fun v => negb (String.eqb v "2.0.0")) "2.0.0".

Definition a_manifest : File := mkFile (mkContent None "module.exports = {}") 420.

(** A project whose Plug'n'Play manifest does not load. *)
Definition a_broken_manifest_env : Env :=
  mkEnv "linux" "x64" (Some ["/proj"]) no_configuration (Some "/usr/bin") "/storage"
    (fun _ => Throw "TypeError: fetch failed") (fun _ => Throw "TypeError: fetch failed")
    250
    (fun _ => Throw "SyntaxError: Unexpected token")
    (fun request _ => Throw ("Cannot find module '" +:+ request +:+ "'"))
    (fun _ request => Throw ("Cannot find module '" +:+ request +:+ "'"))
    (fun _ => Some "No") (fun _ => None)
    [mkRelease "2.0.0" false; mkRelease "1.9.0" false]
    (fun v => negb (String.eqb v "2.0.0")) "2.0.0".

(** The language client that is made for a binary. *)
Definition client_for (bin : Uri) (projects : list Project) : LanguageClient :=
  mkLanguageClient
    (mkServerOptions bin (fst (server_arguments projects)) (snd (server_arguments projects)))
    (createDocumentSelector projects)
    (match projects with
     | [singleRootProject] => Some (project_path singleRootProject)
     | _ => None
     end).

(** The host after a language client has been made: a log entry and the two
    output channels. *)
Definition client_made (bin : Uri) (projects : list Project) (w : World) : World :=
  record (CreateOutputChannel "LSP trace")
    (record (CreateOutputChannel "LSP")
       (record (Log LInfo "Server Options: " (bin :: fst (server_arguments projects))) w)).



(** ** Vocabulary of paths *)

(** A path segment that normalisation keeps as it is: not empty, without a
    slash, and neither [.] nor [..]. *)
Definition plain_segment (seg : string) : bool :=
  negb (is_empty seg) && negb (has_char "/" seg)
  && negb (String.eqb seg ".") && negb (String.eqb seg "..").

(** What [path.posix.join] puts in front of a plain segment that follows
    [parts]: the normalised path of [parts], as a directory. *)
Definition directory_prefix (parts : list string) : string :=
  let joined := join_with "/" (List.filter (fun p => negb (is_empty p)) parts) in
  let isAbsolute := String.prefix "/" joined in
  let kept := normalize_segments (negb isAbsolute) [] (split "/" joined) in
  (if isAbsolute then "/" else "")
  +:+ match kept with
      | [] => ""
      | _ => render_segments kept +:+ "/"
      end.

(** ** Tactics that run the next statement of a program *)

(** The next statement writes to the log. *)
Ltac log_step :=
  cbv beta iota zeta;
  match goal with
  | |- context [bind (logger.debug ?m ?d) ?k ?w] =>
      change (bind (logger.debug m d) k w) with (k tt (record (Log LDebug m d) w))
  | |- context [bind (logger.info ?m ?d) ?k ?w] =>
      change (bind (logger.info m d) k w) with (k tt (record (Log LInfo m d) w))
  | |- context [bind (logger.warn ?m ?d) ?k ?w] =>
      change (bind (logger.warn m d) k w) with (k tt (record (Log LWarn m d) w))
  | |- context [bind (logger.error ?m ?d) ?k ?w] =>
      change (bind (logger.error m d) k w) with (k tt (record (Log LError m d) w))
  | |- context [bind (window.showErrorMessage ?m) ?k ?w] =>
      change (bind (window.showErrorMessage m) k w)
        with (k tt (record (ShowErrorMessage m) w))
  | |- context [bind (window.showInformationMessage ?m) ?k ?w] =>
      change (bind (window.showInformationMessage m) k w)
        with (k tt (record (ShowInformationMessage m) w))
  end; cbv beta iota zeta.

(** The next statement acts on the outside. *)
Ltac emit_step :=
  cbv beta iota zeta;
  match goal with
  | |- context [bind (emit ?e) ?k ?w] =>
      change (bind (emit e) k w) with (k tt (record e w))
  end; cbv beta iota zeta.

(** The next statement is a value. *)
Ltac ret_step :=
  cbv beta iota zeta;
  match goal with
  | |- context [bind (ret ?a) ?k ?w] => change (bind (ret a) k w) with (k a w)
  end; cbv beta iota zeta.

(** The next statement reads the host. *)
Ltac gets_step :=
  cbv beta iota zeta;
  match goal with
  | |- context [bind (gets ?f) ?k ?w] =>
      change (bind (gets f) k w) with (k (f w) w)
  | |- context [bind (fileExists ?u) ?k ?w] =>
      change (bind (fileExists u) k w) with (k (file_exists u w) w)
  end; cbv beta iota zeta.

(** A configuration whose [bin] is a relative path written without a
    leading dot. *)
Definition plain_configuration : string -> option Uri -> gmap string JsValue :=
  fun section _ =>
    if String.eqb section "postgres-language-server"
    then {[ "bin" := JString "bin/pgls" ]}
    else ∅.

(** ** Vocabulary of the further properties *)

(** The places the PATH lookup probes, in the order it probes them: for each
    directory of [PATH] the current binary name, then the legacy one. *)
Definition path_candidates (e : Env) (pathEnv : string) : list Uri :=
  flat_map (fun dir =>
              [Uri_joinPath (Uri_file dir) [CONSTANTS.newPlatformSpecificBinaryName e];
               Uri_joinPath (Uri_file dir) [CONSTANTS.oldPlatformSpecificBinaryName e]])
    (split (path_delimiter e) pathEnv).

(** Decides the comparisons of the platform and the architecture with the
    keys of the tables. *)
Ltac by_table_keys :=
  cbn -[String.eqb String.append];
  repeat match goal with
    | |- context [String.eqb ?a ?b] =>
        destruct (String.eqb_spec a b); cbn -[String.eqb String.append]
    end;
  try congruence.

(** What the lookup of the downloaded binary answers at one candidate path
    where a file is: the file's version with the path, or an error when the
    file reports no version. *)
Definition downloaded_at (b : Uri) (f : File) : outcome (option DownloadedBinary) :=
  match version_of f with
  | Some v => Ok (Some (mkDownloadedBinary v b))
  | None => Throw vanished_error
  end.

(** The requests sent so far, most recent first. *)
Definition requests (w : World) : list (string * string) :=
  flat_map (fun e => match e with Fetch method url => [(method, url)] | _ => [] end)
    (trace w).

(** Where a download is installed: under the current name when the asset
    with the current name is published, under the legacy name otherwise. *)
Definition install_path (w : World) : Uri :=
  if new_name_available (env w) then new_installed_path w else old_installed_path w.

(** Settles whether a mark is among the marks of a quick-pick item. *)
Ltac by_marks :=
  cbn; split; intros H; try reflexivity; try lia; try congruence; auto;
  repeat (destruct H as [H | H]; try discriminate H; try contradiction);
  try (destruct H as (y & Hy & Hp); congruence).

Definition no_binary_message : string :=
  "Unable to find a Postgres Language Server binary. Read the docs for various strategies to install a binary.".

(** A project in which the current package and its platform-specific package
    are installed. *)
Definition npm_env : Env :=
  mkEnv "linux" "x64" (Some ["/proj"]) no_configuration (Some "/usr/bin") "/storage"
    (fun _ => Throw "TypeError: fetch failed") (fun _ => Throw "TypeError: fetch failed")
    250
    (fun _ => Ok (fun _ _ => Throw "not a dependency"))
    (fun request dir => Ok (dir +:+ "/node_modules/" +:+ request))
    (fun _ request => Ok ("/proj/node_modules/" +:+ request))
    (fun _ => Some "No") (fun _ => None)
    [mkRelease "2.0.0" false; mkRelease "1.9.0" false]
    (fun v => negb (String.eqb v "2.0.0")) "2.0.0".

(** * Properties *)

(** ** Strings and paths *)

Lemma append_nil_l (b : string) : "" +:+ b = b.
Proof. reflexivity. Qed.

Lemma append_cons (x : ascii) (a b : string) : String x a +:+ b = String x (a +:+ b).
Proof. reflexivity. Qed.

Lemma append_nil_r (a : string) : a +:+ "" = a.
Proof.
  induction a as [| x a IH]; [reflexivity |].
  rewrite append_cons. f_equal. exact IH.
Qed.

Lemma append_assoc (a b c : string) : (a +:+ b) +:+ c = a +:+ b +:+ c.
Proof.
  induction a as [| x a IH]; [reflexivity |].
  rewrite !append_cons. f_equal. exact IH.
Qed.

Lemma append_length (a b : string) :
  String.length (a +:+ b) = (String.length a + String.length b)%nat.
Proof.
  induction a as [| x a IH]; [reflexivity |].
  rewrite append_cons. cbn [String.length]. rewrite IH. reflexivity.
Qed.

Lemma append_cancel_l (a b c : string) : a +:+ b = a +:+ c -> b = c.
Proof.
  induction a as [| x a IH]; [intros H; exact H |].
  rewrite !append_cons. intros H. injection H as H. exact (IH H).
Qed.

Lemma append_cancel_r (a b suffix : string) : a +:+ suffix = b +:+ suffix -> a = b.
Proof.
  revert b. induction a as [| x a IH]; intros [| y b] H.
  - reflexivity.
  - apply (f_equal String.length) in H. rewrite append_cons in H.
    cbn [String.length] in H. rewrite append_nil_l, append_length in H. lia.
  - apply (f_equal String.length) in H. rewrite append_cons in H.
    cbn [String.length] in H. rewrite append_nil_l, append_length in H. lia.
  - rewrite !append_cons in H. injection H as -> H. f_equal. exact (IH _ H).
Qed.

Lemma is_empty_append (a b : string) : is_empty b = false -> is_empty (a +:+ b) = false.
Proof. intros H. destruct a; [exact H | reflexivity]. Qed.

Lemma has_char_append (c : ascii) (a b : string) :
  has_char c (a +:+ b) = has_char c a || has_char c b.
Proof.
  induction a as [| x a IH]; [reflexivity |].
  rewrite append_cons. cbn [has_char]. rewrite IH. apply orb_assoc.
Qed.

Lemma prefix_slash_cons (x : ascii) (s : string) :
  String.prefix "/" (String x s) = Ascii.eqb x "/".
Proof.
  cbn [String.prefix]. destruct (ascii_dec "/" x) as [<- | Hx].
  - destruct s; reflexivity.
  - symmetry. apply Ascii.eqb_neq. congruence.
Qed.

Lemma prefix_slash_append (a b : string) :
  is_empty a = false -> String.prefix "/" (a +:+ b) = String.prefix "/" a.
Proof.
  destruct a as [| x a]; [discriminate |]. intros _.
  rewrite append_cons, !prefix_slash_cons. reflexivity.
Qed.

Lemma prefix_slash_has_char (s : string) :
  has_char "/" s = false -> String.prefix "/" s = false.
Proof.
  destruct s as [| x s]; [reflexivity |]. cbn [has_char]. intros H.
  apply orb_false_elim in H as [H _]. rewrite prefix_slash_cons. exact H.
Qed.

Lemma ends_with_slash_append (a seg : string) :
  is_empty seg = false -> has_char "/" seg = false -> ends_with_slash (a +:+ seg) = false.
Proof.
  intros Hne Hno.
  assert (Hseg : ends_with_slash seg = false).
  { clear Hne. induction seg as [| x seg IH]; [reflexivity |].
    cbn [has_char] in Hno. apply orb_false_elim in Hno as [Hx Hs].
    destruct seg as [| y seg]; [exact Hx | exact (IH Hs)]. }
  induction a as [| x a IH]; [exact Hseg |].
  rewrite append_cons. cbn [ends_with_slash].
  destruct (a +:+ seg) eqn:E; [| exact IH].
  destruct a; [| discriminate E]. rewrite append_nil_l in E. subst seg. discriminate Hne.
Qed.

(** *** Splitting at a delimiter *)

Lemma split_acc_no_delimiter (d : ascii) (s cur : string) :
  has_char d s = false -> split_acc d s cur = [cur +:+ s].
Proof.
  revert cur. induction s as [| x s IH]; intros cur H.
  - cbn. rewrite append_nil_r. reflexivity.
  - cbn [has_char] in H. apply orb_false_elim in H as [Hx Hs].
    cbn [split_acc]. rewrite Hx, (IH _ Hs), append_assoc. reflexivity.
Qed.

Lemma split_acc_append (d : ascii) (a rest cur : string) :
  split_acc d (a +:+ String d rest) cur = (split_acc d a cur ++ split d rest)%list.
Proof.
  revert cur. induction a as [| x a IH]; intros cur.
  - rewrite append_nil_l. cbn [split_acc]. rewrite Ascii.eqb_refl. reflexivity.
  - rewrite append_cons. cbn [split_acc]. destruct (Ascii.eqb x d); rewrite IH; reflexivity.
Qed.

Lemma split_snoc (d : ascii) (a seg : string) :
  has_char d seg = false -> split d (a +:+ String d seg) = (split d a ++ [seg])%list.
Proof.
  intros H. unfold split. rewrite split_acc_append. unfold split.
  rewrite (split_acc_no_delimiter _ _ _ H). reflexivity.
Qed.

(** *** Joining and normalising *)

Lemma normalize_segments_app (above : bool) (stack l1 l2 : list string) :
  normalize_segments above stack (l1 ++ l2)
  = normalize_segments above (normalize_segments above stack l1) l2.
Proof.
  revert stack. induction l1 as [| seg l1 IH]; intros stack; [reflexivity |].
  cbn [app normalize_segments]. apply IH.
Qed.

Lemma plain_segment_spec (seg : string) :
  plain_segment seg = true ->
  is_empty seg = false /\ has_char "/" seg = false
  /\ String.eqb seg "." = false /\ String.eqb seg ".." = false.
Proof.
  unfold plain_segment. intros H.
  apply andb_prop in H as [H H4]. apply andb_prop in H as [H H3].
  apply andb_prop in H as [H1 H2].
  repeat split; apply negb_true_iff; assumption.
Qed.

Lemma normalize_segments_plain (above : bool) (stack : list string) (seg : string) :
  plain_segment seg = true -> normalize_segments above stack [seg] = seg :: stack.
Proof.
  intros H. destruct (plain_segment_spec _ H) as (H1 & _ & H3 & H4).
  cbn [normalize_segments]. rewrite H1, H3, H4. reflexivity.
Qed.

Lemma join_with_snoc (sep : string) (parts : list string) (seg : string) :
  join_with sep (parts ++ [seg])
  = match parts with
    | [] => seg
    | _ => join_with sep parts +:+ sep +:+ seg
    end.
Proof.
  induction parts as [| p parts IH]; [reflexivity |].
  destruct parts as [| q parts]; [reflexivity |].
  change (join_with sep ((p :: q :: parts) ++ [seg]))
    with (p +:+ sep +:+ join_with sep ((q :: parts) ++ [seg])).
  rewrite IH.
  change (join_with sep (p :: q :: parts)) with (p +:+ sep +:+ join_with sep (q :: parts)).
  rewrite !append_assoc. reflexivity.
Qed.

Lemma join_with_nonempty (sep : string) (parts : list string) :
  Forall (fun p => is_empty p = false) parts ->
  parts <> [] -> is_empty (join_with sep parts) = false.
Proof.
  intros H Hne. destruct H as [| p parts Hp _]; [contradiction |].
  destruct parts; [exact Hp |].
  change (is_empty (p +:+ sep +:+ join_with sep (s :: parts)) = false).
  destruct p; [discriminate Hp | reflexivity].
Qed.

Lemma filter_nonempty_all (parts : list string) :
  Forall (fun p => is_empty p = false) (List.filter (fun p => negb (is_empty p)) parts).
Proof.
  apply List.Forall_forall. intros p Hp. apply List.filter_In in Hp as [_ Hp].
  apply negb_true_iff. exact Hp.
Qed.

Lemma render_segments_snoc (seg : string) (kept : list string) :
  render_segments (seg :: kept)
  = match kept with
    | [] => ""
    | _ => render_segments kept +:+ "/"
    end +:+ seg.
Proof.
  destruct kept as [| top below]; [reflexivity |].
  change (render_segments (seg :: top :: below))
    with (render_segments (top :: below) +:+ "/" +:+ seg).
  rewrite append_assoc. reflexivity.
Qed.

(** The common form of a join that ends in a plain segment. *)
Lemma posix_join_plain_form (parts : list string) (seg : string) :
  plain_segment seg = true ->
  exists (root : string) (kept : list string),
    posix_join (parts ++ [seg]) = root +:+ render_segments (seg :: kept)
    /\ directory_prefix (parts ++ [seg]) = root +:+ render_segments (seg :: kept) +:+ "/"
    /\ directory_prefix parts
       = root +:+ match kept with
                  | [] => ""
                  | _ => render_segments kept +:+ "/"
                  end.
Proof.
  intros Hplain. destruct (plain_segment_spec _ Hplain) as (Hne & Hno & _ & _).
  unfold posix_join, directory_prefix.
  rewrite List.filter_app. cbn [List.filter]. rewrite Hne. cbn [negb].
  rewrite join_with_snoc.
  pose proof (filter_nonempty_all parts) as Hall.
  destruct (List.filter (fun p => negb (is_empty p)) parts) as [| p ps] eqn:Hf.
  - (* nothing before the segment *)
    exists "", []. cbn [join_with String.prefix split split_acc normalize_segments is_empty].
    rewrite Hne. unfold posix_normalize. rewrite Hne.
    rewrite (prefix_slash_has_char _ Hno). cbn [negb].
    pose proof (ends_with_slash_append "" _ Hne Hno) as Hend.
    rewrite append_nil_l in Hend. rewrite Hend.
    unfold split. rewrite (split_acc_no_delimiter _ _ _ Hno), append_nil_l.
    rewrite (normalize_segments_plain _ _ _ Hplain).
    cbn [render_segments]. rewrite Hne, !append_nil_l, append_nil_r.
    repeat split; reflexivity.
  - set (joined := join_with "/" (p :: ps)).
    assert (Hj : is_empty joined = false)
      by (apply join_with_nonempty; [exact Hall | discriminate]).
    set (absolute := String.prefix "/" joined).
    set (kept := normalize_segments (negb absolute) [] (split "/" joined)).
    exists (if absolute then "/" else ""), kept.
    assert (Hlong : is_empty (joined +:+ "/" +:+ seg) = false)
      by (destruct joined; [discriminate Hj | reflexivity]).
    rewrite Hlong. unfold posix_normalize. rewrite Hlong.
    rewrite (prefix_slash_append _ _ Hj). fold absolute.
    change (joined +:+ "/" +:+ seg) with (joined +:+ String "/" seg).
    rewrite (split_snoc _ _ _ Hno).
    rewrite normalize_segments_app. fold kept.
    rewrite (normalize_segments_plain _ _ _ Hplain).
    assert (Hbody : is_empty (render_segments (seg :: kept)) = false).
    { rewrite render_segments_snoc. apply is_empty_append. exact Hne. }
    rewrite Hbody.
    replace (ends_with_slash (joined +:+ String "/" seg)) with false.
    2:{ symmetry. change (joined +:+ String "/" seg) with (joined +:+ "/" +:+ seg).
        rewrite <- append_assoc. apply ends_with_slash_append; assumption. }
    rewrite append_nil_r.
    repeat split; reflexivity.
Qed.

(** A plain segment is appended to the directory of what comes before. *)
Lemma posix_join_plain (parts : list string) (seg : string) :
  plain_segment seg = true ->
  posix_join (parts ++ [seg]) = directory_prefix parts +:+ seg.
Proof.
  intros H. destruct (posix_join_plain_form parts seg H) as (root & kept & E & _ & D).
  rewrite E, D, render_segments_snoc, append_assoc. reflexivity.
Qed.

Lemma directory_prefix_plain (parts : list string) (seg : string) :
  plain_segment seg = true ->
  directory_prefix (parts ++ [seg]) = posix_join (parts ++ [seg]) +:+ "/".
Proof.
  intros H. destruct (posix_join_plain_form parts seg H) as (root & kept & E & D & _).
  rewrite E, D, append_assoc. reflexivity.
Qed.

(** Two plain segments after one directory: [{dir}/{first}/{second}]. *)
Lemma posix_join_two_plain (base first second : string) :
  plain_segment first = true -> plain_segment second = true ->
  posix_join [base; first; second] = posix_join [base; first] +:+ "/" +:+ second.
Proof.
  intros H1 H2.
  change [base; first; second] with (([base] ++ [first]) ++ [second])%list.
  rewrite (posix_join_plain _ _ H2), (directory_prefix_plain _ _ H1), append_assoc.
  reflexivity.
Qed.

Lemma posix_normalize_nonempty (p : string) : is_empty (posix_normalize p) = false.
Proof.
  unfold posix_normalize. destruct (is_empty p); [reflexivity |].
  destruct (is_empty (render_segments _)) eqn:Hbody.
  - destruct (String.prefix "/" p); [reflexivity |].
    destruct (ends_with_slash p); reflexivity.
  - destruct (String.prefix "/" p).
    + reflexivity.
    + rewrite append_nil_l.
      destruct (render_segments _); [discriminate Hbody | reflexivity].
Qed.

Lemma posix_join_nonempty (parts : list string) : is_empty (posix_join parts) = false.
Proof.
  unfold posix_join. destruct (is_empty (join_with _ _)); [reflexivity |].
  apply posix_normalize_nonempty.
Qed.

(** Joining to an absolute path gives an absolute path. *)
Lemma posix_join_absolute (base : string) (segments : list string) :
  String.prefix "/" base = true -> String.prefix "/" (posix_join (base :: segments)) = true.
Proof.
  intros Habs. unfold posix_join.
  assert (Hb : is_empty base = false) by (destruct base; [discriminate Habs | reflexivity]).
  cbn [List.filter]. rewrite Hb. cbn [negb].
  set (rest := List.filter (fun p => negb (is_empty p)) segments).
  assert (Hj : String.prefix "/" (join_with "/" (base :: rest)) = true).
  { destruct rest; [exact Habs |].
    change (join_with "/" (base :: s :: rest)) with (base +:+ "/" +:+ join_with "/" (s :: rest)).
    rewrite (prefix_slash_append _ _ Hb). exact Habs. }
  destruct (is_empty (join_with "/" (base :: rest))) eqn:He.
  - destruct (join_with "/" (base :: rest)); discriminate.
  - unfold posix_normalize. rewrite He, Hj.
    destruct (is_empty (render_segments _)); [reflexivity |].
    rewrite append_cons, prefix_slash_cons. reflexivity.
Qed.

Lemma Uri_file_absolute (p : string) : String.prefix "/" p = true -> Uri_file p = p.
Proof. intros H. unfold Uri_file. rewrite H. reflexivity. Qed.

Lemma Uri_file_nonempty (p : string) : is_empty (Uri_file p) = false.
Proof.
  unfold Uri_file. destruct (String.prefix "/" p) eqn:H; [| reflexivity].
  destruct p; [discriminate H | reflexivity].
Qed.

Lemma is_empty_eqb (s : string) : String.eqb s "" = is_empty s.
Proof. destruct s; reflexivity. Qed.

(** *** The directory of a path *)

Lemma dirname_end_no_slash (i : nat) (s : string) :
  has_char "/" s = false -> dirname_end i s = None.
Proof.
  revert i. induction s as [| x s IH]; intros i H; [reflexivity |].
  cbn [has_char] in H. apply orb_false_elim in H as [Hx Hs].
  cbn [dirname_end]. rewrite (IH _ Hs), Hx. reflexivity.
Qed.

Lemma has_segment_char_plain (s : string) :
  is_empty s = false -> has_char "/" s = false -> has_segment_char s = true.
Proof.
  destruct s as [| x s]; [discriminate |]. intros _ H.
  cbn [has_char] in H. apply orb_false_elim in H as [Hx _].
  cbn [has_segment_char]. rewrite Hx. reflexivity.
Qed.

Lemma dirname_end_append (i : nat) (d seg : string) :
  is_empty seg = false -> has_char "/" seg = false ->
  dirname_end i (d +:+ String "/" seg)
  = if (1 <=? i + String.length d)%nat then Some (i + String.length d)%nat else None.
Proof.
  intros Hne Hno. revert i. induction d as [| x d IH]; intros i.
  - rewrite append_nil_l. cbn [dirname_end String.length].
    rewrite (dirname_end_no_slash _ _ Hno), (has_segment_char_plain _ Hne Hno).
    rewrite Nat.add_0_r, andb_true_r. reflexivity.
  - rewrite append_cons. cbn [dirname_end String.length]. rewrite IH.
    replace (S i + String.length d)%nat with (i + S (String.length d))%nat by lia.
    destruct (Nat.leb_spec 1 (i + S (String.length d))); [reflexivity | lia].
Qed.

Lemma substring_append (a b : string) : String.substring 0 (String.length a) (a +:+ b) = a.
Proof.
  induction a as [| x a IH]; [destruct b; reflexivity |].
  rewrite append_cons. cbn [String.length String.substring]. f_equal. exact IH.
Qed.

(** The directory of [{d}/{segment}] is [d], the root apart. *)
Lemma dirname_append (d seg : string) :
  is_empty seg = false -> has_char "/" seg = false ->
  is_empty d = false -> d <> "/" ->
  dirname (d +:+ "/" +:+ seg) = d.
Proof.
  intros Hne Hno Hd Hroot. unfold dirname.
  rewrite (is_empty_append d); [| reflexivity].
  change (d +:+ "/" +:+ seg) with (d +:+ String "/" seg).
  rewrite (dirname_end_append 0 d seg Hne Hno). cbn [Nat.add].
  destruct d as [| x d]; [discriminate Hd |]. cbn [String.length Nat.leb].
  replace (String.prefix "/" (String x d +:+ String "/" seg) && (S (String.length d) =? 1)%nat)
    with false.
  - apply (substring_append (String x d)).
  - symmetry. apply andb_false_iff.
    destruct d as [| y d]; [| right; reflexivity].
    left. rewrite append_cons, prefix_slash_cons.
    apply Ascii.eqb_neq. intros ->. apply Hroot. reflexivity.
Qed.

(** *** The replacement text *)

Lemma expand_replacement_plain (matched before after text : string) :
  has_char "$" text = false -> expand_replacement matched before after text = text.
Proof.
  induction text as [| x text IH]; intros H; [reflexivity |].
  cbn [has_char] in H. apply orb_false_elim in H as [Hx Ht].
  cbn [expand_replacement]. rewrite Hx, (IH Ht). reflexivity.
Qed.

(** ** Running the monad *)

Lemma bind_run {A B} (m : M A) (k : A -> M B) (w w1 : World) (a : A) :
  m w = (Ok a, w1) -> bind m k w = k a w1.
Proof. intros E. unfold bind. rewrite E. reflexivity. Qed.

Lemma bind_throw {A B} (m : M A) (k : A -> M B) (w w1 : World) (err : string) :
  m w = (Throw err, w1) -> bind m k w = (Throw err, w1).
Proof. intros E. unfold bind. rewrite E. reflexivity. Qed.

Lemma bind_assoc {A B C} (m : M A) (f : A -> M B) (g : B -> M C) (w : World) :
  bind (bind m f) g w = bind m (fun a => bind (f a) g) w.
Proof. unfold bind. destruct (m w) as [[a | err] w1]; reflexivity. Qed.

(** ** The chain *)

Section Chain.

Variable path : option Uri.

Lemma precondition_cases (s : Strategy) (w : World) :
  (precondition_passes s path w
   /\ condition_fails s path w = (Ok false, after_precondition s path w))
  \/ (precondition_fails s path w
      /\ condition_fails s path w = (Ok true, after_precondition s path w))
  \/ (exists err, precondition_throws s path w err
                  /\ condition_fails s path w = (Throw err, after_precondition s path w)).
Proof.
  unfold precondition_passes, precondition_fails, precondition_throws,
    after_precondition, condition_fails.
  destruct (condition s) as [c |]; [| left; split; [exact I | reflexivity]].
  unfold bind, ret. destruct (c path w) as [[[|] | err] wc] eqn:Hc; cbn [fst snd negb].
  - left. split; reflexivity.
  - right; left. split; [| reflexivity].
    exists c. split; [reflexivity | rewrite Hc; reflexivity].
  - right; right. exists err. split; [| reflexivity].
    exists c. split; [reflexivity | rewrite Hc; reflexivity].
Qed.

Lemma precondition_exclusive (s : Strategy) (w : World) :
  precondition_passes s path w -> ~ precondition_fails s path w.
Proof.
  unfold precondition_passes. intros Hp (c & Hc & Hf). rewrite Hc in Hp. congruence.
Qed.

Lemma precondition_passes_no_throw (s : Strategy) (w : World) (err : string) :
  precondition_passes s path w -> ~ precondition_throws s path w err.
Proof.
  unfold precondition_passes. intros Hp (c & Hc & Hf). rewrite Hc in Hp. congruence.
Qed.

Lemma precondition_fails_no_throw (s : Strategy) (w : World) (err : string) :
  precondition_fails s path w -> ~ precondition_throws s path w err.
Proof. intros (c & Hc & Hf) (c' & Hc' & Hf'). congruence. Qed.

(** One iteration of the loop, by cases on what the strategy does. *)
Lemma attemptFind_step (s : Strategy) (rest : list Strategy) (w : World) :
  (precondition_fails s path w
   /\ attemptFind (s :: rest) path w
      = attemptFind rest path (after_precondition s path w))
  \/ (exists err, precondition_throws s path w err
                  /\ attemptFind (s :: rest) path w
                     = (Throw err, after_precondition s path w))
  \/ (precondition_passes s path w
      /\ ((exists w1, locate s path w = (Ok None, w1)
                      /\ attemptFind (s :: rest) path w
                         = attemptFind rest path (record (not_found_entry s) w1))
          \/ (exists err w1, locate s path w = (Throw err, w1)
                      /\ attemptFind (s :: rest) path w
                         = attemptFind rest path (record (error_entry s err) w1))
          \/ (exists b w1 err w2,
                 locate s path w = (Ok (Some b), w1)
                 /\ onSuccess s b w1 = (Throw err, w2)
                 /\ attemptFind (s :: rest) path w
                    = attemptFind rest path (record (error_entry s err) w2))
          \/ (exists b w1 w2,
                 locate s path w = (Ok (Some b), w1)
                 /\ onSuccess s b w1 = (Ok tt, w2)
                 /\ attemptFind (s :: rest) path w
                    = (Ok (Some (mkFindResult b (label s) (kind s))), w2)))).
Proof.
  cbn [attemptFind].
  destruct (precondition_cases s w) as [[Hp E] | [[Hf E] | (err & Ht & E)]].
  - right; right. split; [exact Hp |].
    rewrite (bind_run _ _ _ _ _ E). cbv beta iota.
    unfold locate, try_catch, bind, ret, logger.info, logger.error, emit, modify,
      not_found_entry, error_entry.
    destruct (find (strategy s) path (after_precondition s path w))
      as [[[b |] | err] w1] eqn:Hfind.
    + destruct (onSuccess s b w1) as [[[] | err] w2] eqn:Hhook.
      * right; right; right. exists b, w1, w2. repeat split; try assumption; reflexivity.
      * right; right; left. exists b, w1, err, w2.
        repeat split; try assumption; reflexivity.
    + left. exists w1. split; reflexivity.
    + right; left. exists err, w1. split; reflexivity.
  - left. split; [exact Hf |]. rewrite (bind_run _ _ _ _ _ E). reflexivity.
  - right; left. exists err. split; [exact Ht |]. apply (bind_throw _ _ _ _ _ E).
Qed.

(** Strategies that yield nothing are run and then left behind. *)
Lemma attemptFind_app_nothing (pre rest : list Strategy) (w w1 : World) :
  yields_nothing path pre w w1 ->
  attemptFind (pre ++ rest) path w = attemptFind rest path w1.
Proof.
  induction 1 as [w | s pre w w' Hno _ IH | s pre w w1 w' Hp Hl _ IH
                    | s pre w w1 err w' Hp Hl _ IH
                    | s pre w w1 b err w2 w' Hp Hl Hh _ IH]; [reflexivity | | | |];
    rewrite <- IH; change ((s :: pre) ++ rest)%list with (s :: (pre ++ rest))%list;
    destruct (attemptFind_step s (pre ++ rest) w)
      as [[Hno' E] | [(err' & Ht & E)
          | [Hp' [(w3 & Hl' & E) | [(err' & w3 & Hl' & E)
               | [(b' & w3 & err' & w4 & Hl' & Hh' & E) | (b' & w3 & w4 & Hl' & Hh' & E)]]]]]];
    try (exfalso; eapply precondition_exclusive; eassumption);
    try (exfalso; eapply precondition_passes_no_throw; eassumption);
    try (exfalso; eapply precondition_fails_no_throw; eassumption);
    congruence.
Qed.

Lemma attemptFind_nothing (l : list Strategy) (w w' : World) :
  yields_nothing path l w w' -> attemptFind l path w = (Ok None, w').
Proof.
  intros H. rewrite <- (app_nil_r l). rewrite (attemptFind_app_nothing _ [] _ _ H).
  reflexivity.
Qed.

Lemma attemptFind_success (l : list Strategy) (w : World) (r : FindResult) (w' : World) :
  first_success path l w r w' -> attemptFind l path w = (Ok (Some r), w').
Proof.
  intros (pre & s & post & b & w1 & w2 & -> & Hpre & Hp & Hl & -> & Hh).
  rewrite (attemptFind_app_nothing _ _ _ _ Hpre).
  destruct (attemptFind_step s post w1)
    as [[Hno' E] | [(err' & Ht & E)
        | [Hp' [(w3 & Hl' & E) | [(err' & w3 & Hl' & E)
             | [(b' & w3 & err' & w4 & Hl' & Hh' & E) | (b' & w3 & w4 & Hl' & Hh' & E)]]]]]];
    try (exfalso; eapply precondition_exclusive; eassumption);
    try (exfalso; eapply precondition_passes_no_throw; eassumption);
    congruence.
Qed.

Lemma attemptFind_error (l : list Strategy) (w : World) (err : string) (w' : World) :
  precondition_error path l w err w' -> attemptFind l path w = (Throw err, w').
Proof.
  intros (pre & s & post & w1 & -> & Hpre & Ht & ->).
  rewrite (attemptFind_app_nothing _ _ _ _ Hpre).
  destruct (attemptFind_step s post w1)
    as [[Hno' E] | [(err' & Ht' & E) | [Hp' _]]].
  - exfalso. eapply precondition_fails_no_throw; eassumption.
  - destruct Ht as (c & Hc & Hf), Ht' as (c' & Hc' & Hf'). rewrite E. congruence.
  - exfalso. eapply precondition_passes_no_throw; eassumption.
Qed.

(** The chain ends, and it ends as one of the three relations describes. *)
Lemma attemptFind_sound (l : list Strategy) (w : World) :
  (exists w', attemptFind l path w = (Ok None, w') /\ yields_nothing path l w w')
  \/ (exists r w', attemptFind l path w = (Ok (Some r), w')
                   /\ first_success path l w r w')
  \/ (exists err w', attemptFind l path w = (Throw err, w')
                     /\ precondition_error path l w err w').
Proof.
  revert w. induction l as [| s rest IH]; intros w.
  - left. exists w. split; [reflexivity | constructor].
  - assert (Hgo : forall w0,
               attemptFind (s :: rest) path w = attemptFind rest path w0 ->
               (forall l0 w', yields_nothing path l0 w0 w' ->
                              yields_nothing path (s :: l0) w w') ->
               (exists w', attemptFind (s :: rest) path w = (Ok None, w')
                           /\ yields_nothing path (s :: rest) w w')
               \/ (exists r w', attemptFind (s :: rest) path w = (Ok (Some r), w')
                                /\ first_success path (s :: rest) w r w')
               \/ (exists err w', attemptFind (s :: rest) path w = (Throw err, w')
                                  /\ precondition_error path (s :: rest) w err w')).
    { intros w0 E Hcons.
      destruct (IH w0) as [(w' & E' & Hn) | [(r & w' & E' & Hs) | (err & w' & E' & He)]].
      - left. exists w'. split; [congruence | apply Hcons; exact Hn].
      - right; left. exists r, w'. split; [congruence |].
        destruct Hs as (pre & s' & post & b & wa & wb & -> & Hpre & Hp' & Hl' & -> & Hh').
        exists (s :: pre), s', post, b, wa, wb.
        repeat split; try assumption. apply Hcons. exact Hpre.
      - right; right. exists err, w'. split; [congruence |].
        destruct He as (pre & s' & post & wa & -> & Hpre & Ht & ->).
        exists (s :: pre), s', post, wa.
        repeat split; try assumption. apply Hcons. exact Hpre. }
    destruct (attemptFind_step s rest w)
      as [[Hno E] | [(err & Ht & E)
          | [Hp [(w1 & Hl & E) | [(err & w1 & Hl & E)
               | [(b & w1 & err & w2 & Hl & Hh & E) | (b & w1 & w2 & Hl & Hh & E)]]]]]].
    + apply (Hgo _ E). intros l0 w' Hn. eapply nothing_skipped; eassumption.
    + right; right. exists err, (after_precondition s path w). split; [exact E |].
      exists [], s, rest, w. repeat split; [constructor | exact Ht].
    + apply (Hgo _ E). intros l0 w' Hn. eapply nothing_empty; eassumption.
    + apply (Hgo _ E). intros l0 w' Hn. eapply nothing_thrown; eassumption.
    + apply (Hgo _ E). intros l0 w' Hn. eapply nothing_refused; eassumption.
    + right; left. exists (mkFindResult b (label s) (kind s)), w2.
      split; [exact E |].
      exists [], s, rest, b, w, w1. repeat split; try assumption. constructor.
Qed.

(** C1, amended. For every strategy list and every resolution context, the
    chain returns the location of the first strategy, in list order, whose
    precondition (when defined) holds, whose lookup is non-empty and whose
    [onSuccess] hook returns on that location, tagged with the kind and the
    label of that strategy, when the hook has run; whatever follows that
    strategy in the list is not evaluated (the answer and the final host are
    the same for every continuation of the list). A strategy whose hook
    throws counts as having produced nothing. The chain returns empty exactly
    when no strategy produces a result, and it throws exactly when a
    precondition throws before any strategy has produced one. *)
Theorem attemptFind_first_match (l : list Strategy) (w : World) :
  (forall r w',
      attemptFind l path w = (Ok (Some r), w') <-> first_success path l w r w')
  /\ (forall pre s post b w1 w2 w3,
         l = (pre ++ s :: post)%list ->
         yields_nothing path pre w w1 ->
         precondition_passes s path w1 ->
         locate s path w1 = (Ok (Some b), w2) ->
         onSuccess s b w2 = (Ok tt, w3) ->
         forall others,
           attemptFind (pre ++ s :: others) path w
           = (Ok (Some (mkFindResult b (label s) (kind s))), w3))
  /\ (forall w',
         attemptFind l path w = (Ok None, w') <-> yields_nothing path l w w')
  /\ (forall err w',
         attemptFind l path w = (Throw err, w') <-> precondition_error path l w err w').
Proof.
  split; [| split; [| split]].
  - intros r w'. split; [| apply attemptFind_success].
    intros E.
    destruct (attemptFind_sound l w)
      as [(w2 & E' & _) | [(r' & w2 & E' & Hs) | (err & w2 & E' & _)]]; congruence.
  - intros pre s post b w1 w2 w3 _ Hpre Hp Hl Hh others.
    apply attemptFind_success. exists pre, s, others, b, w1, w2.
    repeat split; assumption.
  - intros w'. split; [| apply attemptFind_nothing].
    intros E.
    destruct (attemptFind_sound l w)
      as [(w2 & E' & Hn) | [(r' & w2 & E' & _) | (err & w2 & E' & _)]]; congruence.
  - intros err w'. split; [| apply attemptFind_error].
    intros E.
    destruct (attemptFind_sound l w)
      as [(w2 & E' & _) | [(r' & w2 & E' & _) | (err' & w2 & E' & He)]]; congruence.
Qed.

End Chain.

(** C1, as stated, fails for a strategy whose hook throws: the lookup of
    the first strategy of the list is non-empty and it has no precondition,
    yet the chain drops its location, logs the error of the hook, evaluates
    the strategy after it and returns the location of that one. A
    precondition that throws ends the chain with its error. *)
Lemma throwing_hook_discards_result :
  precondition_passes probe_refused None (host_of bare_env ∅)
  /\ fst (locate probe_refused None (host_of bare_env ∅)) = Ok (Some "/found")
  /\ attemptFind [probe_refused; probe_late] None (host_of bare_env ∅)
     = (Ok (Some (mkFindResult "/late" "fifth" Download)),
        mkWorld bare_env ∅ ∅ ∅ 1000000000000
          [ Log LDebug "hook of fifth" ["/late"];
            Log LDebug "called" ["fifth"];
            Log LError "sixth returned an error" ["hook failed"];
            Log LDebug "called" ["sixth"] ])
  /\ fst (attemptFind [probe_broken; probe_late] None (host_of bare_env ∅))
     = Throw "precondition failed".
Proof. repeat split. Qed.

(** The instrumented chain: the fourth strategy answers and the fifth is
    never called. *)
Lemma attemptFind_first_match_witness :
  attemptFind [probe_empty; probe_throwing; probe_disabled; probe_found; probe_late]
    None (host_of bare_env ∅)
  = (Ok (Some (mkFindResult "/opt/bin/tool" "fourth" Path)),
     mkWorld bare_env ∅ ∅ ∅ 1000000000000
       [ Log LDebug "hook of fourth" ["/opt/bin/tool"];
         Log LDebug "called" ["fourth"];
         Log LError "second returned an error" ["boom"];
         Log LDebug "called" ["second"];
         Log LInfo "Binary not found with strategy" ["first"];
         Log LDebug "called" ["first"] ]).
Proof.
  pose proof (proj1 (proj2 (attemptFind_first_match None
                [probe_empty; probe_throwing; probe_disabled; probe_found; probe_late]
                (host_of bare_env ∅)))
              [probe_empty; probe_throwing; probe_disabled] probe_found [probe_late]
              "/opt/bin/tool") as H.
  etransitivity.
  - eapply (H _ _ _ eq_refl).
    + eapply nothing_empty; [exact I | reflexivity |].
      eapply nothing_thrown; [exact I | reflexivity |].
      eapply nothing_skipped; [eexists; split; reflexivity |].
      apply nothing_nil.
    + reflexivity.
    + reflexivity.
    + reflexivity.
  - reflexivity.
Defined.

(** C2. When the lookup of a strategy throws, the chain catches the error,
    logs it, counts the strategy as having produced nothing and goes on with
    the next strategy in order: run up to the throwing strategy the chain
    returns empty with the error entry on top of the log, and the strategy
    after it is looked up from there. The error does not leave the chain: a
    call of the chain throws only when a precondition throws. *)
Theorem attemptFind_catches_errors (path : option Uri) (pre : list Strategy)
    (s : Strategy) (post : list Strategy) (w w1 w2 : World) (err : string) :
  yields_nothing path pre w w1 ->
  precondition_passes s path w1 ->
  locate s path w1 = (Throw err, w2) ->
  attemptFind (pre ++ [s]) path w = (Ok None, record (error_entry s err) w2)
  /\ yields_nothing path (pre ++ [s]) w (record (error_entry s err) w2)
  /\ attemptFind (pre ++ s :: post) path w
     = attemptFind post path (record (error_entry s err) w2)
  /\ (forall next later b w3 w4,
         post = next :: later ->
         precondition_passes next path (record (error_entry s err) w2) ->
         locate next path (record (error_entry s err) w2) = (Ok (Some b), w3) ->
         onSuccess next b w3 = (Ok tt, w4) ->
         attemptFind (pre ++ s :: post) path w
         = (Ok (Some (mkFindResult b (label next) (kind next))), w4))
  /\ (forall l p w0 e w',
         attemptFind l p w0 = (Throw e, w') -> precondition_error p l w0 e w').
Proof.
  intros Hpre Hp Hl.
  assert (Hall : yields_nothing path (pre ++ [s]) w (record (error_entry s err) w2)).
  { clear post.
    induction Hpre as [w | s0 pre w w' Hno _ IH | s0 pre w wa w' Hp0 Hl0 _ IH
                         | s0 pre w wa e0 w' Hp0 Hl0 _ IH
                         | s0 pre w wa b0 e0 wb w' Hp0 Hl0 Hh0 _ IH]; cbn [app].
    - eapply nothing_thrown; [eassumption | eassumption | constructor].
    - eapply nothing_skipped; [assumption | apply IH; assumption].
    - eapply nothing_empty; [eassumption | eassumption | apply IH; assumption].
    - eapply nothing_thrown; [eassumption | eassumption | apply IH; assumption].
    - eapply nothing_refused; [eassumption | eassumption | eassumption |
                                apply IH; assumption]. }
  assert (Hnext : attemptFind (pre ++ s :: post) path w
                  = attemptFind post path (record (error_entry s err) w2)).
  { change (pre ++ s :: post)%list with (pre ++ [s] ++ post)%list.
    rewrite app_assoc. apply attemptFind_app_nothing. exact Hall. }
  split; [apply attemptFind_nothing; exact Hall |].
  split; [exact Hall |]. split; [exact Hnext |]. split.
  - intros next later b w3 w4 -> Hpn Hln Hhn. rewrite Hnext.
    apply attemptFind_success. exists [], next, later, b, (record (error_entry s err) w2), w3.
    repeat split; try assumption. constructor.
  - intros l p w0 e w' E.
    destruct (attemptFind_sound p l w0)
      as [(w3 & E' & _) | [(r' & w3 & E' & _) | (err' & w3 & E' & He)]]; congruence.
Qed.

(** The second strategy throws; the chain logs the error and the third one
    answers. *)
Lemma attemptFind_catches_errors_witness :
  attemptFind ([probe_empty] ++ probe_throwing :: [probe_late]) None (host_of bare_env ∅)
  = (Ok (Some (mkFindResult "/late" "fifth" Download)),
     mkWorld bare_env ∅ ∅ ∅ 1000000000000
       [ Log LDebug "hook of fifth" ["/late"];
         Log LDebug "called" ["fifth"];
         Log LError "second returned an error" ["boom"];
         Log LDebug "called" ["second"];
         Log LInfo "Binary not found with strategy" ["first"];
         Log LDebug "called" ["first"] ]).
Proof.
  refine (proj1 (proj2 (proj2 (proj2
            (attemptFind_catches_errors None [probe_empty] probe_throwing [probe_late]
               (host_of bare_env ∅) _ _ "boom" _ _ _))))
            probe_late [] "/late" _ _ eq_refl _ _ _).
  - eapply nothing_empty; [exact I | reflexivity | apply nothing_nil].
  - exact I.
  - reflexivity.
  - exact I.
  - reflexivity.
  - reflexivity.
Defined.

(** ** The configuration *)

(** What [getConfig] computes and what it leaves in the log. *)
Lemma getConfig_run (key : string) (scope : option Uri) (w : World) :
  let newValue := default JUndefined
                    (configuration (env w) "postgres-language-server" scope !! key) in
  let oldValue := default JUndefined (configuration (env w) "postgrestools" scope !! key) in
  let w1 := record (Log LDebug ("Setting '" +:+ key +:+ "' in new config") []) w in
  getConfig key scope w
  = if is_set newValue then (Ok newValue, w1)
    else (Ok oldValue, record (Log LDebug ("Setting '" +:+ key +:+ "' in old config") []) w1).
Proof.
  cbv zeta. unfold getConfig, configuration_get, bind, gets, logger.debug, emit, modify.
  cbn [env record].
  destruct (is_set _); reflexivity.
Qed.

Lemma is_set_spec (v : JsValue) :
  is_set v = true
  <-> v <> JUndefined /\ v <> JNull /\ v <> JString "" /\ (forall b, v <> JBool b).
Proof.
  split.
  - intros H. destruct v as [| | b | n | s | fields]; cbn in H; try discriminate;
      repeat split; try discriminate.
    intros E. injection E as ->. discriminate.
  - intros (H1 & H2 & H3 & H4). destruct v as [| | b | n | s | fields]; cbn;
      try reflexivity; try (exfalso; congruence).
    destruct (String.eqb_spec s ""); [subst; congruence | reflexivity].
Qed.

(** C9. For every key, [getConfig] returns the value under the
    "postgres-language-server" prefix only when that value is defined, not
    null, not the empty string and not a boolean; in every other case it
    returns the value under the legacy "postgrestools" prefix. A boolean set
    under the new prefix is therefore always passed over for the legacy
    value. *)
Theorem getConfig_new_value_unless_unset_or_boolean (key : string) (scope : option Uri)
    (w : World) :
  let newValue := default JUndefined
                    (configuration (env w) "postgres-language-server" scope !! key) in
  let oldValue := default JUndefined (configuration (env w) "postgrestools" scope !! key) in
  (newValue <> JUndefined -> newValue <> JNull -> newValue <> JString "" ->
   (forall b, newValue <> JBool b) ->
   fst (getConfig key scope w) = Ok newValue)
  /\ (newValue = JUndefined \/ newValue = JNull \/ newValue = JString ""
      \/ (exists b, newValue = JBool b) ->
      fst (getConfig key scope w) = Ok oldValue)
  /\ (forall b, configuration (env w) "postgres-language-server" scope !! key
                = Some (JBool b) ->
                fst (getConfig key scope w) = Ok oldValue).
Proof.
  cbv zeta. pose proof (getConfig_run key scope w) as Hrun. cbv zeta in Hrun.
  split; [| split].
  - intros H1 H2 H3 H4. rewrite Hrun.
    replace (is_set _) with true; [reflexivity|].
    symmetry. apply is_set_spec. auto.
  - intros H. rewrite Hrun.
    replace (is_set _) with false; [reflexivity|].
    symmetry. destruct H as [-> | [-> | [-> | [b ->]]]]; reflexivity.
  - intros b H. rewrite Hrun, H. reflexivity.
Qed.

(** [enabled] is [true] under the new prefix and [false] under the legacy one:
    the legacy value wins. *)
Lemma getConfig_new_value_unless_unset_or_boolean_witness :
  fst (getConfig "enabled" None
         (host_of (with_configuration mixed_configuration bare_env) ∅))
  = Ok (JBool false).
Proof.
  refine (proj2 (proj2 (getConfig_new_value_unless_unset_or_boolean "enabled" None
                          (host_of (with_configuration mixed_configuration bare_env) ∅)))
            true _).
  vm_compute. reflexivity.
Defined.

Lemma quiet_refl (w : World) : quiet w w.
Proof. repeat split. exists []. split; [reflexivity | constructor]. Qed.

Lemma quiet_trans (w1 w2 w3 : World) : quiet w1 w2 -> quiet w2 w3 -> quiet w1 w3.
Proof.
  intros (E1 & F1 & D1 & G1 & C1 & a1 & T1 & L1) (E2 & F2 & D2 & G2 & C2 & a2 & T2 & L2).
  repeat split; try congruence.
  exists (a2 ++ a1)%list. split.
  - rewrite T2, T1. apply app_assoc.
  - apply Forall_app. split; assumption.
Qed.

Lemma quiet_log (lvl : Level) (msg : string) (data : list string) (w : World) :
  quiet w (record (Log lvl msg data) w).
Proof.
  repeat split. exists [Log lvl msg data]. split; [reflexivity|].
  constructor; [exact I | constructor].
Qed.

Lemma quiet_log_after (lvl : Level) (msg : string) (data : list string) (w w' : World) :
  quiet w w' -> quiet w (record (Log lvl msg data) w').
Proof. intros H. eapply quiet_trans; [exact H | apply quiet_log]. Qed.

Lemma flat_map_logs {A} (f : Event -> list A) (added : list Event) :
  (forall lvl msg data, f (Log lvl msg data) = []) ->
  Forall is_log added -> flat_map f added = [].
Proof.
  intros Hf. induction 1 as [| e added He _ IH]; [reflexivity|].
  cbn. rewrite IH. destruct e; try contradiction. rewrite Hf. reflexivity.
Qed.

Lemma quiet_observations (w w' : World) :
  quiet w w' ->
  error_messages w' = error_messages w
  /\ information_messages w' = information_messages w
  /\ copies w' = copies w /\ writes w' = writes w /\ chmods w' = chmods w.
Proof.
  intros (_ & _ & _ & _ & _ & added & T & L).
  unfold error_messages, information_messages, copies, writes, chmods.
  rewrite T, !flat_map_app, !(flat_map_logs _ added) by (assumption || reflexivity).
  repeat split.
Qed.

Lemma getConfig_quiet (key : string) (scope : option Uri) (w : World) :
  exists w', getConfig key scope w = (Ok (config_value key scope (env w)), w')
             /\ quiet w w'.
Proof.
  pose proof (getConfig_run key scope w) as H. cbv zeta in H. unfold config_value.
  destruct (is_set _); eexists; (split; [exact H |]);
    repeat apply quiet_log_after; apply quiet_refl.
Qed.

(** ** The settings lookup *)

Lemma prefix_dot_nonempty (s : string) :
  String.prefix "." s = true -> String.eqb s "" = false.
Proof. destruct s; [discriminate | reflexivity]. Qed.

Lemma joinPath_nonempty (root : string) (segments : list string) :
  String.eqb (Uri_joinPath root segments) "" = false.
Proof. rewrite is_empty_eqb. apply posix_join_nonempty. Qed.

(** The lookup once the setting has been read as a string. *)
Lemma vsCodeSettings_find_string (scope : option Uri) (w : World) (v : JsValue)
    (setting : string) :
  config_value "bin" scope (env w) = v ->
  binary_setting v (env w) = Some setting ->
  String.eqb setting "" = false ->
  exists w1,
    quiet w w1
    /\ vsCodeSettings_find scope w
       = (let* operatingMode := gets (fun w => CONSTANTS.operatingMode (env w)) in
          let* resolvedPath :=
            if String.prefix "." setting then
              match operatingMode, scope with
              | MultiRoot, _ =>
                  window.showErrorMessage relative_path_unsupported ;;;
                  ret None
              | _, Some root => ret (Some (Uri_joinPath root [setting]))
              | _, None =>
                  logger.error
                    "User picked a relative path for setting and is not in multi-root workspace mode. Somehow, we couldn't form a path to the binary." [] ;;;
                  ret None
              end
            else ret (Some setting) in
          match resolvedPath with
          | None => ret None
          | Some resolvedPath =>
              if String.eqb resolvedPath "" then ret None
              else
                logger.debug "Looking for binary at path" [resolvedPath] ;;;
                let bin := Uri_file resolvedPath in
                let* there := fileExists bin in
                if there then ret (Some bin) else vsCodeSettings_not_found
          end) w1.
Proof.
  intros Hcfg Hset Hne. unfold vsCodeSettings_find. log_step.
  match goal with |- context [bind (getConfig "bin" scope) _ ?w0] =>
    destruct (getConfig_quiet "bin" scope w0) as (w1 & E & Q) end.
  rewrite (bind_run _ _ _ _ _ E). cbn [env record] in E |- *. rewrite Hcfg.
  destruct v as [| | b | n | s | fields]; try discriminate.
  - injection Hset as ->. cbn [truthy]. rewrite Hne. cbn [negb].
    ret_step. log_step.
    eexists. split; [| reflexivity].
    apply quiet_log_after. eapply quiet_trans; [apply quiet_log | exact Q].
  - cbn [binary_setting] in Hset. cbn [truthy negb].
    rewrite bind_assoc. log_step. rewrite bind_assoc. gets_step.
    assert (Hw1 : env w1 = env w) by (destruct Q as (Q1 & _); exact Q1).
    cbn [env record]. rewrite Hw1.
    destruct (get_property fields (CONSTANTS.platformIdentifier (env w)))
      as [| | b | n | s | fields'] eqn:Hp; try discriminate.
    injection Hset as ->. cbn [truthy]. rewrite Hne. cbn [negb].
    rewrite bind_assoc. log_step. ret_step. log_step.
    eexists. split; [| reflexivity].
    repeat apply quiet_log_after. eapply quiet_trans; [apply quiet_log | exact Q].
Qed.
(** C5, as stated, fails for a relative path that does not start with a
    dot: with the single root [/proj] and the setting [bin/pgls], the binary
    at [/proj/bin/pgls] is not found; the setting is looked up as it is,
    without the root, and no error is shown. *)
Lemma vsCodeSettings_plain_relative_path :
  exists w',
    find vsCodeSettingsStrategy (Some "/proj")
      (host_of (with_configuration plain_configuration bare_env)
         {[ "/proj/bin/pgls" := a_binary "1.9.0" ]})
    = (Ok None, w')
    /\ CONSTANTS.operatingMode (with_configuration plain_configuration bare_env)
       = SingleRoot
    /\ In (Log LDebug "Looking for binary at path" ["bin/pgls"]) (trace w')
    /\ error_messages w' = [].
Proof.
  eexists. split; [vm_compute; reflexivity |].
  vm_compute. repeat split. right. left. reflexivity.
Qed.

(** C5, amended. For every binary setting that starts with a dot (the test
    the code makes for a relative path), be it the value itself or the
    platform's entry of an object value: when a single project root is known,
    the settings lookup joins the setting to the root and normalises the
    result ([./bin/pgls] under [/proj] is [/proj/bin/pgls]; the path of a
    root starts with a slash, and so does the result), and returns that path
    if a file is there, without showing an error; in multi-root
    operation it shows an error message to the user and returns "not found",
    without throwing. *)
Theorem vsCodeSettings_relative_path (scope : option Uri) (w : World) (v : JsValue)
    (setting : string) :
  fst (getConfig "bin" scope w) = Ok v ->
  binary_setting v (env w) = Some setting ->
  String.prefix "." setting = true ->
  (forall root,
      CONSTANTS.operatingMode (env w) = SingleRoot -> scope = Some root ->
      exists w',
        find vsCodeSettingsStrategy scope w
        = (Ok (if file_exists (Uri_file (Uri_joinPath root [setting])) w
               then Some (Uri_file (Uri_joinPath root [setting])) else None), w')
        /\ error_messages w' = error_messages w)
  /\ (forall root,
         String.prefix "/" root = true ->
         Uri_file (Uri_joinPath root [setting]) = Uri_joinPath root [setting])
  /\ (CONSTANTS.operatingMode (env w) = MultiRoot ->
      exists w',
        find vsCodeSettingsStrategy scope w = (Ok None, w')
        /\ error_messages w' = relative_path_unsupported :: error_messages w).
Proof.
  intros Hcfg Hset Hdot.
  pose proof (prefix_dot_nonempty _ Hdot) as Hne.
  assert (Hv : config_value "bin" scope (env w) = v).
  { destruct (getConfig_quiet "bin" scope w) as (w0 & E & _).
    rewrite E in Hcfg. cbn in Hcfg. congruence. }
  destruct (vsCodeSettings_find_string scope w v setting Hv Hset Hne) as (w1 & Q & E).
  cbn [find vsCodeSettingsStrategy]. rewrite E. clear E.
  assert (Henv : env w1 = env w) by (destruct Q as (Q1 & _); exact Q1).
  assert (Hfiles : files w1 = files w) by (destruct Q as (_ & Q2 & _); exact Q2).
  destruct (quiet_observations _ _ Q) as (Herr & _).
  gets_step. rewrite Hdot, Henv.
  split; [| split].
  - intros root Hmode ->. rewrite Hmode. ret_step.
    rewrite joinPath_nonempty. log_step. gets_step.
    unfold file_exists. cbn [files record]. rewrite Hfiles.
    destruct (files w !! Uri_file (Uri_joinPath root [setting])) as [f |].
    + eexists. split; [reflexivity |]. exact Herr.
    + unfold vsCodeSettings_not_found. log_step. eexists. split; [reflexivity |]. exact Herr.
  - intros root Habs. apply Uri_file_absolute, posix_join_absolute. exact Habs.
  - intros Hmode. rewrite Hmode. cbv beta iota.
    eexists. split; [reflexivity |].
    unfold error_messages in *. cbn [trace record flat_map app]. rewrite Herr. reflexivity.
Qed.

(** The setting [./bin/pgls] in the single-root workspace [/proj], where the
    binary is installed. *)
Lemma vsCodeSettings_relative_path_witness :
  exists w',
    find vsCodeSettingsStrategy (Some "/proj")
      (host_of (with_configuration mixed_configuration bare_env)
         {[ "/proj/bin/pgls" := a_binary "1.9.0" ]})
    = (Ok (Some "/proj/bin/pgls"), w')
    /\ error_messages w' = [].
Proof.
  refine (proj1 (vsCodeSettings_relative_path (Some "/proj")
                   (host_of (with_configuration mixed_configuration bare_env)
                      {[ "/proj/bin/pgls" := a_binary "1.9.0" ]})
                   (JString "./bin/pgls") "./bin/pgls" _ _ _) "/proj" _ _);
    vm_compute; reflexivity.
Defined.

(** ** The downloader *)

Lemma hasNewName_run (w : World) :
  hasNewName w
  = (Ok (new_name_available (env w)),
     requested "HEAD" (release_host +:+ "latest/download/"
                       +:+ CONSTANTS.newPlatformSpecificReleasedAssetName (env w)) w).
Proof.
  unfold hasNewName, try_catch, new_name_available, requested.
  gets_step. unfold round_trip, bind, emit, modify. cbn [env record set_clock].
  destruct (net_head (env w) _) as [found | err]; reflexivity.
Qed.

(** C8. For every selected version, when the fetch of the release asset
    fails, the download stops there: no file is written (the file system is
    as it was), and the failure is shown to the user in an error message
    that contains the failing URL and the version. *)
Theorem download_failure_reported (version : string) (w : World) (error : string) :
  net_get (env w) (asset_url version (env w)) = Throw error ->
  exists w' message,
    downloadPgltVersion version w = (Ok tt, w')
    /\ files w' = files w
    /\ writes w' = writes w
    /\ error_messages w' = message :: error_messages w
    /\ occurs_in (asset_url version (env w)) message
    /\ occurs_in version message.
Proof.
  intros Hnet. unfold downloadPgltVersion.
  rewrite (bind_run _ _ _ _ _ (hasNewName_run w)).
  gets_step. cbn [env requested set_clock record].
  fold (asset_url version (env w)). log_step.
  unfold fetch_bytes, round_trip, try_catch, logger.error, window.showErrorMessage,
    emit, modify, ret, bind.
  cbn [env record set_clock requested]. rewrite Hnet.
  eexists _, _. split; [reflexivity |].
  cbn [files record set_clock requested].
  split; [reflexivity |]. split; [reflexivity |]. split; [reflexivity |].
  split.
  - exists ("Failed to download binary version " +:+ version +:+ " from "),
      ("." +:+ nl +:+ nl +:+ error).
    rewrite !append_assoc. reflexivity.
  - exists "Failed to download binary version ",
      (" from " +:+ asset_url version (env w) +:+ "." +:+ nl +:+ nl +:+ error).
    reflexivity.
Qed.

(** Version 2.0.0 is picked on a machine without network. *)
Lemma download_failure_reported_witness :
  exists w' message,
    downloadPgltVersion "2.0.0" (host_of bare_env ∅) = (Ok tt, w')
    /\ files w' = ∅
    /\ writes w' = []
    /\ error_messages w' = [message]
    /\ occurs_in
         "https://github.com/supabase-community/postgres-language-server/releases/download/2.0.0/postgrestools_x86_64-unknown-linux-gnu"
         message
    /\ occurs_in "2.0.0" message.
Proof.
  apply (download_failure_reported "2.0.0" (host_of bare_env ∅) "TypeError: fetch failed").
  reflexivity.
Defined.

(** ** The temporary copy *)

(** The name of the copy, for a version without a slash: the version goes
    between the product name and the extension, and the whole is one plain
    segment. *)
Lemma temporary_name_plain (token : string) (e : Env) :
  has_char "/" token = false ->
  plain_segment ("postgres-language-server-" +:+ token +:+ executable_extension e) = true.
Proof.
  intros Hno. unfold plain_segment.
  change ("postgres-language-server-" +:+ token +:+ executable_extension e)
    with (String "p" ("ostgres-language-server-" +:+ token +:+ executable_extension e)).
  cbn [is_empty negb andb String.eqb Ascii.eqb Bool.eqb].
  rewrite !andb_true_r. apply negb_true_iff.
  change (String "p" ("ostgres-language-server-" +:+ token +:+ executable_extension e))
    with ("postgres-language-server-" +:+ token +:+ executable_extension e).
  rewrite !has_char_append, Hno.
  unfold executable_extension. destruct (CONSTANTS.is_win32 e); reflexivity.
Qed.

(** What [replace] makes of the binary name. *)
Lemma temporary_name (v : option string) (e : Env) :
  replace "postgres-language-server" ("postgres-language-server-" +:+ version_text v)
    (CONSTANTS.newPlatformSpecificBinaryName e)
  = "postgres-language-server-"
    +:+ expand_replacement "postgres-language-server" "" (executable_extension e)
          (version_text v)
    +:+ executable_extension e.
Proof.
  unfold CONSTANTS.newPlatformSpecificBinaryName, executable_extension.
  transitivity (("postgres-language-server-"
                 +:+ expand_replacement "postgres-language-server" ""
                       (if CONSTANTS.is_win32 e then ".exe" else "") (version_text v))
                +:+ (if CONSTANTS.is_win32 e then ".exe" else "")).
  - destruct (CONSTANTS.is_win32 e); reflexivity.
  - apply append_assoc.
Qed.

Lemma temporary_directory_form (w : World) :
  temporary_directory w = directory_prefix [globalStorageUri (env w)] +:+ "tmp-bin".
Proof.
  unfold temporary_directory, Uri_joinPath.
  apply (posix_join_plain [globalStorageUri (env w)] "tmp-bin"). reflexivity.
Qed.

Lemma temporary_directory_long (w : World) :
  (7 <= String.length (temporary_directory w))%nat.
Proof. rewrite temporary_directory_form, append_length. cbn. lia. Qed.

(** The location of the copy for a version without a dollar sign and
    without a slash: [{cache-dir}/{binary-name}-{version}]. *)
Lemma temporary_location_path (v : option string) (w : World) :
  has_char "$" (version_text v) = false ->
  has_char "/" (version_text v) = false ->
  temporary_location v w
  = temporary_directory w +:+ "/postgres-language-server-" +:+ version_text v
    +:+ executable_extension (env w).
Proof.
  intros Hdollar Hslash. unfold temporary_location, temporary_directory, Uri_joinPath.
  rewrite temporary_name, (expand_replacement_plain _ _ _ _ Hdollar).
  apply posix_join_two_plain; [reflexivity |].
  apply temporary_name_plain. exact Hslash.
Qed.

Lemma plain_version_spec (v : string) :
  plain_version v = true -> has_char "$" v = false /\ has_char "/" v = false.
Proof.
  unfold plain_version. intros H. apply andb_prop in H as [H1 H2].
  split; apply negb_true_iff; assumption.
Qed.

Lemma temporary_location_cache_path (v : string) (w : World) :
  plain_version v = true -> temporary_location (Some v) w = cache_path v w.
Proof.
  intros H. destruct (plain_version_spec _ H) as [H1 H2].
  apply (temporary_location_path (Some v) w H1 H2).
Qed.

Lemma cache_path_not_directory (v : string) (w : World) :
  cache_path v w <> temporary_directory w.
Proof.
  unfold cache_path. intros E. apply (f_equal String.length) in E.
  rewrite !append_length in E. cbn in E. lia.
Qed.

Lemma cache_path_dirname (v : string) (w : World) :
  has_char "/" v = false -> dirname (cache_path v w) = temporary_directory w.
Proof.
  intros H. unfold cache_path.
  change (temporary_directory w +:+ "/postgres-language-server-" +:+ v
          +:+ (if CONSTANTS.is_win32 (env w) then ".exe" else ""))
    with (temporary_directory w +:+ "/"
          +:+ ("postgres-language-server-" +:+ v +:+ executable_extension (env w))).
  pose proof (temporary_name_plain v (env w) H) as Hplain.
  destruct (plain_segment_spec _ Hplain) as (Hne & Hno & _ & _).
  pose proof (temporary_directory_long w) as Hlong.
  apply dirname_append; try assumption.
  - destruct (temporary_directory w); [cbn in Hlong; lia | reflexivity].
  - intros E. rewrite E in Hlong. cbn in Hlong. lia.
Qed.

Lemma cache_path_env (v : string) (w w' : World) :
  env w' = env w -> cache_path v w' = cache_path v w.
Proof. intros E. unfold cache_path, temporary_directory. rewrite E. reflexivity. Qed.

Lemma temporary_location_env (v : option string) (w w' : World) :
  env w' = env w -> temporary_location v w' = temporary_location v w.
Proof. intros E. unfold temporary_location. rewrite E. reflexivity. Qed.

(** Everything the provisioning can do. It never throws. It answers with
    the location of the copy unless the directory of the copies cannot be
    made or the copy cannot be made; then it answers empty and leaves the
    files alone. *)
Lemma copyBinaryToTemporaryLocation_cases (bin : Uri) (w : World) :
  let v := match files w !! bin with
           | Some f => version_of f
           | None => None
           end in
  let location := temporary_location v w in
  exists o w',
    copyBinaryToTemporaryLocation bin w = (Ok o, w')
    /\ env w' = env w /\ globalState w' = globalState w /\ clock w' = clock w
    /\ information_messages w' = information_messages w
    /\ error_messages w'
       = ((match v with None => [invalid_state_message] | Some _ => [] end)
          ++ error_messages w)%list
    /\ match o with
       | None =>
           files w' = files w
           /\ (is_Some (files w !! temporary_directory w)
               \/ (files w !! location = None
                   /\ copyable bin location (with_temporary_directory w) w = false))
       | Some answer =>
           answer = location
           /\ files w !! temporary_directory w = None
           /\ chmods w' = (location, 493%N) :: chmods w
           /\ copies w'
              = ((if file_exists location w then [] else [(bin, location)])
                 ++ copies w)%list
           /\ exists source,
               files w' = <[location := mkFile (content source) 493]> (files w)
               /\ (files w !! location = Some source
                   \/ (files w !! location = None /\ files w !! bin = Some source
                       /\ copyable bin location (with_temporary_directory w) w = true))
       end.
Proof.
  cbv zeta.
  unfold copyBinaryToTemporaryLocation, getVersion. gets_step.
  unfold with_temporary_directory, copyable, temporary_directory.
  unfold error_messages, information_messages, copies, chmods, file_exists.
  destruct (files w !! bin) as [f |] eqn:Hbin;
    [destruct (version_of f) as [ver |] |];
    repeat first [ret_step | log_step | gets_step];
    repeat match goal with
      | |- context [temporary_location ?v (record ?e ?w0)] =>
          change (temporary_location v (record e w0)) with (temporary_location v w0)
      end;
    match goal with
    | |- context [temporary_location ?v ?w0] =>
        remember (temporary_location v w0) as location eqn:Hdef
    end;
    unfold fs.createDirectory, fs.copyFileSync, fs.chmodSync, fileExists,
      window.showErrorMessage, logger.debug, logger.info, logger.warn, emit, modify,
      gets, throw, ret, try_catch, bind, fileIsExecutable;
    cbn [files dirs record set_files set_dirs env trace];
    destruct (files w !! Uri_joinPath (globalStorageUri (env w)) ["tmp-bin"])
      as [d |] eqn:Htmp;
    cbn [files dirs record set_files set_dirs env trace negb];
    destruct (files w !! location) as [g |] eqn:Hloc;
    cbn [files dirs record set_files set_dirs env trace negb];
    repeat (progress (rewrite ?Hbin, ?Hloc, ?lookup_insert_eq;
                      cbn [files dirs record set_files set_dirs env trace negb]));
    try (destruct (readable f) eqn:Hread; unfold readable in Hread; rewrite ?Hread;
         cbn [files dirs record set_files set_dirs env trace negb andb];
         try destruct (bool_decide (location ∈ _)) eqn:Hdir;
         cbn [files dirs record set_files set_dirs env trace negb andb];
         try destruct (bool_decide (dirname location ∈ _)) eqn:Hparent;
         cbn [files dirs record set_files set_dirs env trace negb andb];
         repeat (progress (rewrite ?Hbin, ?Hloc, ?lookup_insert_eq;
                           cbn [files dirs record set_files set_dirs env trace negb])));
    (eexists _, _; split; [reflexivity |]);
    cbn [files dirs record set_files set_dirs env trace negb globalState clock flat_map
           app default content from_option];
    rewrite ?insert_insert_eq;
    repeat split; eauto;
    (exists f; split; [reflexivity | right; repeat split]).
Qed.

(** The provisioning of a binary that reports the version [v], when the
    directory of the copies can be made and either a copy is cached or one
    can be made. *)
Lemma copyBinaryToTemporaryLocation_versioned (bin : Uri) (v : string) (w : World)
    (f : File) :
  files w !! bin = Some f ->
  version_of f = Some v ->
  plain_version v = true ->
  files w !! temporary_directory w = None ->
  is_Some (files w !! cache_path v w)
  \/ copyable bin (cache_path v w) (with_temporary_directory w) w = true ->
  exists w',
    copyBinaryToTemporaryLocation bin w = (Ok (Some (cache_path v w)), w')
    /\ env w' = env w
    /\ chmods w' = (cache_path v w, 493%N) :: chmods w
    /\ copies w'
       = ((if file_exists (cache_path v w) w then [] else [(bin, cache_path v w)])
          ++ copies w)%list
    /\ exists source,
        files w' = <[cache_path v w := mkFile (content source) 493]> (files w)
        /\ (files w !! cache_path v w = Some source
            \/ (files w !! cache_path v w = None /\ source = f)).
Proof.
  intros Hb Hr Hplain Ht Hcan.
  pose proof (copyBinaryToTemporaryLocation_cases bin w) as H. cbv zeta in H.
  rewrite Hb, Hr, (temporary_location_cache_path _ _ Hplain) in H.
  destruct H as (o & w' & E & He & _ & _ & _ & _ & Ho).
  destruct o as [answer |].
  - destruct Ho as (-> & _ & Hch & Hc & source & Hf & Hs).
    exists w'. repeat split; try assumption.
    exists source. split; [exact Hf |].
    destruct Hs as [Hs | (Hn & Hs & _)]; [left; exact Hs | right; split; congruence].
  - destruct Ho as (_ & [[d Hd] | [Hnone Hno]]); [congruence |].
    destruct Hcan as [[c Hc] | Hyes]; congruence.
Qed.

(** A copy of a readable binary can be made at a cache path that no
    directory occupies. *)
Lemma cache_path_copyable (bin : Uri) (v : string) (w : World) (f : File) :
  files w !! bin = Some f -> readable f = true ->
  has_char "/" v = false -> cache_path v w ∉ dirs w ->
  copyable bin (cache_path v w) (with_temporary_directory w) w = true.
Proof.
  intros Hb Hr Hno Hdir. unfold copyable, with_temporary_directory.
  rewrite Hb, Hr, (cache_path_dirname _ _ Hno). cbn [andb].
  rewrite bool_decide_eq_false_2, bool_decide_eq_true_2; [reflexivity | |].
  - apply elem_of_union_l, elem_of_singleton. reflexivity.
  - intros [Hin | Hin]%elem_of_union; [| contradiction].
    apply elem_of_singleton in Hin. exact (cache_path_not_directory _ _ Hin).
Qed.

(** C6. Provisioning is idempotent per version, for a binary that reports
    a version [v] without a dollar sign and without a slash, when the
    directory of the copies can be made. When a file is already at the
    version-keyed cache path [{cache-dir}/{binary-name}-{version}], the call
    returns that path and copies nothing, and the cached bytes stay. When
    none is there, the binary may be read and no directory has the name of
    the cache path, the first call copies the binary to the cache path and a
    second call for the same binary and version returns the same path without
    copying again: the two calls together perform exactly one copy. *)
Theorem provisioning_copies_once (bin : Uri) (w : World) (f : File) (v : string) :
  files w !! bin = Some f ->
  version_of f = Some v ->
  plain_version v = true ->
  files w !! temporary_directory w = None ->
  (forall cached,
      files w !! cache_path v w = Some cached ->
      exists w',
        copyBinaryToTemporaryLocation bin w = (Ok (Some (cache_path v w)), w')
        /\ copies w' = copies w
        /\ content <$> files w' !! cache_path v w = Some (content cached))
  /\ (files w !! cache_path v w = None ->
      readable f = true ->
      cache_path v w ∉ dirs w ->
      exists w1 w2,
        copyBinaryToTemporaryLocation bin w = (Ok (Some (cache_path v w)), w1)
        /\ copyBinaryToTemporaryLocation bin w1 = (Ok (Some (cache_path v w)), w2)
        /\ copies w1 = (bin, cache_path v w) :: copies w
        /\ copies w2 = copies w1
        /\ content <$> files w2 !! cache_path v w = Some (content f)).
Proof.
  intros Hbin Hv Hplain Htmp.
  destruct (plain_version_spec _ Hplain) as [_ Hslash].
  split.
  - intros cached Hc.
    destruct (copyBinaryToTemporaryLocation_versioned bin v w f Hbin Hv Hplain Htmp)
      as (w' & E & _ & _ & Hcopies & source & Hf & Hs); [left; eauto |].
    exists w'. split; [exact E |]. split.
    + rewrite Hcopies. unfold file_exists. rewrite Hc. reflexivity.
    + rewrite Hf, lookup_insert_eq. cbn.
      destruct Hs as [Hs | [Hs _]]; congruence.
  - intros Hnone Hread Hdir.
    destruct (copyBinaryToTemporaryLocation_versioned bin v w f Hbin Hv Hplain Htmp)
      as (w1 & E1 & He1 & _ & Hc1 & s1 & Hf1 & Hs1).
    { right. apply (cache_path_copyable bin v w f); assumption. }
    assert (s1 = f) as -> by (destruct Hs1 as [Hs | [_ Hs]]; congruence).
    pose proof (cache_path_env v w w1 He1) as Hpath.
    assert (Hne : bin <> cache_path v w) by congruence.
    assert (Hbin1 : files w1 !! bin = Some f)
      by (rewrite Hf1, lookup_insert_ne by congruence; exact Hbin).
    assert (Htmp1 : files w1 !! temporary_directory w1 = None).
    { unfold temporary_directory. rewrite He1. fold (temporary_directory w).
      rewrite Hf1, lookup_insert_ne; [exact Htmp |].
      apply cache_path_not_directory. }
    assert (Hthere : files w1 !! cache_path v w = Some (mkFile (content f) 493))
      by (rewrite Hf1; apply lookup_insert_eq).
    destruct (copyBinaryToTemporaryLocation_versioned bin v w1 f Hbin1 Hv Hplain Htmp1)
      as (w2 & E2 & _ & _ & Hc2 & s2 & Hf2 & Hs2).
    { left. rewrite Hpath, Hthere. eauto. }
    rewrite Hpath in *.
    exists w1, w2. split; [exact E1 |]. split; [exact E2 |]. split; [| split].
    + rewrite Hc1. unfold file_exists. rewrite Hnone. reflexivity.
    + rewrite Hc2. unfold file_exists. rewrite Hthere. reflexivity.
    + rewrite Hf2, lookup_insert_eq. cbn.
      destruct Hs2 as [Hs | [Hs _]];
        [rewrite Hthere in Hs; injection Hs as <-; reflexivity | congruence].
Qed.

(** A binary of version 1.9.0 found on [PATH] is provisioned twice into an
    empty cache. *)
Lemma provisioning_copies_once_witness :
  exists w1 w2,
    copyBinaryToTemporaryLocation "/usr/bin/postgres-language-server"
      (host_of bare_env {[ "/usr/bin/postgres-language-server" := a_binary "1.9.0" ]})
    = (Ok (Some "/storage/tmp-bin/postgres-language-server-1.9.0"), w1)
    /\ copyBinaryToTemporaryLocation "/usr/bin/postgres-language-server" w1
       = (Ok (Some "/storage/tmp-bin/postgres-language-server-1.9.0"), w2)
    /\ copies w1 = [("/usr/bin/postgres-language-server",
                     "/storage/tmp-bin/postgres-language-server-1.9.0")]
    /\ copies w2 = copies w1
    /\ content <$> files w2 !! "/storage/tmp-bin/postgres-language-server-1.9.0"
       = Some (mkContent (Some "1.9.0") "ELF").
Proof.
  refine (proj2 (provisioning_copies_once "/usr/bin/postgres-language-server"
                   (host_of bare_env
                      {[ "/usr/bin/postgres-language-server" := a_binary "1.9.0" ]})
                   (a_binary "1.9.0") "1.9.0" _ _ _ _) _ _ _);
    try (vm_compute; reflexivity).
  vm_compute. intros H. discriminate H.
Defined.

(** C7, as stated, fails: the permission is set on the copy. An original
    that only its owner may execute (mode 0o744) is provisioned; the only
    [chmodSync] goes to the cache path, which gets the mode 0o755, and the
    original keeps its mode. *)
Lemma provisioning_leaves_original_mode :
  exists w',
    copyBinaryToTemporaryLocation "/opt/pgls/postgres-language-server"
      (host_of bare_env
         {[ "/opt/pgls/postgres-language-server" := a_private_binary "1.9.0" ]})
    = (Ok (Some "/storage/tmp-bin/postgres-language-server-1.9.0"), w')
    /\ chmods w' = [("/storage/tmp-bin/postgres-language-server-1.9.0", 493%N)]
    /\ mode <$> files w' !! "/opt/pgls/postgres-language-server" = Some 484%N
    /\ mode <$> files w' !! "/storage/tmp-bin/postgres-language-server-1.9.0"
       = Some 493%N.
Proof.
  eexists. split; [vm_compute; reflexivity |].
  vm_compute. repeat split.
Qed.

(** C7, amended. Every successful provisioning call, after the copy step
    (a copy made, or an existing one reused), sets the permission bits 0o755
    on the cache path it returns; that is its only [chmodSync], and the
    original file, when it is not itself the cache path, is left as it was. *)
Theorem provisioning_makes_copy_executable (bin : Uri) (w w' : World) (location : Uri) :
  copyBinaryToTemporaryLocation bin w = (Ok (Some location), w') ->
  chmods w' = (location, 493%N) :: chmods w
  /\ mode <$> files w' !! location = Some 493%N
  /\ fileIsExecutable location w' = true
  /\ (bin <> location -> files w' !! bin = files w !! bin).
Proof.
  intros E.
  pose proof (copyBinaryToTemporaryLocation_cases bin w) as H. cbv zeta in H.
  destruct H as (o & w2 & E' & _ & _ & _ & _ & _ & Ho).
  rewrite E in E'. injection E' as <- <-.
  destruct Ho as (-> & _ & Hch & _ & source & Hf & _).
  split; [exact Hch |].
  unfold fileIsExecutable. rewrite Hf, lookup_insert_eq. cbn.
  repeat split. intros Hne. apply lookup_insert_ne. congruence.
Qed.

Lemma provisioning_makes_copy_executable_witness :
  fileIsExecutable "/storage/tmp-bin/postgres-language-server-1.9.0"
    (snd (copyBinaryToTemporaryLocation "/opt/pgls/postgres-language-server"
            (host_of bare_env
               {[ "/opt/pgls/postgres-language-server" := a_private_binary "1.9.0" ]})))
  = true.
Proof.
  refine (proj1 (proj2 (proj2
            (provisioning_makes_copy_executable "/opt/pgls/postgres-language-server"
               (host_of bare_env
                  {[ "/opt/pgls/postgres-language-server" := a_private_binary "1.9.0" ]})
               _ "/storage/tmp-bin/postgres-language-server-1.9.0" _)))).
  vm_compute. reflexivity.
Defined.

(** ** A file that is there and reports no version *)

Lemma getDownloadedBinary_run (w : World) :
  exists w',
    getDownloadedBinary w
    = (match files w !! new_installed_path w with
       | Some f => downloaded_at (new_installed_path w) f
       | None =>
           match files w !! old_installed_path w with
           | Some f => downloaded_at (old_installed_path w) f
           | None => Ok None
           end
       end, w')
    /\ quiet w w'.
Proof.
  unfold getDownloadedBinary. log_step.
  unfold getNewInstalledBinaryPath, getOldInstalledBinaryPath.
  repeat gets_step. cbn [env record].
  fold (new_installed_path w). fold (old_installed_path w).
  cbn [firstDownloaded]. unfold getVersion, downloaded_at, file_exists.
  destruct (files w !! new_installed_path w) as [f |] eqn:Hnew;
    [| destruct (files w !! old_installed_path w) as [f |] eqn:Hold];
    try destruct (version_of f) as [v |] eqn:Hv;
    repeat (first [gets_step | log_step]; unfold file_exists; cbn [files record];
            rewrite ?Hnew, ?Hold, ?Hv);
    (eexists; split; [reflexivity |]);
    repeat apply quiet_log_after; apply quiet_refl.
Qed.

(** C4, as stated, fails in two places. The provisioning step raises
    nothing for a file that is there and reports no version: it shows the
    user an error message and answers with a cache path. And the version
    prompt of the downloader swallows the error that the lookup of the
    downloaded binary raises for such a file: it goes on to the quick pick
    without a message to the user and without an entry in the log above the
    debug level. *)
Lemma missing_version_shown_or_swallowed :
  (exists w',
      copyBinaryToTemporaryLocation "/opt/pgls/postgres-language-server"
        (host_of bare_env {[ "/opt/pgls/postgres-language-server" := a_mute_binary ]})
      = (Ok (Some "/storage/tmp-bin/postgres-language-server-undefined"), w')
      /\ error_messages w' = [invalid_state_message])
  /\ (exists w',
         fst (getDownloadedBinary
                (host_of bare_env
                   {[ "/storage/global-bin/postgres-language-server" := a_mute_binary ]}))
         = Throw vanished_error
         /\ promptVersionToDownload
              (host_of bare_env
                 {[ "/storage/global-bin/postgres-language-server" := a_mute_binary ]})
            = (Ok None, w')
         /\ error_messages w' = []
         /\ Forall (fun e => match e with Log LDebug _ _ => True | _ => False end)
              (trace w')).
Proof.
  split.
  - eexists. split; [vm_compute; reflexivity |]. vm_compute. reflexivity.
  - eexists. split; [vm_compute; reflexivity |].
    split; [vm_compute; reflexivity |].
    split; [vm_compute; reflexivity |].
    vm_compute. repeat constructor.
Qed.

Section SessionFacts.

Variable semver_gte : string -> string -> outcome bool.

(** C4, amended. When a file that has just been confirmed to exist yields
    no version, session creation (after its executable check) and the lookup
    of the downloaded binary (at the current and at the legacy install path)
    raise an internal error without showing a message to the user; the
    provisioning step raises nothing and shows the user an error message. *)
Theorem missing_version_surfaces :
  (forall projects w w1 found f,
      findBinary projects w = (Ok (Some found), w1) ->
      files w1 !! bin found = Some f ->
      N.testbit (mode f) 6 = true ->
      reports (content f) = None ->
      createSession semver_gte projects w = (Throw no_version_error, w1))
  /\ (forall w f,
         files w !! new_installed_path w = Some f ->
         version_of f = None ->
         exists w', getDownloadedBinary w = (Throw vanished_error, w')
                    /\ error_messages w' = error_messages w)
  /\ (forall w f,
         files w !! new_installed_path w = None ->
         files w !! old_installed_path w = Some f ->
         version_of f = None ->
         exists w', getDownloadedBinary w = (Throw vanished_error, w')
                    /\ error_messages w' = error_messages w)
  /\ (forall original w f,
         files w !! original = Some f ->
         version_of f = None ->
         exists o w',
           copyBinaryToTemporaryLocation original w = (Ok o, w')
           /\ error_messages w' = invalid_state_message :: error_messages w).
Proof.
  split; [| split; [| split]].
  - intros projects w w1 found f Hfind Hf Hx Hv.
    unfold createSession. rewrite (bind_run _ _ _ _ _ Hfind).
    gets_step. unfold fileIsExecutable at 1. rewrite Hf, Hx. cbn [negb].
    unfold getVersion. gets_step. rewrite Hf. unfold version_of. rewrite Hx, Hv.
    reflexivity.
  - intros w f Hf Hv.
    destruct (getDownloadedBinary_run w) as (w' & E & Q).
    rewrite Hf in E. unfold downloaded_at in E. rewrite Hv in E.
    exists w'. split; [exact E |]. apply (quiet_observations _ _ Q).
  - intros w f Hn Hf Hv.
    destruct (getDownloadedBinary_run w) as (w' & E & Q).
    rewrite Hn, Hf in E. unfold downloaded_at in E. rewrite Hv in E.
    exists w'. split; [exact E |]. apply (quiet_observations _ _ Q).
  - intros original w f Hf Hv.
    pose proof (copyBinaryToTemporaryLocation_cases original w) as H. cbv zeta in H.
    rewrite Hf, Hv in H.
    destruct H as (o & w' & E & _ & _ & _ & _ & He & _).
    exists o, w'. split; [exact E | exact He].
Qed.

End SessionFacts.

(** The downloaded binary with the legacy name is there and prints no
    version. *)
Lemma missing_version_surfaces_witness :
  exists w',
    getDownloadedBinary
      (host_of bare_env {[ "/storage/global-bin/postgrestools" := a_mute_binary ]})
    = (Throw vanished_error, w')
    /\ error_messages w' = [].
Proof.
  refine (proj1 (proj2 (proj2 (missing_version_surfaces (fun _ _ => Ok true))))
            _ a_mute_binary _ _ _);
    vm_compute; reflexivity.
Defined.

(** ** The update notice *)

Lemma update_message_is_notice (renamed : bool) (kind : StrategyKind) (v latest : string) :
  is_update_notice
    (if renamed then updateAndRenamingMessageForKind kind
     else "A new version of Postgres Language Server is available! Your version "
          +:+ v +:+ " is outdated, consider updating to latest version "
          +:+ latest +:+ ".") = true.
Proof. destruct renamed; [destruct kind |]; reflexivity. Qed.

(** What the notice block does, by cases. *)
Lemma notifyOfUpdate_run (v : string) (kind : StrategyKind) (w : World) :
  exists w',
    notifyOfUpdate v kind w = (Ok tt, w')
    /\ env w' = env w /\ files w' = files w
    /\ error_messages w' = error_messages w
    /\ if notification_due (clock w) (last_notified w) then
         globalState w' = <["lastNotifiedOfUpdate" := clock w']> (globalState w)
         /\ (if releases_versionOutdated (env w) v
             then exists notice, update_notices w' = notice :: update_notices w
             else update_notices w' = update_notices w /\ clock w' = clock w)
       else w' = w.
Proof.
  unfold notifyOfUpdate, Date_now, last_notified. repeat gets_step.
  destruct (notification_due _ _); [| exists w; repeat split].
  rewrite bind_assoc. gets_step.
  destruct (releases_versionOutdated (env w) v).
  - rewrite bind_assoc. rewrite (bind_run _ _ _ _ _ (hasNewName_run w)).
    rewrite bind_assoc. gets_step. log_step. gets_step.
    unfold modify. eexists. split; [reflexivity |].
    unfold update_notices, information_messages, error_messages.
    cbn [env files trace globalState clock set_globalState set_clock record requested
           flat_map app List.filter].
    rewrite update_message_is_notice.
    repeat split. eexists. reflexivity.
  - ret_step. gets_step. unfold modify. eexists. split; [reflexivity |].
    repeat split.
Qed.

Lemma createLanguageClient_run (bin : Uri) (projects : list Project) (w : World) :
  createLanguageClient bin projects w
  = (Ok (client_for bin projects), client_made bin projects w).
Proof. reflexivity. Qed.

Section SessionNotice.

Variable semver_gte : string -> string -> outcome bool.





End SessionNotice.


(** ** Who checks that the binary exists *)

(** C3, as stated, fails: the chain does not check the location again, and
    the Plug'n'Play lookup does not check it at all. In a project with a
    manifest the location the resolution API names is accepted and the hook
    of the strategy fires, although no file is there. *)
Lemma yarn_location_accepted_unchecked :
  exists w',
    attemptFind LOCAL_STRATEGIES (Some "/proj")
      (host_of pnp_env {[ "/proj/.pnp.cjs" := a_manifest ]})
    = (Ok (Some (mkFindResult
                   "/proj/.yarn/unplugged/@postgres-language-server/cli-x86_64-linux-gnu/postgres-language-server"
                   "Yarn Plug'n'Play node_modules" Yarn)), w')
    /\ head (trace w')
       = Some (Log LDebug "Found Binary in Yarn PnP"
                 ["/proj/.yarn/unplugged/@postgres-language-server/cli-x86_64-linux-gnu/postgres-language-server"])
    /\ files w' = {[ "/proj/.pnp.cjs" := a_manifest ]}
    /\ files w'
       !! "/proj/.yarn/unplugged/@postgres-language-server/cli-x86_64-linux-gnu/postgres-language-server"
       = None.
Proof.
  eexists. split; [vm_compute; reflexivity |].
  vm_compute. repeat split.
Qed.

Section YieldsExisting.

Context {A : Type} (location : A -> Uri).

Lemma yields_existing_none : yields_existing location (ret None).
Proof. intros w. exact I. Qed.

Lemma yields_existing_throw (err : string) : yields_existing location (throw err).
Proof. intros w. exact I. Qed.

(** Only the last statement matters. *)
Lemma yields_existing_bind {B} (m : M B) (k : B -> M (option A)) :
  (forall x, yields_existing location (k x)) -> yields_existing location (bind m k).
Proof.
  intros Hk w. unfold bind. destruct (m w) as [[x | err] w1]; [apply Hk | exact I].
Qed.

Lemma yields_existing_try_catch (m : M (option A)) (h : string -> M (option A)) :
  yields_existing location m ->
  (forall err, yields_existing location (h err)) ->
  yields_existing location (try_catch m h).
Proof.
  intros Hm Hh w. unfold try_catch. specialize (Hm w).
  destruct (m w) as [[o | err] w1]; [exact Hm | apply Hh].
Qed.

(** The answer is given right after the file was seen. *)
Lemma yields_existing_checked (a : A) (otherwise : M (option A)) :
  yields_existing location otherwise ->
  yields_existing location
    (let* there := fileExists (location a) in
     if there then ret (Some a) else otherwise).
Proof.
  intros Ho w. gets_step. unfold file_exists.
  destruct (files w !! location a) as [f |] eqn:Hf; [| apply Ho].
  cbn. rewrite Hf. eauto.
Qed.

End YieldsExisting.

Lemma yields_existing_found (m : M (option Uri)) (otherwise : M (option Uri)) :
  yields_existing (fun b => b) m ->
  yields_existing (fun b => b) otherwise ->
  yields_existing (fun b => b)
    (let* found := m in
     match found with
     | Some b => ret (Some b)
     | None => otherwise
     end).
Proof.
  intros Hm Ho w. unfold bind. specialize (Hm w).
  destruct (m w) as [[[b |] | err] w1]; [exact Hm | apply Ho | exact I].
Qed.

Lemma vsCodeSettings_checks : checks_existence vsCodeSettingsStrategy.
Proof.
  intros path. cbn [find vsCodeSettingsStrategy]. unfold vsCodeSettings_find.
  apply yields_existing_bind; intros _.
  apply yields_existing_bind; intros binSetting.
  destruct (negb (truthy binSetting)).
  { apply yields_existing_bind; intros _. apply yields_existing_none. }
  apply yields_existing_bind; intros chosen.
  assert (Hnot : yields_existing (fun b : Uri => b) vsCodeSettings_not_found).
  { apply yields_existing_bind; intros _. apply yields_existing_none. }
  destruct chosen; try exact Hnot.
  apply yields_existing_bind; intros _.
  apply yields_existing_bind; intros operatingMode.
  apply yields_existing_bind; intros [resolvedPath |]; [| apply yields_existing_none].
  destruct (String.eqb resolvedPath ""); [apply yields_existing_none |].
  apply yields_existing_bind; intros _.
  apply (yields_existing_checked (fun b : Uri => b) (Uri_file resolvedPath)).
  exact Hnot.
Qed.

Lemma pathEnvironmentVariable_checks : checks_existence pathEnvironmentVariableStrategy.
Proof.
  assert (Hnames : forall dir names,
             yields_existing (fun b : Uri => b) (pathEnv_names dir names)).
  { intros dir names. induction names as [| bname rest IH]; cbn [pathEnv_names].
    - apply yields_existing_none.
    - apply (yields_existing_checked (fun b : Uri => b)
               (Uri_joinPath (Uri_file dir) [bname])). exact IH. }
  assert (Hdirs : forall directories,
             yields_existing (fun b : Uri => b) (pathEnv_dirs directories)).
  { intros directories. induction directories as [| dir rest IH]; cbn [pathEnv_dirs].
    - apply yields_existing_none.
    - apply yields_existing_bind; intros _.
      apply yields_existing_bind; intros e.
      apply yields_existing_found; [apply Hnames | exact IH]. }
  intros path. cbn [find pathEnvironmentVariableStrategy].
  unfold pathEnvironmentVariable_find.
  apply yields_existing_bind; intros pathEnv.
  apply yields_existing_bind; intros _.
  assert (Hnone : yields_existing (fun b : Uri => b)
                    (logger.debug "Path env var not found" [] ;;; ret None)).
  { apply yields_existing_bind; intros _. apply yields_existing_none. }
  destruct pathEnv as [[| c rest] |]; try exact Hnone.
  apply yields_existing_bind; intros e.
  apply yields_existing_found; [apply Hdirs |].
  apply yields_existing_bind; intros _. apply yields_existing_none.
Qed.

Lemma nodeModules_checks : checks_existence nodeModulesStrategy.
Proof.
  assert (Hloop : forall root candidates,
             yields_existing (fun b : Uri => b) (nodeModules_loop root candidates)).
  { intros root candidates.
    induction candidates as [| [[pkgname nodePkgName] binaryName] rest IH];
      cbn [nodeModules_loop].
    - apply yields_existing_none.
    - apply yields_existing_bind; intros _.
      apply yields_existing_bind; intros [main |]; [| exact IH].
      apply yields_existing_bind; intros _.
      destruct nodePkgName as [nodePkg |].
      + apply yields_existing_bind; intros _.
        apply yields_existing_bind; intros nested.
        apply yields_existing_bind; intros _.
        apply (yields_existing_checked (fun b : Uri => b)
                 (Uri_file (path_join (dirname nested) binaryName))).
        apply yields_existing_bind; intros _. exact IH.
      + apply yields_existing_bind; intros _. apply yields_existing_none. }
  intros path. cbn [find nodeModulesStrategy]. unfold nodeModules_find.
  apply yields_existing_bind; intros _.
  destruct path as [root |].
  - apply yields_existing_bind; intros e. apply Hloop.
  - apply yields_existing_bind; intros _. apply yields_existing_none.
Qed.

Lemma getDownloadedBinary_checks : yields_existing binPath getDownloadedBinary.
Proof.
  assert (Hloop : forall candidates, yields_existing binPath (firstDownloaded candidates)).
  { intros candidates. induction candidates as [| b rest IH]; cbn [firstDownloaded].
    - apply yields_existing_none.
    - intros w. gets_step. unfold file_exists.
      destruct (files w !! b) as [f |] eqn:Hf.
      + unfold getVersion. gets_step. rewrite Hf.
        destruct (version_of f) as [v |]; [| exact I].
        log_step. cbn. rewrite Hf. eauto.
      + log_step. apply IH. }
  unfold getDownloadedBinary.
  apply yields_existing_bind; intros _.
  apply yields_existing_bind; intros newPath.
  apply yields_existing_bind; intros oldPath.
  apply Hloop.
Qed.

Lemma downloadPglt_checks : checks_existence downloadPgltStrategy.
Proof.
  assert (Hmap : yields_existing (fun b : Uri => b)
                   (let* downloaded := getDownloadedBinary in
                    ret (option_map binPath downloaded))).
  { intros w. unfold bind. pose proof (getDownloadedBinary_checks w) as H.
    destruct (getDownloadedBinary w) as [[[d |] | err] w1]; [exact H | exact I | exact I]. }
  intros path. cbn [find downloadPgltStrategy]. unfold downloadPglt_find.
  apply yields_existing_bind; intros _.
  intros w. unfold bind at 1. pose proof (getDownloadedBinary_checks w) as H.
  destruct (getDownloadedBinary w) as [[[d |] | err] w1]; [| | exact I].
  - log_step. exact H.
  - revert w1. clear H.
    change (yields_existing (fun b : Uri => b)
              (let* answer := window.askInformationMessage download_prompt in
               let proceed := match answer with
                              | Some button => String.eqb button "Download and install"
                              | None => false
                              end in
               if negb proceed then
                 logger.debug "Decided not to download binary, aborting" [] ;;;
                 ret None
               else downloadPglt)).
    apply yields_existing_bind; intros answer. cbv zeta.
    destruct (negb _).
    + apply yields_existing_bind; intros _. apply yields_existing_none.
    + unfold downloadPglt.
      apply yields_existing_bind; intros _.
      apply yields_existing_bind; intros [picked |].
      * apply yields_existing_bind; intros _. exact Hmap.
      * apply yields_existing_bind; intros _. apply yields_existing_none.
Qed.

(** C3, amended. The chain performs no existence check of its own: the
    location it accepts is the one the lookup of the strategy returned, and
    the [onSuccess] hook of that strategy fires on it as it is. The lookups
    of the VSCode settings, node_modules, PATH and download strategies return
    a location only after their own check that a file is there, so for these
    strategies the file exists when the hook fires. *)
Theorem accepted_location_checked_by_lookup :
  checks_existence vsCodeSettingsStrategy
  /\ checks_existence nodeModulesStrategy
  /\ checks_existence pathEnvironmentVariableStrategy
  /\ checks_existence downloadPgltStrategy
  /\ (forall path l w r w',
         attemptFind l path w = (Ok (Some r), w') ->
         exists s w1 w2,
           In s l
           /\ found_label r = label s /\ found_kind r = kind s
           /\ locate s path w1 = (Ok (Some (bin r)), w2)
           /\ onSuccess s (bin r) w2 = (Ok tt, w')
           /\ (checks_existence (strategy s) -> is_Some (files w2 !! bin r))).
Proof.
  split; [apply vsCodeSettings_checks |].
  split; [apply nodeModules_checks |].
  split; [apply pathEnvironmentVariable_checks |].
  split; [apply downloadPglt_checks |].
  intros path l w r w' E.
  destruct (attemptFind_sound path l w)
    as [(w2 & E' & _) | [(r' & w2 & E' & Hs) | (err & w2 & E' & _)]]; try congruence.
  rewrite E in E'. injection E' as <- <-.
  destruct Hs as (pre & s & post & b & w1 & w2 & -> & _ & _ & Hl & -> & Hh).
  exists s, w1, w2. cbn [bin found_label found_kind].
  split; [apply in_or_app; right; left; reflexivity |].
  repeat split; try assumption.
  intros Hc. specialize (Hc path (after_precondition s path w1)).
  unfold locate in Hl. rewrite Hl in Hc. exact Hc.
Qed.

(** With the global ordering and the binary on [PATH], the accepted location
    exists when the hook fires. *)
Lemma accepted_location_checked_by_lookup_witness :
  exists s w1 w2,
    In s GLOBAL_STRATEGIES
    /\ label s = "PATH Environment Variable" /\ kind s = Path
    /\ locate s None w1 = (Ok (Some "/usr/bin/postgres-language-server"), w2)
    /\ is_Some (files w2 !! "/usr/bin/postgres-language-server").
Proof.
  eassert (Hfind : attemptFind GLOBAL_STRATEGIES None
                     (host_of online_env
                        {[ "/usr/bin/postgres-language-server" := a_binary "2.0.0" ]})
                   = (Ok (Some (mkFindResult "/usr/bin/postgres-language-server"
                                  "PATH Environment Variable" Path)), _))
    by (vm_compute; reflexivity).
  destruct accepted_location_checked_by_lookup as (_ & _ & Hpath & _ & Hchain).
  destruct (Hchain _ _ _ _ _ Hfind) as (s & w1 & w2 & Hin & Hl & Hk & Hloc & _ & Hex).
  cbn [bin found_label found_kind] in *.
  exists s, w1, w2. repeat split; try assumption; try congruence.
  apply Hex.
  destruct Hin as [<- | [<- | [<- | []]]]; try discriminate. exact Hpath.
Defined.

(** * Further properties of the code *)

(** ** The PATH lookup *)

Lemma file_exists_quiet (w w' : World) (uri : Uri) :
  quiet w w' -> file_exists uri w' = file_exists uri w.
Proof. intros (_ & Hf & _). unfold file_exists. rewrite Hf. reflexivity. Qed.

Lemma pathEnv_names_run (dir : string) (names : list string) (w : World) :
  pathEnv_names dir names w
  = (Ok (List.find (fun c => file_exists c w)
           (List.map (fun bname => Uri_joinPath (Uri_file dir) [bname]) names)), w).
Proof.
  induction names as [| bname rest IH]; [reflexivity |].
  cbn [pathEnv_names List.map List.find]. gets_step.
  destruct (file_exists _ w); [reflexivity | exact IH].
Qed.

Lemma pathEnv_dirs_run (directories : list string) (w0 w : World) :
  quiet w0 w ->
  exists w',
    pathEnv_dirs directories w
    = (Ok (List.find (fun c => file_exists c w0)
             (flat_map (fun dir =>
                          [Uri_joinPath (Uri_file dir)
                             [CONSTANTS.newPlatformSpecificBinaryName (env w0)];
                           Uri_joinPath (Uri_file dir)
                             [CONSTANTS.oldPlatformSpecificBinaryName (env w0)]])
                directories)), w')
    /\ quiet w0 w'.
Proof.
  revert w. induction directories as [| dir rest IH]; intros w Q.
  - exists w. split; [reflexivity | exact Q].
  - cbn [pathEnv_dirs flat_map]. log_step. gets_step.
    rewrite (bind_run _ _ _ _ _ (pathEnv_names_run _ _ _)).
    assert (Q1 : quiet w0 (record (Log LDebug "Checking" [dir]) w))
      by (apply quiet_log_after; exact Q).
    assert (He : env w = env w0) by (destruct Q as (E & _); exact E).
    cbn [env record List.map]. rewrite He.
    cbn [List.find app]. rewrite !(file_exists_quiet _ _ _ Q1).
    destruct (file_exists _ w0); [eexists; split; [reflexivity | exact Q1] |].
    destruct (file_exists _ w0); [eexists; split; [reflexivity | exact Q1] |].
    apply IH. exact Q1.
Qed.

(** X1. The PATH lookup answers with the first place, in the order of the
    directories of [PATH] and with the current binary name before the legacy
    one inside each directory, at which a file exists; with [PATH] unset or
    empty it answers "not found". It never throws, ignores the project root,
    and only writes to the log. *)
Theorem pathEnvironmentVariable_first_match (root : option Uri) (w : World) :
  exists w',
    find pathEnvironmentVariableStrategy root w
    = (Ok (match env_PATH (env w) with
           | None | Some EmptyString => None
           | Some pathEnv =>
               List.find (fun c => file_exists c w) (path_candidates (env w) pathEnv)
           end), w')
    /\ quiet w w'.
Proof.
  cbn [find pathEnvironmentVariableStrategy]. unfold pathEnvironmentVariable_find.
  gets_step. log_step.
  destruct (env_PATH (env w)) as [[| c rest] |].
  - log_step. eexists. split; [reflexivity |]. repeat apply quiet_log_after. apply quiet_refl.
  - gets_step. cbn [env record].
    match goal with
    | |- context [bind (pathEnv_dirs ?ds) _ ?w0] =>
        destruct (pathEnv_dirs_run ds w w0) as (w1 & E & Q);
        [apply quiet_log | rewrite (bind_run _ _ _ _ _ E)]
    end.
    unfold path_candidates.
    destruct (List.find _ _) as [b |].
    + eexists. split; [reflexivity | exact Q].
    + log_step. eexists. split; [reflexivity |]. apply quiet_log_after. exact Q.
  - log_step. eexists. split; [reflexivity |]. repeat apply quiet_log_after. apply quiet_refl.
Qed.

(** ** The constants *)

(** X2. The tables of the constants agree: the machine counts as supported
    exactly when a platform-specific npm package exists for it under the
    current name, and exactly when one exists under the legacy name. *)
Theorem supported_machines_have_packages (e : Env) :
  (CONSTANTS.currentMachineSupported e = true
   <-> is_Some (CONSTANTS.newPlatformSpecificNodePackageName e))
  /\ (CONSTANTS.currentMachineSupported e = true
      <-> is_Some (CONSTANTS.oldPlatformSpecificNodePackageName e)).
Proof.
  unfold CONSTANTS.currentMachineSupported, CONSTANTS.newPlatformSpecificNodePackageName,
    CONSTANTS.oldPlatformSpecificNodePackageName, CONSTANTS.platform_package.
  rewrite !is_Some_alt.
  by_table_keys; repeat split; intros H; try exact I; try reflexivity; try discriminate;
    try contradiction.
Qed.

(** X3. The name of the release asset, which the code builds by looping over
    the two mapping tables, is the base name followed by an underscore and
    the Rust name of the architecture when the architecture is known, and by
    a dash and the Rust name of the platform when the platform is known; an
    unknown architecture or platform leaves its part out. *)
Theorem released_asset_name_shape (e : Env) :
  let arch_part := match CONSTANTS.assoc CONSTANTS.archMappings (process_arch e) with
                   | Some rustArch => "_" +:+ rustArch
                   | None => ""
                   end in
  let platform_part :=
    match CONSTANTS.assoc CONSTANTS.platformMappings (process_platform e) with
    | Some rustPlatform => "-" +:+ rustPlatform
    | None => ""
    end in
  CONSTANTS.newPlatformSpecificReleasedAssetName e
  = "postgres-language-server" +:+ arch_part +:+ platform_part
  /\ CONSTANTS.oldPlatformSpecificReleasedAssetName e
     = "postgrestools" +:+ arch_part +:+ platform_part.
Proof.
  cbv zeta.
  unfold CONSTANTS.newPlatformSpecificReleasedAssetName,
    CONSTANTS.oldPlatformSpecificReleasedAssetName, CONSTANTS.releasedAssetName.
  by_table_keys; split; reflexivity.
Qed.

(** ** The downloaded binary *)

Lemma quiet_requests (w w' : World) : quiet w w' -> requests w' = requests w.
Proof.
  intros (_ & _ & _ & _ & _ & added & T & L). unfold requests.
  rewrite T, flat_map_app, (flat_map_logs _ added) by (assumption || reflexivity).
  reflexivity.
Qed.

(** The answer depends on the files and the constants only. *)
Lemma getDownloadedBinary_after (w w1 : World) :
  quiet w w1 ->
  exists w2, getDownloadedBinary w1 = (fst (getDownloadedBinary w), w2) /\ quiet w w2.
Proof.
  intros Q.
  destruct (getDownloadedBinary_run w) as (w0 & E0 & _).
  destruct (getDownloadedBinary_run w1) as (w2 & E & Q2).
  exists w2. split; [| eapply quiet_trans; eassumption].
  rewrite E, E0. cbn [fst]. unfold new_installed_path, old_installed_path.
  destruct Q as (He & Hf & _). rewrite He, Hf. reflexivity.
Qed.



(** X5. The download strategy stays offline and silent when a downloaded
    binary is already installed: it answers with that binary without asking
    the user and without any request. When none is installed and the user
    does not press "Download and install", it answers "not found" after the
    one question, again without any request, and leaves the files alone. *)
Theorem download_strategy_asks_before_network (root : option Uri) (w : World) :
  (forall d,
      fst (getDownloadedBinary w) = Ok (Some d) ->
      exists w',
        find downloadPgltStrategy root w = (Ok (Some (binPath d)), w')
        /\ information_messages w' = information_messages w
        /\ requests w' = requests w
        /\ files w' = files w)
  /\ (fst (getDownloadedBinary w) = Ok None ->
      user_choice (env w) download_prompt <> Some "Download and install" ->
      exists w',
        find downloadPgltStrategy root w = (Ok None, w')
        /\ information_messages w' = download_prompt :: information_messages w
        /\ requests w' = requests w
        /\ files w' = files w).
Proof.
  cbn [find downloadPgltStrategy]. unfold downloadPglt_find.
  split; [intros d Hd | intros Hnone Hchoice];
    log_step;
    match goal with
    | |- context [bind getDownloadedBinary _ ?w1] =>
        destruct (getDownloadedBinary_after w w1) as (w2 & E & Q');
        [apply quiet_log | unfold bind at 1; rewrite E; clear E]
    end;
    pose proof (quiet_observations _ _ Q') as (_ & Hinfo & _);
    pose proof (quiet_requests _ _ Q') as Hreq;
    destruct Q' as (Henv & Hfiles & _).
  - rewrite Hd. log_step. eexists. split; [reflexivity |].
    unfold information_messages, requests in *. cbn [trace record files flat_map app].
    repeat split; assumption.
  - rewrite Hnone.
    unfold window.askInformationMessage. unfold bind at 1. cbn [env record]. rewrite Henv.
    destruct (user_choice (env w) download_prompt) as [button |].
    + destruct (String.eqb_spec button "Download and install"); [congruence |].
      cbn [negb]. log_step. eexists. split; [reflexivity |].
      unfold information_messages, requests in *. cbn [trace record files flat_map app].
      rewrite Hinfo. repeat split; assumption.
    + cbn [negb]. log_step. eexists. split; [reflexivity |].
      unfold information_messages, requests in *. cbn [trace record files flat_map app].
      rewrite Hinfo. repeat split; assumption.
Qed.

(** A binary was downloaded before and the machine has no network. *)
Lemma download_strategy_asks_before_network_witness :
  exists w',
    find downloadPgltStrategy None
      (host_of bare_env {[ "/storage/global-bin/postgrestools" := a_binary "1.9.0" ]})
    = (Ok (Some "/storage/global-bin/postgrestools"), w')
    /\ information_messages w' = []
    /\ requests w' = []
    /\ files w' = {[ "/storage/global-bin/postgrestools" := a_binary "1.9.0" ]}.
Proof.
  refine (proj1 (download_strategy_asks_before_network None _)
            (mkDownloadedBinary "1.9.0" "/storage/global-bin/postgrestools") _).
  vm_compute. reflexivity.
Defined.

(** ** The download *)

(** Everything a download can do. *)
Lemma downloadPgltVersion_cases (version : string) (w : World) :
  exists w',
    downloadPgltVersion version w = (Ok tt, w')
    /\ env w' = env w /\ dirs w' = dirs w
    /\ match net_get (env w) (asset_url version (env w)) with
       | Throw _ => files w' = files w /\ writes w' = writes w
       | Ok bytes =>
           writes w' = install_path w :: writes w
           /\ if bool_decide (install_path w ∈ dirs w)
              then files w' = files w
                   /\ information_messages w' = information_messages w
                   /\ exists failure,
                       error_messages w'
                       = ("Failed to save binary." +:+ nl +:+ nl +:+ failure)
                           :: error_messages w
              else files w' = <[install_path w := mkFile bytes 493]> (files w)
                   /\ information_messages w'
                      = ("Downloaded Postgres Language Server " +:+ version +:+ " to "
                         +:+ install_path w) :: information_messages w
                   /\ error_messages w' = error_messages w
       end.
Proof.
  unfold downloadPgltVersion.
  rewrite (bind_run _ _ _ _ _ (hasNewName_run w)).
  gets_step. cbn [env requested set_clock record].
  fold (asset_url version (env w)). log_step.
  unfold install_path, new_installed_path, old_installed_path.
  unfold getNewInstalledBinaryPath, getOldInstalledBinaryPath.
  unfold fetch_bytes, round_trip, fs.writeFile, fs.chmodSync, try_catch, logger.error,
    logger.info, window.showErrorMessage, window.showInformationMessage,
    emit, modify, gets, throw, ret, bind.
  unfold writes, information_messages, error_messages.
  cbn [env files dirs trace record set_clock set_files requested].
  destruct (net_get (env w) (asset_url version (env w))) as [bytes | failure];
    [| eexists; split; [reflexivity |]; repeat split].
  destruct (new_name_available (env w));
    cbn [env files dirs trace record set_clock set_files requested];
    destruct (bool_decide _);
    cbn [env files dirs trace record set_clock set_files requested];
    rewrite ?lookup_insert_eq;
    cbn [env files dirs trace record set_clock set_files requested];
    (eexists; split; [reflexivity |]);
    cbn [env files dirs trace record set_clock set_files requested flat_map app content];
    rewrite ?insert_insert_eq;
    repeat split; eauto.
Qed.





(** X7. A download never throws. When the bytes were fetched but cannot be
    saved, the failure is shown to the user in an error message, no success
    is announced and the files are as before. *)
Theorem download_save_failure_reported (version : string) (w : World) :
  exists w',
    downloadPgltVersion version w = (Ok tt, w')
    /\ (forall bytes,
           net_get (env w) (asset_url version (env w)) = Ok bytes ->
           install_path w ∈ dirs w ->
           files w' = files w
           /\ information_messages w' = information_messages w
           /\ exists failure,
               error_messages w'
               = ("Failed to save binary." +:+ nl +:+ nl +:+ failure) :: error_messages w).
Proof.
  destruct (downloadPgltVersion_cases version w) as (w' & E & _ & _ & Hcase).
  exists w'. split; [exact E |].
  intros bytes Hnet Hdir. rewrite Hnet in Hcase. destruct Hcase as (_ & Hcase).
  rewrite bool_decide_eq_true_2 in Hcase by exact Hdir. exact Hcase.
Qed.

(** A directory sits where the binary is to be installed. *)
Lemma download_save_failure_reported_witness :
  exists w',
    downloadPgltVersion "2.0.0"
      (set_dirs {[ "/storage/global-bin/postgres-language-server" ]} (host_of online_env ∅))
    = (Ok tt, w')
    /\ files w' = ∅
    /\ information_messages w' = [].
Proof.
  destruct (download_save_failure_reported "2.0.0"
              (set_dirs {[ "/storage/global-bin/postgres-language-server" ]}
                 (host_of online_env ∅)))
    as (w' & E & H).
  destruct (H (mkContent (Some "2.0.0") "ELF")) as (Hf & Hi & _).
  - vm_compute. reflexivity.
  - vm_compute. reflexivity.
  - exists w'. split; [exact E |]. split; assumption.
Defined.

(** The version the quick pick marks as installed: the errors of the lookup
    are swallowed. *)
Lemma promptVersionToDownload_run (w : World) :
  exists installed w',
    promptVersionToDownload w
    = (Ok (user_pick (env w) (release_items installed 0 (releases (env w)))), w')
    /\ quiet w w'.
Proof.
  unfold promptVersionToDownload. log_step.
  match goal with
  | |- context [bind (try_catch _ _) _ ?w1] =>
      destruct (getDownloadedBinary_after w w1) as (w2 & E & Q); [apply quiet_log |]
  end.
  unfold bind at 1. unfold try_catch. unfold bind at 1. rewrite E. clear E.
  assert (He : env w2 = env w) by (destruct Q as (He & _); exact He).
  destruct (fst (getDownloadedBinary w)) as [[d |] | err];
    unfold ret; cbv beta iota;
    repeat first [log_step | gets_step];
    unfold gets; cbn [env record]; rewrite He;
    (eexists _, _; split; [reflexivity |]);
    repeat apply quiet_log_after; exact Q.
Qed.

(** X8. When the user picks no version, nothing is downloaded: the download
    command answers empty, sends no request and leaves the files alone, also
    when the installed binary is broken and its lookup throws, because the
    version prompt swallows that error. *)
Theorem download_cancelled_without_pick (w : World) :
  (forall items, user_pick (env w) items = None) ->
  exists w',
    downloadPglt w = (Ok None, w')
    /\ files w' = files w /\ requests w' = requests w
    /\ information_messages w' = information_messages w.
Proof.
  intros Hpick. unfold downloadPglt. log_step.
  match goal with
  | |- context [bind promptVersionToDownload _ ?w1] =>
      destruct (promptVersionToDownload_run w1) as (installed & w2 & E & Q);
      rewrite (bind_run _ _ _ _ _ E)
  end.
  cbn [env record]. rewrite Hpick. log_step.
  eexists. split; [reflexivity |].
  assert (Q' : quiet w (record (Log LDebug "No version to download selected, aborting" [])
                          w2)).
  { apply quiet_log_after. eapply quiet_trans; [apply quiet_log | exact Q]. }
  split; [destruct Q' as (_ & Hf & _); exact Hf |].
  split; [apply quiet_requests; exact Q' |].
  apply (quiet_observations _ _ Q').
Qed.

(** The installed binary reports no version and the user closes the pick. *)
Lemma download_cancelled_without_pick_witness :
  exists w',
    downloadPglt
      (host_of bare_env {[ "/storage/global-bin/postgres-language-server" := a_mute_binary ]})
    = (Ok None, w')
    /\ files w' = {[ "/storage/global-bin/postgres-language-server" := a_mute_binary ]}
    /\ requests w' = []
    /\ information_messages w' = [].
Proof.
  exact (download_cancelled_without_pick
           (host_of bare_env
              {[ "/storage/global-bin/postgres-language-server" := a_mute_binary ]})
           (fun _ => eq_refl)).
Defined.



(** ** The settings lookup, further *)

(** X10. A binary setting that does not start with a dot is never anchored
    at the project root: whatever the root and the operating mode, it is
    looked up at the path that [Uri.file] makes of it, which is the setting
    itself when it starts with a slash and the setting with a slash put in
    front otherwise, and that path is the answer exactly when a file is
    there. The lookup shows nothing to the user and only writes to the
    log. *)
Theorem vsCodeSettings_path_without_dot (scope : option Uri) (w : World) (v : JsValue)
    (setting : string) :
  fst (getConfig "bin" scope w) = Ok v ->
  binary_setting v (env w) = Some setting ->
  String.prefix "." setting = false ->
  setting <> "" ->
  (exists w',
      find vsCodeSettingsStrategy scope w
      = (Ok (if file_exists (Uri_file setting) w then Some (Uri_file setting) else None),
         w')
      /\ quiet w w')
  /\ Uri_file setting = (if String.prefix "/" setting then setting else "/" +:+ setting).
Proof.
  intros Hcfg Hset Hdot Hne. split; [| reflexivity].
  apply String.eqb_neq in Hne.
  assert (Hv : config_value "bin" scope (env w) = v).
  { destruct (getConfig_quiet "bin" scope w) as (w0 & E & _).
    rewrite E in Hcfg. cbn in Hcfg. congruence. }
  destruct (vsCodeSettings_find_string scope w v setting Hv Hset Hne) as (w1 & Q & E).
  cbn [find vsCodeSettingsStrategy]. rewrite E. clear E.
  gets_step. rewrite Hdot. ret_step. rewrite Hne. log_step. gets_step.
  rewrite (file_exists_quiet w); [| apply quiet_log_after; exact Q].
  destruct (file_exists (Uri_file setting) w).
  - eexists. split; [reflexivity |]. apply quiet_log_after. exact Q.
  - unfold vsCodeSettings_not_found. log_step. eexists. split; [reflexivity |].
    repeat apply quiet_log_after. exact Q.
Qed.

(** The setting [bin/pgls] in the workspace [/proj]: the binary is looked up,
    and found, at [/bin/pgls]. *)
Lemma vsCodeSettings_path_without_dot_witness :
  exists w',
    find vsCodeSettingsStrategy (Some "/proj")
      (host_of (with_configuration plain_configuration bare_env)
         {[ "/bin/pgls" := a_binary "1.9.0" ]})
    = (Ok (Some "/bin/pgls"), w')
    /\ quiet (host_of (with_configuration plain_configuration bare_env)
                {[ "/bin/pgls" := a_binary "1.9.0" ]}) w'.
Proof.
  refine (proj1 (vsCodeSettings_path_without_dot (Some "/proj")
            (host_of (with_configuration plain_configuration bare_env)
               {[ "/bin/pgls" := a_binary "1.9.0" ]})
            (JString "bin/pgls") "bin/pgls" _ _ _ _));
    try (vm_compute; reflexivity).
  discriminate.
Defined.

(** X11. Without a usable setting the lookup answers "not found" and only
    writes to the log: when the setting is unset, empty or not a path (a
    number, a boolean), and when it is an object without a non-empty string
    entry for the platform identifier of this machine. *)
Theorem vsCodeSettings_unusable_setting (scope : option Uri) (w : World) (v : JsValue) :
  fst (getConfig "bin" scope w) = Ok v ->
  binary_setting v (env w) = None \/ binary_setting v (env w) = Some "" ->
  exists w', find vsCodeSettingsStrategy scope w = (Ok None, w') /\ quiet w w'.
Proof.
  intros Hcfg Hset.
  assert (Hv : config_value "bin" scope (env w) = v).
  { destruct (getConfig_quiet "bin" scope w) as (w0 & E & _).
    rewrite E in Hcfg. cbn in Hcfg. congruence. }
  cbn [find vsCodeSettingsStrategy]. unfold vsCodeSettings_find. log_step.
  match goal with |- context [bind (getConfig "bin" scope) _ ?w0] =>
    destruct (getConfig_quiet "bin" scope w0) as (w1 & E & Q) end.
  rewrite (bind_run _ _ _ _ _ E). cbn [env record] in E |- *. rewrite Hv. clear E.
  assert (Q1 : quiet w w1) by (eapply quiet_trans; [apply quiet_log | exact Q]).
  assert (He : env w1 = env w) by (destruct Q1 as (He & _); exact He).
  unfold vsCodeSettings_not_found.
  destruct v as [| | b | n | s | fields]; cbn [truthy binary_setting negb] in *.
  - log_step. eexists. split; [reflexivity |]. apply quiet_log_after. exact Q1.
  - log_step. eexists. split; [reflexivity |]. apply quiet_log_after. exact Q1.
  - destruct b; cbn [negb]; [ret_step |]; log_step;
      (eexists; split; [reflexivity |]); apply quiet_log_after; exact Q1.
  - destruct (n =? 0); cbn [negb]; [| ret_step ]; log_step;
      (eexists; split; [reflexivity |]); apply quiet_log_after; exact Q1.
  - destruct Hset as [Hset | Hset]; [discriminate |]. injection Hset as ->.
    cbn [String.eqb negb]. log_step.
    eexists. split; [reflexivity |]. apply quiet_log_after. exact Q1.
  - cbn [negb]. rewrite bind_assoc. log_step. rewrite bind_assoc. gets_step.
    cbn [env record]. rewrite He.
    destruct (get_property fields (CONSTANTS.platformIdentifier (env w)))
      as [| | b | n | s | fields'] eqn:Hp; cbn [truthy].
    1, 2: ret_step; log_step; (eexists; split; [reflexivity |]);
          repeat apply quiet_log_after; exact Q1.
    + destruct b; [rewrite bind_assoc; log_step |]; ret_step; log_step;
        (eexists; split; [reflexivity |]); repeat apply quiet_log_after; exact Q1.
    + destruct (n =? 0); cbn [negb]; [| rewrite bind_assoc; log_step]; ret_step; log_step;
        (eexists; split; [reflexivity |]); repeat apply quiet_log_after; exact Q1.
    + destruct Hset as [Hset | Hset]; [discriminate |]. injection Hset as ->.
      cbn [String.eqb negb]. ret_step. log_step.
      eexists. split; [reflexivity |]. repeat apply quiet_log_after. exact Q1.
    + rewrite bind_assoc. log_step. ret_step. log_step.
      eexists. split; [reflexivity |]. repeat apply quiet_log_after. exact Q1.
Qed.

(** An object that has no entry for [linux-x64]. *)
Lemma vsCodeSettings_unusable_setting_witness :
  exists w',
    find vsCodeSettingsStrategy None
      (host_of (with_configuration
                  (fun section _ =>
                     if String.eqb section "postgrestools"
                     then {[ "bin" := JObject [("win32-x64", JString "C:\pgls.exe")] ]}
                     else ∅) bare_env) ∅)
    = (Ok None, w')
    /\ quiet (host_of (with_configuration
                         (fun section _ =>
                            if String.eqb section "postgrestools"
                            then {[ "bin" := JObject [("win32-x64", JString "C:\pgls.exe")] ]}
                            else ∅) bare_env) ∅) w'.
Proof.
  refine (vsCodeSettings_unusable_setting None _
            (JObject [("win32-x64", JString "C:\pgls.exe")]) _ _).
  - vm_compute. reflexivity.
  - left. vm_compute. reflexivity.
Defined.

(** ** The node_modules lookup *)

(** X12. Errors of the module resolution in the node_modules lookup: an
    error that says "cannot find module", in any letter case, means that the
    package is not installed, and when that holds for the current and for the
    legacy package the lookup answers "not found"; any other error of the
    resolution of the current package is thrown on to the caller. When the
    current package is installed but no platform-specific package exists for
    this machine, the lookup answers "not found" at once. Without a project
    root it answers "not found". *)
Theorem nodeModules_resolution_errors (root : Uri) (w : World) :
  (forall err,
      require_resolve (env w) (CONSTANTS.newPackageName +:+ "/package.json") root
      = Throw err ->
      includes "cannot find module" (toLowerCase err) = false ->
      exists w', find nodeModulesStrategy (Some root) w = (Throw err, w') /\ quiet w w')
  /\ (forall err err',
         require_resolve (env w) (CONSTANTS.newPackageName +:+ "/package.json") root
         = Throw err ->
         require_resolve (env w) (CONSTANTS.oldPackageName +:+ "/package.json") root
         = Throw err' ->
         includes "cannot find module" (toLowerCase err) = true ->
         includes "cannot find module" (toLowerCase err') = true ->
         exists w', find nodeModulesStrategy (Some root) w = (Ok None, w') /\ quiet w w')
  /\ (forall main,
         require_resolve (env w) (CONSTANTS.newPackageName +:+ "/package.json") root
         = Ok main ->
         CONSTANTS.newPlatformSpecificNodePackageName (env w) = None ->
         exists w', find nodeModulesStrategy (Some root) w = (Ok None, w') /\ quiet w w')
  /\ (exists w', find nodeModulesStrategy None w = (Ok None, w') /\ quiet w w').
Proof.
  cbn [find nodeModulesStrategy]. unfold nodeModules_find.
  split; [| split; [| split]].
  - intros err Hr Hinc. log_step. gets_step. cbn [env record]. unfold package_candidates.
    cbn [nodeModules_loop]. log_step.
    unfold bind at 1. unfold try_catch. unfold bind at 1. cbn [env record].
    rewrite Hr, Hinc. eexists. split; [reflexivity |].
    repeat apply quiet_log_after. apply quiet_refl.
  - intros err err' Hr Hr' Hinc Hinc'. log_step. gets_step.
    cbn [env record]. unfold package_candidates. cbn [nodeModules_loop]. log_step.
    unfold bind at 1. unfold try_catch. unfold bind at 1. cbn [env record].
    rewrite Hr, Hinc. log_step. unfold ret at 1. cbv beta iota. log_step.
    unfold bind at 1. unfold try_catch. unfold bind at 1. cbn [env record].
    rewrite Hr', Hinc'. log_step. unfold ret at 1. cbv beta iota.
    eexists. split; [reflexivity |]. repeat apply quiet_log_after. apply quiet_refl.
  - intros main Hr Hnone. log_step. gets_step.
    cbn [env record]. unfold package_candidates. cbn [nodeModules_loop]. log_step.
    unfold bind at 1. unfold try_catch. unfold bind at 1. cbn [env record].
    rewrite Hr. unfold ret at 1. cbv beta iota. log_step. rewrite Hnone. log_step.
    eexists. split; [reflexivity |]. repeat apply quiet_log_after. apply quiet_refl.
  - log_step. log_step. eexists. split; [reflexivity |].
    repeat apply quiet_log_after. apply quiet_refl.
Qed.

(** No package is installed in [/proj]. *)
Lemma nodeModules_resolution_errors_witness :
  exists w',
    find nodeModulesStrategy (Some "/proj") (host_of bare_env ∅) = (Ok None, w')
    /\ quiet (host_of bare_env ∅) w'.
Proof.
  refine (proj1 (proj2 (nodeModules_resolution_errors "/proj" (host_of bare_env ∅)))
            _ _ eq_refl eq_refl _ _);
    vm_compute; reflexivity.
Defined.

(** ** The Plug'n'Play lookup *)

Lemma yarnPnp_packages_run (resolveRequest : string -> string -> outcome string)
    (root : Uri) (candidates : list (string * option string * string)) (w : World) :
  exists o w',
    yarnPnp_packages resolveRequest root candidates w = (Ok o, w') /\ quiet w w'.
Proof.
  revert w. induction candidates as [| [[pkgname nodePkgName] binaryName] rest IH]; intros w.
  - exists None, w. split; [reflexivity | apply quiet_refl].
  - cbn [yarnPnp_packages]. destruct nodePkgName as [nodePkg |].
    + unfold bind at 1. unfold try_catch. unfold bind at 1.
      destruct (resolveRequest (pkgname +:+ "/package.json") root)
        as [packageJson | err].
      * unfold bind at 1.
        destruct (resolveRequest (nodePkg +:+ "/" +:+ binaryName) packageJson)
          as [binary | err].
        -- eexists _, _. split; [reflexivity | apply quiet_refl].
        -- log_step. unfold ret at 1. cbv beta iota.
           destruct (IH (record (Log LDebug
                                   "Unable to find package via Yarn Plug'n'Play API"
                                   [pkgname]) w)) as (o & w' & E & Q).
           exists o, w'. split; [exact E |].
           eapply quiet_trans; [apply quiet_log | exact Q].
      * log_step. unfold ret at 1. cbv beta iota.
        destruct (IH (record (Log LDebug
                                "Unable to find package via Yarn Plug'n'Play API"
                                [pkgname]) w)) as (o & w' & E & Q).
        exists o, w'. split; [exact E |].
        eapply quiet_trans; [apply quiet_log | exact Q].
    + log_step.
      match goal with
      | |- context [yarnPnp_packages _ _ _ ?w1] =>
          destruct (IH w1) as (o & w' & E & Q)
      end.
      exists o, w'. split; [exact E |].
      eapply quiet_trans; [apply quiet_log | exact Q].
Qed.

(** How the loop over the manifests may end. *)
Lemma yarnPnp_manifests_run (root : Uri) (exts : list string) (w0 w : World) :
  quiet w0 w ->
  exists o w',
    yarnPnp_manifests root exts w = (o, w')
    /\ quiet w0 w'
    /\ match o with
       | Ok None => True
       | Ok (Some _) =>
           exists ext, In ext exts
                       /\ file_exists (Uri_joinPath root [".pnp." +:+ ext]) w0 = true
       | Throw err =>
           exists ext, In ext exts
                       /\ file_exists (Uri_joinPath root [".pnp." +:+ ext]) w0 = true
                       /\ pnp_require (env w0) (Uri_joinPath root [".pnp." +:+ ext])
                          = Throw err
       end.
Proof.
  revert w. induction exts as [| ext rest IH]; intros w Q.
  - exists (Ok None), w. split; [reflexivity |]. split; [exact Q | exact I].
  - assert (Hlater : forall w1, quiet w0 w1 ->
               exists o w',
                 yarnPnp_manifests root rest w1 = (o, w')
                 /\ quiet w0 w'
                 /\ match o with
                    | Ok None => True
                    | Ok (Some _) =>
                        exists e, In e (ext :: rest)
                                  /\ file_exists (Uri_joinPath root [".pnp." +:+ e]) w0
                                     = true
                    | Throw err =>
                        exists e, In e (ext :: rest)
                                  /\ file_exists (Uri_joinPath root [".pnp." +:+ e]) w0
                                     = true
                                  /\ pnp_require (env w0)
                                       (Uri_joinPath root [".pnp." +:+ e]) = Throw err
                    end).
    { intros w1 Q1. destruct (IH w1 Q1) as (o & w' & E & Q' & Hm).
      exists o, w'. split; [exact E |]. split; [exact Q' |].
      destruct o as [[b |] | err]; [| exact I |].
      - destruct Hm as (e & Hin & He). exists e. split; [right |]; assumption.
      - destruct Hm as (e & Hin & He). exists e. split; [right |]; assumption. }
    cbn [yarnPnp_manifests]. gets_step. rewrite (file_exists_quiet _ _ _ Q).
    destruct (file_exists (Uri_joinPath root [".pnp." +:+ ext]) w0) eqn:Hthere;
      cbn [negb].
    + unfold bind at 1.
      assert (He : env w = env w0) by (destruct Q as (He & _); exact He).
      rewrite He.
      destruct (pnp_require (env w0) (Uri_joinPath root [".pnp." +:+ ext]))
        as [api | err] eqn:Hload.
      * gets_step.
        match goal with
        | |- context [bind (yarnPnp_packages ?f ?r ?c) _ ?w1] =>
            destruct (yarnPnp_packages_run f r c w1) as (o & w1' & E & Q1);
            rewrite (bind_run _ _ _ _ _ E)
        end.
        assert (Q2 : quiet w0 w1') by (eapply quiet_trans; eassumption).
        destruct o as [b |]; [| apply Hlater; exact Q2].
        eexists _, _. split; [reflexivity |]. split; [exact Q2 |].
        exists ext. split; [left; reflexivity | exact Hthere].
      * eexists _, _. split; [reflexivity |]. split; [exact Q |].
        exists ext. split; [left; reflexivity |]. split; assumption.
    + log_step. apply Hlater. apply quiet_log_after. exact Q.
Qed.

(** X13. The Plug'n'Play lookup only writes to the log, and it answers
    with a location only for a project root in which a manifest [.pnp.cjs] or
    [.pnp.js] exists. The errors of the resolution API of a manifest do not
    leave the lookup; the error of loading a manifest does: the lookup throws
    only what loading an existing manifest throws, and it throws whenever
    loading the first manifest, [.pnp.cjs], does. *)
Theorem yarnPnp_throws_only_on_load (path : option Uri) (w : World) :
  (exists o w',
      find yarnPnpStrategy path w = (o, w')
      /\ quiet w w'
      /\ match o with
         | Ok None => True
         | Ok (Some _) =>
             exists root,
               path = Some root
               /\ (file_exists (Uri_joinPath root [".pnp.cjs"]) w = true
                   \/ file_exists (Uri_joinPath root [".pnp.js"]) w = true)
         | Throw err =>
             exists root manifest,
               path = Some root
               /\ (manifest = Uri_joinPath root [".pnp.cjs"]
                   \/ manifest = Uri_joinPath root [".pnp.js"])
               /\ file_exists manifest w = true
               /\ pnp_require (env w) manifest = Throw err
         end)
  /\ (forall root err,
         path = Some root ->
         file_exists (Uri_joinPath root [".pnp.cjs"]) w = true ->
         pnp_require (env w) (Uri_joinPath root [".pnp.cjs"]) = Throw err ->
         fst (find yarnPnpStrategy path w) = Throw err).
Proof.
  cbn [find yarnPnpStrategy]. unfold yarnPnp_find. split.
  - log_step. destruct path as [root |].
    + match goal with
      | |- context [bind (yarnPnp_manifests ?r ?e) _ ?w1] =>
          destruct (yarnPnp_manifests_run r e w w1) as (o & w' & E & Q & Hm);
          [apply quiet_log |]
      end.
      destruct o as [[b |] | err].
      * rewrite (bind_run _ _ _ _ _ E).
        eexists _, _. split; [reflexivity |]. split; [exact Q |].
        exists root. split; [reflexivity |].
        destruct Hm as (ext & Hin & Hex).
        destruct Hin as [<- | [<- | []]]; [left | right]; exact Hex.
      * rewrite (bind_run _ _ _ _ _ E). log_step.
        eexists _, _. split; [reflexivity |].
        split; [apply quiet_log_after; exact Q | exact I].
      * rewrite (bind_throw _ _ _ _ _ E).
        eexists _, _. split; [reflexivity |]. split; [exact Q |].
        destruct Hm as (ext & Hin & Hex & Hload).
        exists root, (Uri_joinPath root [".pnp." +:+ ext]).
        split; [reflexivity |].
        split; [destruct Hin as [<- | [<- | []]]; [left | right]; reflexivity |].
        split; assumption.
    + log_step. eexists _, _. split; [reflexivity |].
      split; [repeat apply quiet_log_after; apply quiet_refl | exact I].
  - intros root err -> Hthere Hload. log_step.
    cbn [yarnPnp_manifests]. rewrite bind_assoc. gets_step.
    change (".pnp." +:+ "cjs") with ".pnp.cjs".
    rewrite (file_exists_quiet w); [| apply quiet_log].
    rewrite Hthere. cbn [negb]. rewrite bind_assoc.
    unfold bind at 1. cbn [env record]. rewrite Hload. reflexivity.
Qed.

(** A manifest that does not load. *)
Lemma yarnPnp_throws_only_on_load_witness :
  fst (find yarnPnpStrategy (Some "/proj")
         (host_of a_broken_manifest_env {[ "/proj/.pnp.cjs" := a_manifest ]}))
  = Throw "SyntaxError: Unexpected token".
Proof.
  refine (proj2 (yarnPnp_throws_only_on_load (Some "/proj")
                   (host_of a_broken_manifest_env {[ "/proj/.pnp.cjs" := a_manifest ]}))
            "/proj" _ eq_refl _ _);
    vm_compute; reflexivity.
Defined.

(** ** The version prompt *)

Lemma release_items_from (downloaded : option string) (rs : list Release) (k : nat) :
  List.map fst (release_items downloaded k rs) = List.map tag_name rs
  /\ forall i label marks,
       release_items downloaded k rs !! i = Some (label, marks) ->
       (In "latest" marks <-> (k + i = 0)%nat)
       /\ (In "(currently installed)" marks <-> downloaded = Some label)
       /\ (In "prerelease" marks
           <-> exists r, rs !! i = Some r /\ prerelease r = true).
Proof.
  revert k. induction rs as [| r rest IH]; intros k.
  - split; [reflexivity |]. intros i label marks H. destruct i; discriminate.
  - destruct (IH (S k)) as (Hlabels & Hmarks).
    split; [cbn [release_items List.map fst]; rewrite Hlabels; reflexivity |].
    intros [| i] label marks H.
    + cbn in H. injection H as <- <-.
      assert (Hin : forall x, (exists y, Some r = Some y /\ x y) <-> x r).
      { intros x. split; [intros (y & Hy & Hx); congruence | eauto]. }
      split; [| split].
      * rewrite Nat.add_0_r.
        destruct (Nat.eqb_spec k 0); destruct (prerelease r); destruct downloaded as [d |];
          try destruct (String.eqb d (tag_name r)); by_marks.
      * destruct (Nat.eqb k 0); destruct (prerelease r); destruct downloaded as [d |];
          try destruct (String.eqb_spec d (tag_name r)); by_marks.
      * cbn [lookup list_lookup]. rewrite (Hin (fun y => prerelease y = true)).
        destruct (Nat.eqb k 0); destruct (prerelease r); destruct downloaded as [d |];
          try destruct (String.eqb d (tag_name r)); by_marks.
    + cbn in H. destruct (Hmarks i label marks H) as (H1 & H2 & H3).
      split; [| split; [exact H2 | exact H3]].
      rewrite H1. lia.
Qed.

(** X14. The quick pick lists the releases in the order of the catalog, one
    item per release with the tag as its label; exactly the first item is
    marked "latest", exactly the prereleases are marked "prerelease", and
    exactly the items whose tag is the installed version are marked
    "(currently installed)". *)
Theorem release_items_marks (downloaded : option string) (rs : list Release) :
  List.map fst (release_items downloaded 0 rs) = List.map tag_name rs
  /\ forall i label marks,
       release_items downloaded 0 rs !! i = Some (label, marks) ->
       (In "latest" marks <-> i = 0%nat)
       /\ (In "(currently installed)" marks <-> downloaded = Some label)
       /\ (In "prerelease" marks
           <-> exists r, rs !! i = Some r /\ prerelease r = true).
Proof.
  destruct (release_items_from downloaded rs 0) as (Hlabels & Hmarks).
  split; [exact Hlabels |]. exact Hmarks.
Qed.

(** ** The cache path *)

(** X15. The temporary location is keyed by the version, for versions
    without a dollar sign and without a slash: the location of such a version
    is [{cache-dir}/{binary-name}-{version}], a file name inside the
    directory of the copies, and two such versions never share a location.
    A dollar sign is not kept as it is, because the version goes through the
    replacement text of [replace]: the versions [1.0$$] and [1.0$] share a
    location. *)
Theorem temporary_location_keyed_by_version (w : World) :
  (forall v v',
      plain_version v = true -> plain_version v' = true -> v <> v' ->
      temporary_location (Some v) w <> temporary_location (Some v') w)
  /\ (forall v,
         plain_version v = true ->
         temporary_location (Some v) w = cache_path v w
         /\ temporary_location (Some v) w <> temporary_directory w
         /\ dirname (temporary_location (Some v) w) = temporary_directory w)
  /\ temporary_location (Some "1.0$$") w = temporary_location (Some "1.0$") w.
Proof.
  split; [| split].
  - intros v v' Hv Hv' Hne E.
    rewrite (temporary_location_cache_path _ _ Hv),
      (temporary_location_cache_path _ _ Hv') in E.
    unfold cache_path in E. apply append_cancel_l in E.
    change ("/postgres-language-server-" +:+ v
            +:+ (if CONSTANTS.is_win32 (env w) then ".exe" else ""))
      with ("/postgres-language-server-"
            +:+ (v +:+ (if CONSTANTS.is_win32 (env w) then ".exe" else ""))) in E.
    change ("/postgres-language-server-" +:+ v'
            +:+ (if CONSTANTS.is_win32 (env w) then ".exe" else ""))
      with ("/postgres-language-server-"
            +:+ (v' +:+ (if CONSTANTS.is_win32 (env w) then ".exe" else ""))) in E.
    apply append_cancel_l, append_cancel_r in E. contradiction.
  - intros v Hv. rewrite (temporary_location_cache_path _ _ Hv).
    destruct (plain_version_spec _ Hv) as [_ Hslash].
    split; [reflexivity |].
    split; [apply cache_path_not_directory | apply cache_path_dirname; exact Hslash].
  - unfold temporary_location. rewrite !temporary_name.
    unfold executable_extension. destruct (CONSTANTS.is_win32 (env w)); reflexivity.
Qed.

Lemma temporary_location_keyed_by_version_witness :
  temporary_location (Some "1.9.0") (host_of bare_env ∅)
  <> temporary_location (Some "2.0.0") (host_of bare_env ∅).
Proof.
  apply (proj1 (temporary_location_keyed_by_version (host_of bare_env ∅)) "1.9.0" "2.0.0");
    [reflexivity | reflexivity | discriminate].
Defined.

(** X16. Two binaries that report the same version share one copy: after
    one of them has been provisioned into an empty cache, provisioning the
    other returns the same location without copying, and the cached bytes
    remain those of the first. (The version has no dollar sign and no slash,
    the directory of the copies can be made, the first binary may be read and
    no directory has the name of the cache path.) *)
Theorem provisioning_shared_by_version (original original' : Uri) (w : World)
    (f f' : File) (v : string) :
  files w !! original = Some f ->
  files w !! original' = Some f' ->
  version_of f = Some v ->
  version_of f' = Some v ->
  plain_version v = true ->
  readable f = true ->
  files w !! temporary_directory w = None ->
  files w !! cache_path v w = None ->
  cache_path v w ∉ dirs w ->
  exists w1 w2,
    copyBinaryToTemporaryLocation original w = (Ok (Some (cache_path v w)), w1)
    /\ copyBinaryToTemporaryLocation original' w1 = (Ok (Some (cache_path v w)), w2)
    /\ copies w2 = (original, cache_path v w) :: copies w
    /\ content <$> files w2 !! cache_path v w = Some (content f).
Proof.
  intros Hb Hb' Hv Hv' Hplain Hread Htmp Hnone Hdir.
  destruct (plain_version_spec _ Hplain) as [_ Hslash].
  destruct (copyBinaryToTemporaryLocation_versioned original v w f Hb Hv Hplain Htmp)
    as (w1 & E1 & He1 & _ & Hc1 & s1 & Hf1 & Hs1).
  { right. apply (cache_path_copyable original v w f); assumption. }
  assert (s1 = f) as -> by (destruct Hs1 as [Hs | [_ Hs]]; congruence).
  unfold file_exists in Hc1. rewrite Hnone in Hc1.
  pose proof (cache_path_env v w w1 He1) as Hpath.
  assert (Hb1 : files w1 !! original' = Some f')
    by (rewrite Hf1, lookup_insert_ne by congruence; exact Hb').
  assert (Htmp1 : files w1 !! temporary_directory w1 = None).
  { unfold temporary_directory. rewrite He1. fold (temporary_directory w).
    rewrite Hf1, lookup_insert_ne; [exact Htmp |].
    apply cache_path_not_directory. }
  assert (Hthere : files w1 !! cache_path v w = Some (mkFile (content f) 493))
    by (rewrite Hf1; apply lookup_insert_eq).
  destruct (copyBinaryToTemporaryLocation_versioned original' v w1 f' Hb1 Hv' Hplain Htmp1)
    as (w2 & E2 & _ & _ & Hc2 & s2 & Hf2 & Hs2).
  { left. rewrite Hpath, Hthere. eauto. }
  rewrite Hpath in *.
  unfold file_exists in Hc2. rewrite Hthere in Hc2.
  exists w1, w2. split; [exact E1 |]. split; [exact E2 |]. split.
  - rewrite Hc2, Hc1. reflexivity.
  - rewrite Hf2, lookup_insert_eq. cbn.
    destruct Hs2 as [Hs | [Hs _]]; [| congruence].
    rewrite Hthere in Hs. injection Hs as <-. reflexivity.
Qed.

(** The binary on [PATH] and the one in the project both report 1.9.0. *)
Lemma provisioning_shared_by_version_witness :
  exists w1 w2,
    copyBinaryToTemporaryLocation "/usr/bin/postgres-language-server"
      (host_of bare_env
         {[ "/usr/bin/postgres-language-server" := a_binary "1.9.0";
            "/proj/bin/pgls" := mkFile (mkContent (Some "1.9.0") "patched") 493 ]})
    = (Ok (Some "/storage/tmp-bin/postgres-language-server-1.9.0"), w1)
    /\ copyBinaryToTemporaryLocation "/proj/bin/pgls" w1
       = (Ok (Some "/storage/tmp-bin/postgres-language-server-1.9.0"), w2)
    /\ copies w2 = [("/usr/bin/postgres-language-server",
                     "/storage/tmp-bin/postgres-language-server-1.9.0")]
    /\ content <$> files w2 !! "/storage/tmp-bin/postgres-language-server-1.9.0"
       = Some (mkContent (Some "1.9.0") "ELF").
Proof.
  refine (provisioning_shared_by_version "/usr/bin/postgres-language-server"
            "/proj/bin/pgls" _ (a_binary "1.9.0")
            (mkFile (mkContent (Some "1.9.0") "patched") 493) "1.9.0" _ _ _ _ _ _ _ _ _);
    try (vm_compute; reflexivity).
  vm_compute. intros H. discriminate H.
Defined.



(** ** The two orderings *)

(** A chain of strategies without preconditions does not throw. *)
Lemma attemptFind_answers (path : option Uri) (l : list Strategy) (w : World) :
  (forall s, In s l -> condition s = None) ->
  exists o w',
    attemptFind l path w = (Ok o, w')
    /\ forall r, o = Some r -> first_success path l w r w'.
Proof.
  intros Hnone.
  destruct (attemptFind_sound path l w)
    as [(w' & E & _) | [(r & w' & E & Hs) | (err & w' & E & He)]].
  - exists None, w'. split; [exact E | discriminate].
  - exists (Some r), w'. split; [exact E |]. intros r' Hr. congruence.
  - destruct He as (pre & s & post & w1 & -> & _ & (c & Hc & _) & _).
    rewrite Hnone in Hc; [discriminate |].
    apply in_or_app. right. left. reflexivity.
Qed.

(** What is known of a result of one of the two orderings: the strategy it
    comes from is in the list, its hook only writes to the log, and unless
    it is the Plug'n'Play strategy its lookup checks that the file exists. *)
Lemma ordering_result (path : option Uri) (l : list Strategy) (w w' : World)
    (r : FindResult) :
  (forall s, In s l ->
             (forall b w0, files (snd (onSuccess s b w0)) = files w0)
             /\ (kind s <> Yarn -> checks_existence (strategy s))) ->
  first_success path l w r w' ->
  (exists s, In s l /\ found_kind r = kind s /\ found_label r = label s)
  /\ (found_kind r <> Yarn -> is_Some (files w' !! bin r)).
Proof.
  intros Hl (pre & s & post & b & w1 & w2 & -> & _ & _ & Hloc & -> & Hh).
  assert (Hin : In s (pre ++ s :: post)) by (apply in_or_app; right; left; reflexivity).
  destruct (Hl s Hin) as (Hhook & Hcheck). cbn [bin found_kind found_label].
  split; [exists s; repeat split; exact Hin |].
  intros Hk. specialize (Hhook b w2). rewrite Hh in Hhook. cbn [snd] in Hhook.
  rewrite Hhook.
  specialize (Hcheck Hk path (after_precondition s path w1)).
  unfold locate in Hloc. rewrite Hloc in Hcheck. exact Hcheck.
Qed.

Lemma global_strategies_check (s : Strategy) :
  In s GLOBAL_STRATEGIES ->
  ((forall b w0, files (snd (onSuccess s b w0)) = files w0)
   /\ (kind s <> Yarn -> checks_existence (strategy s)))
  /\ (kind s = VsCodeSettings \/ kind s = Path \/ kind s = Download)
  /\ condition s = None.
Proof.
  intros [<- | [<- | [<- | []]]]; cbn [onSuccess kind strategy condition];
    (split; [split; [reflexivity | intros _] | auto]).
  - apply vsCodeSettings_checks.
  - apply pathEnvironmentVariable_checks.
  - apply downloadPglt_checks.
Qed.

Lemma local_strategies_check (s : Strategy) :
  In s LOCAL_STRATEGIES ->
  ((forall b w0, files (snd (onSuccess s b w0)) = files w0)
   /\ (kind s <> Yarn -> checks_existence (strategy s)))
  /\ condition s = None.
Proof.
  intros [<- | [<- | [<- | [<- | [<- | []]]]]]; cbn [onSuccess kind strategy condition];
    (split; [split; [reflexivity | intros Hk] | reflexivity]).
  - apply vsCodeSettings_checks.
  - apply nodeModules_checks.
  - congruence.
  - apply pathEnvironmentVariable_checks.
  - apply downloadPglt_checks.
Qed.

(** X18. Neither finder throws. A binary found with the global ordering
    comes from the settings, from PATH or from the download, never from a
    package manager, and its file exists when the finder returns; a binary
    found with the local ordering exists when the finder returns unless it
    comes from the Plug'n'Play strategy. *)
Theorem finders_return_existing_files (w : World) :
  (exists o w',
      BinaryFinder.findGlobally w = (Ok o, w')
      /\ forall r, o = Some r ->
                   is_Some (files w' !! bin r)
                   /\ (found_kind r = VsCodeSettings \/ found_kind r = Path
                       \/ found_kind r = Download))
  /\ (forall root,
         exists o w',
           BinaryFinder.findLocally root w = (Ok o, w')
           /\ forall r, o = Some r -> found_kind r <> Yarn ->
                        is_Some (files w' !! bin r)).
Proof.
  split.
  - unfold BinaryFinder.findGlobally. log_step.
    match goal with
    | |- context [bind (attemptFind ?l ?p) _ ?w1] =>
        destruct (attemptFind_answers p l w1) as (o & w' & E & Hs);
        [intros s Hin;
         first [ exact (proj2 (proj2 (global_strategies_check s Hin)))
               | exact (proj2 (local_strategies_check s Hin)) ]
        | rewrite (bind_run _ _ _ _ _ E)]
    end.
    destruct o as [r |].
    + eexists _, _. split; [reflexivity |]. intros r' Hr. injection Hr as <-.
      destruct (ordering_result None GLOBAL_STRATEGIES _ _ r
                  (fun s Hin => proj1 (global_strategies_check s Hin)) (Hs r eq_refl))
        as ((s & Hin & Hk & _) & Hex).
      destruct (global_strategies_check s Hin) as (_ & Hkind & _).
      rewrite Hk. split; [| exact Hkind].
      apply Hex. rewrite Hk. destruct Hkind as [-> | [-> | ->]]; discriminate.
    + log_step. eexists _, _. split; [reflexivity | discriminate].
  - intros root. unfold BinaryFinder.findLocally. log_step.
    match goal with
    | |- context [bind (attemptFind ?l ?p) _ ?w1] =>
        destruct (attemptFind_answers p l w1) as (o & w' & E & Hs);
        [intros s Hin;
         first [ exact (proj2 (proj2 (global_strategies_check s Hin)))
               | exact (proj2 (local_strategies_check s Hin)) ]
        | rewrite (bind_run _ _ _ _ _ E)]
    end.
    destruct o as [r |].
    + eexists _, _. split; [reflexivity |]. intros r' Hr. injection Hr as <-.
      apply (ordering_result (Some root) LOCAL_STRATEGIES _ _ r
               (fun s Hin => proj1 (local_strategies_check s Hin)) (Hs r eq_refl)).
    + log_step. eexists _, _. split; [reflexivity | discriminate].
Qed.

Lemma findBinary_answers (projects : list Project) (w : World) :
  exists o w', findBinary projects w = (Ok o, w').
Proof.
  assert (Hg : exists o w', BinaryFinder.findGlobally w = (Ok o, w')).
  { unfold BinaryFinder.findGlobally. log_step.
    match goal with
    | |- context [bind (attemptFind ?l ?p) _ ?w1] =>
        destruct (attemptFind_answers p l w1) as (o & w' & E & _);
        [intros s Hin;
         first [ exact (proj2 (proj2 (global_strategies_check s Hin)))
               | exact (proj2 (local_strategies_check s Hin)) ]
        | rewrite (bind_run _ _ _ _ _ E)]
    end.
    destruct o; [| log_step]; eexists _, _; reflexivity. }
  assert (Hl : forall root, exists o w', BinaryFinder.findLocally root w = (Ok o, w')).
  { intros root. unfold BinaryFinder.findLocally. log_step.
    match goal with
    | |- context [bind (attemptFind ?l ?p) _ ?w1] =>
        destruct (attemptFind_answers p l w1) as (o & w' & E & _);
        [intros s Hin;
         first [ exact (proj2 (proj2 (global_strategies_check s Hin)))
               | exact (proj2 (local_strategies_check s Hin)) ]
        | rewrite (bind_run _ _ _ _ _ E)]
    end.
    destruct o; [| log_step]; eexists _, _; reflexivity. }
  unfold findBinary. gets_step.
  destruct (CONSTANTS.operatingMode (env w)); destruct projects as [| p rest];
    try exact Hg.
  apply Hl.
Qed.

(** ** Session creation, further *)

Lemma notifyOfUpdate_dirs (v : string) (kind : StrategyKind) (w : World) :
  dirs (snd (notifyOfUpdate v kind w)) = dirs w.
Proof.
  unfold notifyOfUpdate, Date_now, last_notified. repeat gets_step.
  destruct (notification_due _ _); [| reflexivity].
  rewrite bind_assoc. gets_step.
  destruct (releases_versionOutdated (env w) v).
  - rewrite bind_assoc. rewrite (bind_run _ _ _ _ _ (hasNewName_run w)).
    rewrite bind_assoc. gets_step. log_step. gets_step. reflexivity.
  - ret_step. gets_step. reflexivity.
Qed.

Section SessionOutcomes.

Variable semver_gte : string -> string -> outcome bool.

(** Session creation once a binary is found, is executable and reports a
    version [v]: after the notice block, either [semver.gte] throws in
    multi-root operation, or the binary is provisioned, on a host with the
    files and directories the finder left, and a session is made with the
    outcome of the provisioning. *)
Lemma createSession_found (projects : list Project) (w w1 : World)
    (found : FindResult) (f : File) (v : string) :
  findBinary projects w = (Ok (Some found), w1) ->
  files w1 !! bin found = Some f ->
  N.testbit (mode f) 6 = true ->
  reports (content f) = Some v ->
  exists answer w',
    createSession semver_gte projects w = (answer, w')
    /\ ((exists err,
            CONSTANTS.operatingMode (env w1) = MultiRoot
            /\ semver_gte v "0.8.0" = Throw err
            /\ answer = Throw err
            /\ env w' = env w1)
        \/ (exists w3 o w4,
               (CONSTANTS.operatingMode (env w1) = MultiRoot ->
                exists b, semver_gte v "0.8.0" = Ok b)
               /\ env w3 = env w1 /\ files w3 = files w1 /\ dirs w3 = dirs w1
               /\ copyBinaryToTemporaryLocation (bin found) w3 = (Ok o, w4)
               /\ answer
                  = Ok (Some (mkSession (bin found) (found_label found) o
                                (client_for (default (bin found) o) projects)))
               /\ files w' = files w4)).
Proof.
  intros Hfind Hf Hx Hv.
  destruct (notifyOfUpdate_run v (found_kind found) w1) as (w2 & E & He2 & Hf2 & _).
  pose proof (notifyOfUpdate_dirs v (found_kind found) w1) as Hd2.
  rewrite E in Hd2. cbn [snd] in Hd2.
  unfold createSession. rewrite (bind_run _ _ _ _ _ Hfind).
  gets_step. unfold fileIsExecutable at 1. rewrite Hf, Hx. cbn [negb].
  unfold getVersion. gets_step. rewrite Hf. unfold version_of. rewrite Hx, Hv.
  rewrite (bind_run _ _ _ _ _ E). gets_step. rewrite He2.
  assert (Hrest : forall w0,
             env w0 = env w1 -> files w0 = files w1 -> dirs w0 = dirs w1 ->
             exists w3 o w4 w',
               env w3 = env w1 /\ files w3 = files w1 /\ dirs w3 = dirs w1
               /\ copyBinaryToTemporaryLocation (bin found) w3 = (Ok o, w4)
               /\ (logger.info "Copying binary to temp location" [bin found] ;;;
                   let* tempBin := copyBinaryToTemporaryLocation (bin found) in
                   match tempBin with
                   | None =>
                       logger.warn
                         "Failed to copy binary to temporary location. Using original." []
                   | Some _ => ret tt
                   end ;;;
                   let* client :=
                     createLanguageClient (default (bin found) tempBin) projects in
                   ret (Some (mkSession (bin found) (found_label found) tempBin client)))
                    w0
                  = (Ok (Some (mkSession (bin found) (found_label found) o
                                 (client_for (default (bin found) o) projects))), w')
               /\ files w' = files w4).
  { intros w0 He Hfs Hds. log_step.
    match goal with
    | |- context [bind (copyBinaryToTemporaryLocation ?b) _ ?w3] =>
        pose proof (copyBinaryToTemporaryLocation_cases b w3) as Hcopy;
        cbv zeta in Hcopy;
        destruct Hcopy as (o & w4 & E4 & _);
        exists w3, o, w4
    end.
    rewrite (bind_run _ _ _ _ _ E4).
    destruct o as [location |]; repeat first [ret_step | log_step];
      rewrite (bind_run _ _ _ _ _ (createLanguageClient_run _ _ _)); unfold ret;
      eexists; repeat split; try eassumption; reflexivity. }
  destruct (CONSTANTS.operatingMode (env w1)) eqn:Hmode.
  - ret_step.
    destruct (Hrest w2 He2 Hf2 Hd2) as (w3 & o & w4 & w' & H1 & H2 & H3 & H4 & H5 & H6).
    eexists _, w'. split; [exact H5 |]. right. exists w3, o, w4.
    repeat split; try assumption. discriminate.
  - ret_step.
    destruct (Hrest w2 He2 Hf2 Hd2) as (w3 & o & w4 & w' & H1 & H2 & H3 & H4 & H5 & H6).
    eexists _, w'. split; [exact H5 |]. right. exists w3, o, w4.
    repeat split; try assumption. discriminate.
  - rewrite bind_assoc. unfold bind at 1.
    destruct (semver_gte v "0.8.0") as [[|] | err] eqn:Hsem; cbn [negb].
    + ret_step.
      destruct (Hrest w2 He2 Hf2 Hd2) as (w3 & o & w4 & w' & H1 & H2 & H3 & H4 & H5 & H6).
      eexists _, w'. split; [exact H5 |]. right. exists w3, o, w4.
      repeat split; try assumption. intros _. eauto.
    + log_step.
      match goal with
      | |- context [record ?e w2] =>
          destruct (Hrest (record e w2) He2 Hf2 Hd2)
            as (w3 & o & w4 & w' & H1 & H2 & H3 & H4 & H5 & H6)
      end.
      eexists _, w'. split; [exact H5 |]. right. exists w3, o, w4.
      repeat split; try assumption. intros _. eauto.
    + eexists _, w2. split; [reflexivity |]. left. exists err.
      repeat split; try reflexivity. exact He2.
Qed.

(** X19. The ways session creation ends without a session. When no binary
    is found, or the binary found is not executable, it returns nothing
    after one error message to the user (which names the binary in the second
    case), and copies nothing, changes no file and does not touch the stored
    time of the last notice. It throws in two cases only: with the internal
    error of a binary that is executable and reports no version, and, in
    multi-root operation, with the error that [semver.gte] throws on the
    version of the binary. *)
Theorem createSession_failures (projects : list Project) (w : World) :
  (forall w1,
      findBinary projects w = (Ok None, w1) ->
      exists w',
        createSession semver_gte projects w = (Ok None, w')
        /\ error_messages w' = no_binary_message :: error_messages w1
        /\ files w' = files w1 /\ copies w' = copies w1
        /\ globalState w' = globalState w1)
  /\ (forall found w1,
         findBinary projects w = (Ok (Some found), w1) ->
         fileIsExecutable (bin found) w1 = false ->
         exists w',
           createSession semver_gte projects w = (Ok None, w')
           /\ error_messages w' = not_executable_message (bin found) :: error_messages w1
           /\ occurs_in (bin found) (not_executable_message (bin found))
           /\ files w' = files w1 /\ copies w' = copies w1
           /\ globalState w' = globalState w1)
  /\ (forall err w',
         createSession semver_gte projects w = (Throw err, w') ->
         err = no_version_error
         \/ (CONSTANTS.operatingMode (env w') = MultiRoot
             /\ exists v, semver_gte v "0.8.0" = Throw err)).
Proof.
  split; [| split].
  - intros w1 Hfind. unfold createSession. rewrite (bind_run _ _ _ _ _ Hfind).
    log_step. log_step. eexists. split; [reflexivity |]. repeat split.
  - intros found w1 Hfind Hx. unfold createSession. rewrite (bind_run _ _ _ _ _ Hfind).
    gets_step. rewrite Hx. cbn [negb]. log_step. log_step.
    eexists. split; [reflexivity |]. split; [reflexivity |].
    split; [| repeat split].
    exists (nl +:+ "      The binary you've pointed to is not executable."
            +:+ nl +:+ "      ("), (")" +:+ nl +:+ "    ").
    unfold not_executable_message. rewrite !append_assoc. reflexivity.
  - intros err w' Hthrow.
    destruct (findBinary_answers projects w) as (o & w1 & Hfind).
    destruct o as [found |].
    + destruct (fileIsExecutable (bin found) w1) eqn:Hx.
      * unfold fileIsExecutable in Hx.
        destruct (files w1 !! bin found) as [f |] eqn:Hf; [| discriminate].
        destruct (reports (content f)) as [v |] eqn:Hv.
        -- destruct (createSession_found projects w w1 found f v Hfind Hf Hx Hv)
             as (answer & w2 & E & [(err' & Hmode & Hsem & -> & He)
                                   | (w3 & o & w4 & _ & _ & _ & _ & _ & -> & _)]);
             [| congruence].
           rewrite E in Hthrow. injection Hthrow as <- <-.
           right. rewrite He. split; [exact Hmode | eauto].
        -- left. unfold createSession in Hthrow.
           rewrite (bind_run _ _ _ _ _ Hfind) in Hthrow.
           revert Hthrow. gets_step. unfold fileIsExecutable at 1. rewrite Hf, Hx.
           cbn [negb]. unfold getVersion. gets_step. rewrite Hf.
           unfold version_of. rewrite Hx, Hv.
           intros Hthrow. injection Hthrow as <- _. reflexivity.
      * unfold createSession in Hthrow. rewrite (bind_run _ _ _ _ _ Hfind) in Hthrow.
        revert Hthrow. gets_step. rewrite Hx. cbn [negb]. log_step. log_step.
        discriminate.
    + unfold createSession in Hthrow. rewrite (bind_run _ _ _ _ _ Hfind) in Hthrow.
      revert Hthrow. log_step. log_step. discriminate.
Qed.


End SessionOutcomes.

(** Nothing is installed and the user declines the download. *)
Lemma createSession_failures_witness :
  exists w',
    createSession (fun _ _ => Ok true) [mkProject "/proj" None] (host_of bare_env ∅)
    = (Ok None, w')
    /\ error_messages w' = [no_binary_message]
    /\ files w' = ∅ /\ copies w' = [].
Proof.
  eassert (Hfind : findBinary [mkProject "/proj" None] (host_of bare_env ∅) = (Ok None, _))
    by (vm_compute; reflexivity).
  destruct (proj1 (createSession_failures (fun _ _ => Ok true) _ _) _ Hfind)
    as (w' & E & He & Hf & Hc & _).
  exists w'. repeat split; assumption.
Defined.


(** ** The node_modules lookup, further *)

Lemma dirname_of_package_json (dir : string) :
  dir <> "" -> dir <> "/" -> dirname (dir +:+ "/package.json") = dir.
Proof.
  intros Hne Hroot. apply dirname_append; try reflexivity; [| exact Hroot].
  destruct dir; [contradiction | reflexivity].
Qed.

(** The binary next to [{dir}/package.json], as the lookup names it. *)
Lemma binary_beside_package_json (dir : string) (e : Env) :
  Uri_file (path_join (dirname (dir +:+ "/package.json"))
              (CONSTANTS.newPlatformSpecificBinaryName e))
  = Uri_file (path_join dir (CONSTANTS.newPlatformSpecificBinaryName e)).
Proof.
  destruct (String.eqb_spec dir "") as [-> | Hne].
  { unfold CONSTANTS.newPlatformSpecificBinaryName.
    destruct (CONSTANTS.is_win32 e); reflexivity. }
  destruct (String.eqb_spec dir "/") as [-> | Hroot].
  { unfold CONSTANTS.newPlatformSpecificBinaryName.
    destruct (CONSTANTS.is_win32 e); reflexivity. }
  rewrite (dirname_of_package_json _ Hne Hroot). reflexivity.
Qed.

(** X21. The node_modules lookup finds the binary next to the
    [package.json] of the platform-specific package of the current package:
    when the current package is installed and its platform-specific package
    resolves to [{dir}/package.json], the lookup answers [{dir}/{binary name}]
    if a file is there, without consulting the legacy package; an error of
    that nested resolution is thrown on to the caller. The answer is the
    normalised join made into a file URI, which for a directory whose path
    starts with a slash is the join itself. *)
Theorem nodeModules_finds_current_package (root : Uri) (w : World) (main pkg : string) :
  require_resolve (env w) (CONSTANTS.newPackageName +:+ "/package.json") root = Ok main ->
  CONSTANTS.newPlatformSpecificNodePackageName (env w) = Some pkg ->
  (forall dir,
      require_resolve_from (env w) main (pkg +:+ "/package.json")
      = Ok (dir +:+ "/package.json") ->
      file_exists
        (Uri_file (path_join dir (CONSTANTS.newPlatformSpecificBinaryName (env w)))) w
      = true ->
      exists w',
        find nodeModulesStrategy (Some root) w
        = (Ok (Some (Uri_file
                       (path_join dir (CONSTANTS.newPlatformSpecificBinaryName (env w))))),
           w')
        /\ quiet w w')
  /\ (forall dir,
         String.prefix "/" dir = true ->
         Uri_file (path_join dir (CONSTANTS.newPlatformSpecificBinaryName (env w)))
         = path_join dir (CONSTANTS.newPlatformSpecificBinaryName (env w)))
  /\ (forall err,
         require_resolve_from (env w) main (pkg +:+ "/package.json") = Throw err ->
         exists w', find nodeModulesStrategy (Some root) w = (Throw err, w') /\ quiet w w').
Proof.
  intros Hr Hpkg. cbn [find nodeModulesStrategy]. unfold nodeModules_find.
  split; [| split]; [intros dir Hn Hex | | intros err Hn].
  2:{ intros dir Habs. apply Uri_file_absolute. unfold path_join.
      apply posix_join_absolute. exact Habs. }
  all: log_step; gets_step; cbn [env record]; unfold package_candidates;
    cbn [nodeModules_loop]; log_step;
    unfold bind at 1; unfold try_catch; unfold bind at 1; cbn [env record];
    rewrite Hr; unfold ret at 1; cbv beta iota; log_step; rewrite Hpkg; log_step;
    unfold bind at 1; cbn [env record]; rewrite Hn.
  - log_step. rewrite binary_beside_package_json. gets_step.
    match goal with
    | |- context [file_exists ?p ?w1] =>
        replace (file_exists p w1) with true
          by (symmetry; rewrite <- Hex; apply file_exists_quiet;
              repeat apply quiet_log_after; apply quiet_refl)
    end.
    eexists. split; [reflexivity |]. repeat apply quiet_log_after. apply quiet_refl.
  - eexists. split; [reflexivity |]. repeat apply quiet_log_after. apply quiet_refl.
Qed.

(** The platform-specific package of the current package holds the binary. *)
Lemma nodeModules_finds_current_package_witness :
  exists w',
    find nodeModulesStrategy (Some "/proj")
      (host_of npm_env
         {[ "/proj/node_modules/@postgres-language-server/cli-x86_64-linux-gnu/postgres-language-server"
            := a_binary "2.0.0" ]})
    = (Ok (Some "/proj/node_modules/@postgres-language-server/cli-x86_64-linux-gnu/postgres-language-server"),
       w')
    /\ quiet (host_of npm_env
                {[ "/proj/node_modules/@postgres-language-server/cli-x86_64-linux-gnu/postgres-language-server"
                   := a_binary "2.0.0" ]}) w'.
Proof.
  refine (proj1 (nodeModules_finds_current_package "/proj" _
                   "/proj/node_modules/@postgres-language-server/cli/package.json"
                   "@postgres-language-server/cli-x86_64-linux-gnu" _ _)
            "/proj/node_modules/@postgres-language-server/cli-x86_64-linux-gnu" _ _);
    vm_compute; reflexivity.
Defined.

(** ** The enabled switch *)

(** X22. Whether the extension is enabled for a folder is decided by the
    legacy prefix alone whenever [enabled] under the new prefix is a boolean
    or is not set: [true] under the new prefix does not enable a folder for
    which the legacy prefix sets nothing. *)
Theorem isEnabledForFolder_reads_legacy_prefix (folder : Uri) (w : World) :
  (configuration (env w) "postgres-language-server" (Some folder) !! "enabled" = None
   \/ exists b, configuration (env w) "postgres-language-server" (Some folder) !! "enabled"
                = Some (JBool b)) ->
  fst (isEnabledForFolder folder w)
  = Ok (truthy (default JUndefined
                  (configuration (env w) "postgrestools" (Some folder) !! "enabled"))).
Proof.
  intros Hnew. unfold isEnabledForFolder.
  destruct (getConfig_quiet "enabled" (Some folder) w) as (w' & E & _).
  rewrite (bind_run _ _ _ _ _ E). cbn [fst ret]. unfold config_value.
  destruct Hnew as [-> | [b ->]]; reflexivity.
Qed.

(** [enabled] is [true] under the new prefix only. *)
Lemma isEnabledForFolder_reads_legacy_prefix_witness :
  fst (isEnabledForFolder "/proj"
         (host_of (with_configuration
                     (fun section _ =>
                        if String.eqb section "postgres-language-server"
                        then {[ "enabled" := JBool true ]} else ∅) bare_env) ∅))
  = Ok false.
Proof.
  refine (isEnabledForFolder_reads_legacy_prefix "/proj" _ _).
  right. exists true. vm_compute. reflexivity.
Defined.
